(** * AutoGUI-X: orchestrator and macOS backend

    A shallow embedding of [autoguix/core/types.py],
    [autoguix/core/automation_core.py],
    [autoguix/backends/macos_backend.py] and the functions of
    [autoguix/__init__.py], followed by the properties of the lifecycle,
    of the keyboard and mouse event sequences and of image location that
    the specification states, and by further properties of the same code:
    its errors, its event counts, the screen capture and the conversions.

    Python [int] is [Z]; Python [float] is [pyfloat], binary64 with every
    operation rounded to nearest-even; Python [str] is a list of code
    points.  A method that talks to the operating system is a function of
    the [World], returning its outcome and the new world; everything posted
    to the event tap and every suspension is appended to the world's trace. *)

From Stdlib Require Import ZArith QArith Qround Qabs Qpower Qreduction Qcanon.
From Stdlib Require Import List String Ascii Bool Lia Lqa Sorted.
From Stdlib.Strings Require Import Byte.
From Stdlib Require Import SpecFloat.
Import ListNotations.

Local Open Scope Z_scope.

(* ------------------------------------------------------------------ *)
(** ** Python values: exceptions, strings, floats *)

(** Python strings are sequences of Unicode code points. *)
Definition codepoint := N.
Definition pystr := list codepoint.

Definition pystr_of_string (s : string) : pystr :=
  List.map N_of_ascii (list_ascii_of_string s).

Definition pystr_eqb (a b : pystr) : bool :=
  if list_eq_dec N.eq_dec a b then true else false.

(** The exceptions the modelled code raises, by class and cause. *)
Inductive exn_class :=
| RuntimeError | OSError | ImportError | ValueError
| FileNotFoundError | OverflowError | ZeroDivisionError.

Inductive exn :=
| CoreNotInitialized            (* RuntimeError, automation_core.py:40 *)
| BackendNotInitialized         (* RuntimeError, macos_backend.py:93 *)
| CaptureFailed                 (* RuntimeError, macos_backend.py:119 *)
| UnsupportedPlatform (platform : string)      (* OSError *)
| PyObjCRequired                (* ImportError, macos_backend.py:81 *)
| OpenCVRequired                (* ImportError, macos_backend.py:296 *)
| UnknownKey (key : pystr)      (* ValueError, macos_backend.py:219 *)
| TemplateNotLoaded (image : pystr)            (* FileNotFoundError *)
| FloatNaNToInt                 (* ValueError: int(nan) *)
| FloatInfToInt                 (* OverflowError: int(inf) *)
| IntTooLargeForFloat           (* OverflowError: float(int), int / int *)
| DivisionByZero                (* ZeroDivisionError *)
| BufferShape                   (* ValueError: ndarray.reshape *)
| Foreign (c : exn_class) (msg : string).      (* raised by other backends *)

Definition class_of (e : exn) : exn_class :=
  match e with
  | CoreNotInitialized | BackendNotInitialized | CaptureFailed => RuntimeError
  | UnsupportedPlatform _ => OSError
  | PyObjCRequired | OpenCVRequired => ImportError
  | UnknownKey _ | FloatNaNToInt | BufferShape => ValueError
  | TemplateNotLoaded _ => FileNotFoundError
  | FloatInfToInt | IntTooLargeForFloat => OverflowError
  | DivisionByZero => ZeroDivisionError
  | Foreign c _ => c
  end.

Inductive result (A : Type) :=
| Ok (a : A)
| Raise (e : exn).
Arguments Ok {A} a.
Arguments Raise {A} e.

Module PyFloat.

(** A binary64 value: a finite one is the rational it denotes (the sign
    of zero is not kept: nothing below looks at it). *)
Inductive pyfloat :=
| Finite (q : Q)
| Inf (negative : bool)
| NaN.

(** [2 ^ ilog2 q <= q < 2 ^ (ilog2 q + 1)] for [q > 0]. *)
Definition ilog2 (q : Q) : Z :=
  let l := Z.log2 (Qnum q) - Z.log2 (Zpos (Qden q)) in
  if Qle_bool (2 ^ l) q then l else l - 1.

(** Nearest integer, ties to even. *)
Definition rne (q : Q) : Z :=
  let f := Qfloor q in
  match (q - inject_Z f ?= 1 # 2)%Q with
  | Lt => f
  | Gt => f + 1
  | Eq => if Z.even f then f else f + 1
  end.

Definition is_neg (q : Q) : bool := negb (Qle_bool 0 q).

(** Rounding of a canonical rational to binary64: 53 bits of precision,
    least exponent -1074, overflow from 2^1024. *)
Definition round_canon (q : Q) : pyfloat :=
  if Qeq_bool q 0 then Finite 0
  else
    let e := Z.max (ilog2 (Qabs q) - 52) (-1074) in
    let r := (inject_Z (rne (q * 2 ^ (- e))) * 2 ^ e)%Q in
    if Qle_bool (2 ^ 1024) (Qabs r) then Inf (is_neg q) else Finite (Qred r).

Definition round64 (q : Q) : pyfloat := round_canon (Qred q).

(** [float(z)] *)
Definition of_int (z : Z) : result pyfloat :=
  match round64 (inject_Z z) with
  | Inf _ => Raise IntTooLargeForFloat
  | f => Ok f
  end.

(** [int(f)]: truncation toward zero. *)
Definition trunc (q : Q) : Z := Z.quot (Qnum q) (Zpos (Qden q)).

Definition to_int (f : pyfloat) : result Z :=
  match f with
  | Finite q => Ok (trunc q)
  | Inf _ => Raise FloatInfToInt
  | NaN => Raise FloatNaNToInt
  end.

(** [a * b] *)
Definition mul (a b : pyfloat) : pyfloat :=
  match a, b with
  | NaN, _ | _, NaN => NaN
  | Finite x, Finite y => round64 (x * y)
  | Inf s, Inf t => Inf (xorb s t)
  | Inf s, Finite y | Finite y, Inf s =>
      if Qeq_bool y 0 then NaN else Inf (xorb s (is_neg y))
  end.

(** [a + b] *)
Definition add (a b : pyfloat) : pyfloat :=
  match a, b with
  | NaN, _ | _, NaN => NaN
  | Finite x, Finite y => round64 (x + y)
  | Inf s, Inf t => if Bool.eqb s t then Inf s else NaN
  | Inf s, Finite _ | Finite _, Inf s => Inf s
  end.

(** [a / b] on floats. *)
Definition div (a b : pyfloat) : result pyfloat :=
  match a, b with
  | _, Finite y =>
      if Qeq_bool y 0 then Raise DivisionByZero
      else match a with
           | Finite x => Ok (round64 (x / y))
           | Inf s => Ok (Inf (xorb s (is_neg y)))
           | NaN => Ok NaN
           end
  | NaN, _ | _, NaN => Ok NaN
  | Inf _, Inf _ => Ok NaN
  | Finite _, Inf _ => Ok (Finite 0)
  end.

(** [i / n] on ints: the correctly rounded quotient. *)
Definition truediv (i n : Z) : result pyfloat :=
  if n =? 0 then Raise DivisionByZero
  else match round64 (inject_Z i / inject_Z n) with
       | Inf _ => Raise IntTooLargeForFloat
       | f => Ok f
       end.

(** [f <= 0], [f > 0], [a < b], [a >= b]: false on NaN. *)
Definition le0 (f : pyfloat) : bool :=
  match f with
  | Finite q => Qle_bool q 0
  | Inf s => s
  | NaN => false
  end.

Definition gt0 (f : pyfloat) : bool :=
  match f with
  | Finite q => negb (Qle_bool q 0)
  | Inf s => negb s
  | NaN => false
  end.

Definition ltb (a b : pyfloat) : bool :=
  match a, b with
  | NaN, _ | _, NaN => false
  | Finite x, Finite y => negb (Qle_bool y x)
  | Finite _, Inf s => negb s
  | Inf s, Finite _ => s
  | Inf s, Inf t => s && negb t
  end.

Definition geb (a b : pyfloat) : bool :=
  match a, b with
  | NaN, _ | _, NaN => false
  | Finite x, Finite y => Qle_bool y x
  | Finite _, Inf s => s
  | Inf s, Finite _ => negb s
  | Inf s, Inf t => negb s || t
  end.

(** The value of a Standard Library [spec_float], to compare the
    rounding above with the library's binary64 operations. *)
Definition of_spec (f : spec_float) : pyfloat :=
  match f with
  | S754_zero _ => Finite 0
  | S754_infinity s => Inf s
  | S754_nan => NaN
  | S754_finite s m e =>
      Finite (Qred (inject_Z (if s then Z.neg m else Z.pos m) * 2 ^ e))
  end.

Definition spec_of_int (z : Z) : spec_float :=
  binary_normalize 53 1024 z 0 false.

End PyFloat.
Export PyFloat.

(* ------------------------------------------------------------------ *)
(** ** autoguix/core/types.py *)

Module Point.
Record t := mk { x : Z; y : Z }.
End Point.

Module Size.
Record t := mk { width : Z; height : Z }.
End Size.

Module Region.
Record t := mk { left : Z; top : Z; width : Z; height : Z }.
End Region.

Inductive MouseButton := LEFT | RIGHT | MIDDLE.
Inductive LocateMode := IMAGE | OBJECT.

(* ------------------------------------------------------------------ *)
(** ** The host: Quartz CoreGraphics, asyncio, OpenCV, the str type

    The external collaborators are taken as an interface.  The state of the
    operating system is abstract; events and images are the values the
    backend builds and receives. *)

(** An event as it is when posted: the arguments of its constructor and
    what was set on it afterwards. *)
Inductive CGEvent :=
| MouseEvent (type : Z) (pos : Z * Z) (button : Z) (fields : list (Z * Z))
| ScrollWheelEvent (units wheel_count delta : Z)
| KeyboardEvent (keycode : Z) (key_down : bool) (flags : Z)
                (unicode : option (Z * pystr)).

(** What the backend does to the outside, in order. *)
Inductive Action :=
| Post (tap : Z) (e : CGEvent)          (* cg.CGEventPost(tap, e) *)
| Sleep (delay : pyfloat).              (* await asyncio.sleep(delay) *)

(** A captured image: [CGImageGetWidth], [CGImageGetHeight],
    [CGImageGetBytesPerRow] and the bytes of its data provider. *)
Record CGImage := mkCGImage {
  img_width : Z;
  img_height : Z;
  img_bytes_per_row : Z;
  img_data : list byte
}.

(** A PIL image in mode RGB: rows of pixels. *)
Definition Image := list (list (byte * byte * byte)).

(** ASCII lower-casing of one code point. *)
Definition ascii_lower (c : codepoint) : codepoint :=
  if ((65 <=? c) && (c <=? 90))%N then (c + 32)%N else c.

Definition is_ascii (s : pystr) : Prop := Forall (fun c => (c < 128)%N) s.

Class Host := {
  OS : Type;
  sys_platform : string;
  (* from Quartz import CoreGraphics *)
  import_Quartz : OS -> bool;
  kCGEventMouseMoved : Z;
  kCGHIDEventTap : Z;
  CGDisplayBounds_size : OS -> pyfloat * pyfloat;
  CGEventGetLocation : OS -> pyfloat * pyfloat;
  (* the flags of a keyboard event just created *)
  CGEventGetFlags : OS -> Z;
  CGWindowListCreateImage : OS -> option Region.t -> option CGImage;
  CGEventPost : Z -> CGEvent -> OS -> OS;
  (* asyncio.sleep *)
  asyncio_sleep : pyfloat -> OS -> OS;
  (* str.lower: the Unicode tables are the interpreter's; on ASCII strings
     it is the ASCII lower-casing *)
  str_lower : pystr -> pystr;
  str_lower_ascii : forall s, is_ascii s -> str_lower s = List.map ascii_lower s;
  (* import cv2 *)
  import_cv2 : OS -> bool;
  Template : Type;
  cv2_imread_grayscale : OS -> pystr -> option Template;
  template_shape : Template -> Z * Z;             (* (rows, columns) *)
  (* cv2.matchTemplate(cv2.cvtColor(screen, RGB2GRAY), template,
     TM_CCOEFF_NORMED): the matrix of scores, by rows *)
  cv2_matchTemplate : Image -> Template -> list (list pyfloat);
  (* cv2.minMaxLoc: the greatest score and its (x, y) *)
  cv2_minMaxLoc : list (list pyfloat) -> pyfloat * (Z * Z)
}.

(** The names of the backend's methods, for the record of the calls the
    orchestrator makes. *)
Inductive method :=
| m_initialize | m_cleanup | m_get_screen_size | m_take_screenshot
| m_get_mouse_position | m_move_mouse | m_click | m_scroll | m_press_key
| m_key_down | m_key_up | m_type_text | m_hotkey | m_locate_on_screen
| m_locate_all_on_screen.

(** The world: the operating system, what was done to it so far (oldest
    first), and two records kept for the statements only: the backend
    methods the orchestrator has invoked and the number of [MacOSBackend]
    objects constructed. *)
Record World `{Host} := mkWorld {
  os : OS;
  trace : list Action;
  invoked : list method;
  constructed : nat
}.
Arguments mkWorld {_} _ _ _ _.

(* ------------------------------------------------------------------ *)
(** ** Computations that may raise *)

Definition M (S A : Type) : Type := S -> result A * S.

Definition ret {S A} (a : A) : M S A := fun s => (Ok a, s).
Definition raise {S A} (e : exn) : M S A := fun s => (Raise e, s).
Definition bind {S A B} (c : M S A) (k : A -> M S B) : M S B :=
  fun s => match c s with
           | (Ok a, s') => k a s'
           | (Raise e, s') => (Raise e, s')
           end.
Definition lift {S A} (r : result A) : M S A := fun s => (r, s).
Definition gets {S A} (f : S -> A) : M S A := fun s => (Ok (f s), s).
Definition modify {S} (f : S -> S) : M S unit := fun s => (Ok tt, f s).

Declare Scope py_scope.
Delimit Scope py_scope with py.
Notation "x <- c ;; k" := (bind c (fun x => k))
  (at level 61, c at next level, right associativity) : py_scope.
Notation "c ;; k" := (bind c (fun _ => k))
  (at level 61, right associativity) : py_scope.
Local Open Scope py_scope.

(** [for a in l: body(a)] *)
Fixpoint for_each {S A} (l : list A) (body : A -> M S unit) : M S unit :=
  match l with
  | [] => ret tt
  | a :: l' => body a ;; for_each l' body
  end.

(** A loop that carries local variables [acc]. *)
Fixpoint for_fold {S A T} (l : list A) (acc : T) (body : T -> A -> M S T)
  : M S T :=
  match l with
  | [] => ret acc
  | a :: l' => acc' <- body acc a ;; for_fold l' acc' body
  end.

(** [range(lo, hi)] *)
Definition range (lo hi : Z) : list Z :=
  List.map (fun k => lo + Z.of_nat k) (seq 0 (Z.to_nat (hi - lo))).

Section WorldOps.
Context `{Host}.

Definition post (tap : Z) (e : CGEvent) : M World unit :=
  modify (fun w => mkWorld (CGEventPost tap e (os w))
                           (trace w ++ [Post tap e])
                           (invoked w) (constructed w)).

Definition sleep (d : pyfloat) : M World unit :=
  modify (fun w => mkWorld (asyncio_sleep d (os w))
                           (trace w ++ [Sleep d])
                           (invoked w) (constructed w)).

Definition note_call (m : method) (w : World) : World :=
  mkWorld (os w) (trace w) (invoked w ++ [m]) (constructed w).

Definition note_construction (w : World) : World :=
  mkWorld (os w) (trace w) (invoked w) (S (constructed w)).
End WorldOps.

(* ------------------------------------------------------------------ *)
(** ** autoguix/backends/macos_backend.py *)

(** [d.get(k)] on a dict literal with string keys. *)
Fixpoint dict_get {V} (d : list (string * V)) (k : pystr) : option V :=
  match d with
  | [] => None
  | (name, v) :: d' =>
      if pystr_eqb (pystr_of_string name) k then Some v else dict_get d' k
  end.

Module MacOSBackend.

Definition _KEYCODE_MAP : list (string * Z) :=
  [ (* letters *)
    ("a", 0x00); ("s", 0x01); ("d", 0x02); ("f", 0x03); ("h", 0x04);
    ("g", 0x05); ("z", 0x06); ("x", 0x07); ("c", 0x08); ("v", 0x09);
    ("b", 0x0B); ("q", 0x0C); ("w", 0x0D); ("e", 0x0E); ("r", 0x0F);
    ("y", 0x10); ("t", 0x11); ("u", 0x20); ("i", 0x22); ("p", 0x23);
    ("l", 0x25); ("j", 0x26); ("k", 0x28); ("n", 0x2D); ("m", 0x2E);
    ("o", 0x1F);
    (* digits *)
    ("1", 0x12); ("2", 0x13); ("3", 0x14); ("4", 0x15); ("5", 0x17);
    ("6", 0x16); ("7", 0x1A); ("8", 0x1C); ("9", 0x19); ("0", 0x1D);
    (* special keys *)
    ("return", 0x24); ("enter", 0x24); ("tab", 0x30); ("space", 0x31);
    ("delete", 0x33); ("backspace", 0x33); ("escape", 0x35); ("esc", 0x35);
    (* modifiers *)
    ("command", 0x37); ("cmd", 0x37); ("shift", 0x38); ("capslock", 0x39);
    ("option", 0x3A); ("alt", 0x3A); ("control", 0x3B); ("ctrl", 0x3B);
    ("rightshift", 0x3C); ("rightoption", 0x3D); ("rightcontrol", 0x3E);
    ("fn", 0x3F);
    (* function keys *)
    ("f1", 0x7A); ("f2", 0x78); ("f3", 0x63); ("f4", 0x76); ("f5", 0x60);
    ("f6", 0x61); ("f7", 0x62); ("f8", 0x64); ("f9", 0x65); ("f10", 0x6D);
    ("f11", 0x67); ("f12", 0x6F);
    (* arrow keys *)
    ("left", 0x7B); ("right", 0x7C); ("down", 0x7D); ("up", 0x7E);
    (* punctuation / symbols *)
    ("-", 0x1B); ("=", 0x18); ("[", 0x21); ("]", 0x1E); ("\", 0x2A);
    (";", 0x29); ("'", 0x27); (",", 0x2B); (".", 0x2F); ("/", 0x2C);
    ("`", 0x32);
    (* others *)
    ("home", 0x73); ("end", 0x77); ("pageup", 0x74); ("pagedown", 0x79);
    ("forwarddelete", 0x75); ("help", 0x72);
    ("volumeup", 0x48); ("volumedown", 0x49); ("mute", 0x4A) ]%string.

(** Modifier key -> CGEvent flag. *)
Definition _MODIFIER_FLAGS : list (string * Z) :=
  [ ("command", Z.shiftl 1 20);   (* kCGEventFlagMaskCommand *)
    ("cmd", Z.shiftl 1 20);
    ("shift", Z.shiftl 1 17);     (* kCGEventFlagMaskShift *)
    ("option", Z.shiftl 1 19);    (* kCGEventFlagMaskAlternate *)
    ("alt", Z.shiftl 1 19);
    ("control", Z.shiftl 1 18);   (* kCGEventFlagMaskControl *)
    ("ctrl", Z.shiftl 1 18);
    ("fn", Z.shiftl 1 23) ]%string.   (* kCGEventFlagMaskSecondaryFn *)

(** MouseButton -> (down_event_type, up_event_type, cg_mouse_button). *)
Definition _BUTTON_MAP (b : MouseButton) : Z * Z * Z :=
  match b with
  | LEFT => (1, 2, 0)
  | RIGHT => (3, 4, 1)
  | MIDDLE => (25, 26, 2)
  end.

(** The handle on the imported module. *)
Inductive CoreGraphics := Quartz_CoreGraphics.

Record t := mk { _cg : option CoreGraphics; _initialized : bool }.

(** [MacOSBackend()] *)
Definition __init__ : t := mk None false.

Section Methods.
Context `{Host}.

Definition initialize (self : t) : M World t :=
  fun w =>
    if import_Quartz (os w)
    then (Ok (mk (Some Quartz_CoreGraphics) true), w)
    else (Raise PyObjCRequired, w).

Definition cleanup (self : t) : M World t :=
  ret (mk None false).

Definition _ensure_ready (self : t) : result CoreGraphics :=
  match negb (_initialized self), _cg self with
  | false, Some cg => Ok cg
  | _, _ => Raise BackendNotInitialized
  end.

(* -- screen -- *)

Definition get_screen_size (self : t) : M World Size.t :=
  cg <- lift (_ensure_ready self) ;;
  bounds <- gets (fun w => CGDisplayBounds_size (os w)) ;;
  w <- lift (to_int (fst bounds)) ;;
  h <- lift (to_int (snd bounds)) ;;
  ret (Size.mk w h).

(** [np.frombuffer(raw).reshape((height, bytes_per_row // 4, 4))]:
    rows of [cols] four-byte pixels. *)
Fixpoint pixels (data : list byte) : list (byte * byte * byte * byte) :=
  match data with
  | b0 :: b1 :: b2 :: b3 :: rest => (b0, b1, b2, b3) :: pixels rest
  | _ => []
  end.

Fixpoint rows {A} (n cols : nat) (l : list A) : list (list A) :=
  match n with
  | O => []
  | S n' => firstn cols l :: rows n' cols (skipn cols l)
  end.

Definition reshape (im : CGImage) : result (list (list (byte * byte * byte * byte))) :=
  let cols := img_bytes_per_row im / 4 in
  if (0 <=? img_height im) && (0 <=? cols)
     && (Z.of_nat (List.length (img_data im)) =? img_height im * cols * 4)
  then Ok (rows (Z.to_nat (img_height im)) (Z.to_nat cols)
                (pixels (img_data im)))
  else Raise BufferShape.

(** [seq[:stop]] for an index [stop] that may be negative. *)
Definition slice_to {A} (stop : Z) (l : list A) : list A :=
  if 0 <=? stop then firstn (Z.to_nat stop) l
  else firstn (List.length l - Z.to_nat (- stop)) l.

Definition take_screenshot (self : t) (region : option Region.t)
  : M World Image :=
  cg <- lift (_ensure_ready self) ;;
  image_ref <- gets (fun w => CGWindowListCreateImage (os w) region) ;;
  match image_ref with
  | None => raise CaptureFailed
  | Some im =>
      (* raw_data is BGRA on macOS *)
      arr <- lift (reshape im) ;;
      (* trim to actual width (bytes_per_row may include padding) *)
      let arr := List.map (slice_to (img_width im)) arr in
      (* BGRA -> RGB *)
      ret (List.map (List.map (fun '(b, g, r, a) => (r, g, b))) arr)
  end.

(* -- mouse -- *)

Definition get_mouse_position (self : t) : M World Point.t :=
  cg <- lift (_ensure_ready self) ;;
  loc <- gets (fun w => CGEventGetLocation (os w)) ;;
  px <- lift (to_int (fst loc)) ;;
  py <- lift (to_int (snd loc)) ;;
  ret (Point.mk px py).

(** [int(a + (b - a) * t)] *)
Definition interpolate (a b : Z) (t : pyfloat) : result Z :=
  match of_int (b - a) with
  | Raise e => Raise e
  | Ok d =>
      match of_int a with
      | Raise e => Raise e
      | Ok fa => to_int (add fa (mul d t))
      end
  end.

Definition move_mouse (self : t) (x y : Z) (duration : pyfloat)
  : M World unit :=
  cg <- lift (_ensure_ready self) ;;
  if le0 duration then
    post kCGHIDEventTap (MouseEvent kCGEventMouseMoved (x, y) 0 [])
  else
    start <- get_mouse_position self ;;
    hundred <- lift (of_int 100) ;;
    n <- lift (to_int (mul duration hundred)) ;;
    let steps := Z.max n 2 in
    for_each (range 1 (steps + 1)) (fun i =>
      t <- lift (truediv i steps) ;;
      cx <- lift (interpolate (Point.x start) x t) ;;
      cy <- lift (interpolate (Point.y start) y t) ;;
      post kCGHIDEventTap (MouseEvent kCGEventMouseMoved (cx, cy) 0 []) ;;
      fsteps <- lift (of_int steps) ;;
      pause <- lift (div duration fsteps) ;;
      sleep pause).

Definition click (self : t) (x y : option Z) (button : MouseButton)
           (clicks : Z) (interval : pyfloat) : M World unit :=
  cg <- lift (_ensure_ready self) ;;
  xy <- match x, y with
        | Some x, Some y =>
            move_mouse self x y (Finite 0) ;; ret (x, y)
        | _, _ =>
            pos <- get_mouse_position self ;;
            ret (Point.x pos, Point.y pos)
        end ;;
  let '(down_type, up_type, cg_button) := _BUTTON_MAP button in
  for_each (range 0 clicks) (fun i =>
    (* field 1: click count *)
    post kCGHIDEventTap (MouseEvent down_type xy cg_button [(1, i + 1)]) ;;
    post kCGHIDEventTap (MouseEvent up_type xy cg_button [(1, i + 1)]) ;;
    if gt0 interval && (i <? clicks - 1) then sleep interval else ret tt).

Definition scroll (self : t) (clicks : Z) (x y : option Z)
  : M World unit :=
  cg <- lift (_ensure_ready self) ;;
  match x, y with
  | Some x, Some y => move_mouse self x y (Finite 0)
  | _, _ => ret tt
  end ;;
  (* kCGScrollEventUnitLine, one axis *)
  post kCGHIDEventTap (ScrollWheelEvent 0 1 clicks).

(* -- keyboard -- *)

Definition _resolve_keycode (key : pystr) : result Z :=
  match dict_get _KEYCODE_MAP (str_lower key) with
  | None => Raise (UnknownKey key)
  | Some code => Ok code
  end.

(** [if flag: ...] on the result of [dict.get]: neither [None] nor 0. *)
Definition truthy (flag : option Z) : option Z :=
  match flag with
  | Some f => if f =? 0 then None else Some f
  | None => None
  end.

Definition key_down (self : t) (key : pystr) : M World unit :=
  cg <- lift (_ensure_ready self) ;;
  code <- lift (_resolve_keycode key) ;;
  flags0 <- gets (fun w => CGEventGetFlags (os w)) ;;
  (* set modifier flag if it's a modifier key *)
  let flag := dict_get _MODIFIER_FLAGS (str_lower key) in
  let flags := match truthy flag with
               | Some f => Z.lor flags0 f
               | None => flags0
               end in
  post kCGHIDEventTap (KeyboardEvent code true flags None).

Definition key_up (self : t) (key : pystr) : M World unit :=
  cg <- lift (_ensure_ready self) ;;
  code <- lift (_resolve_keycode key) ;;
  flags0 <- gets (fun w => CGEventGetFlags (os w)) ;;
  post kCGHIDEventTap (KeyboardEvent code false flags0 None).

Definition press_key (self : t) (key : pystr) : M World unit :=
  key_down self key ;;
  key_up self key.

Definition type_text (self : t) (text : pystr) (interval : pyfloat)
  : M World unit :=
  cg <- lift (_ensure_ready self) ;;
  for_each text (fun ch =>
    flags0 <- gets (fun w => CGEventGetFlags (os w)) ;;
    post kCGHIDEventTap (KeyboardEvent 0 true flags0 (Some (1, [ch]))) ;;
    flags1 <- gets (fun w => CGEventGetFlags (os w)) ;;
    post kCGHIDEventTap (KeyboardEvent 0 false flags1 (Some (1, [ch]))) ;;
    if gt0 interval then sleep interval else ret tt).

Definition hotkey (self : t) (keys : list pystr) : M World unit :=
  cg <- lift (_ensure_ready self) ;;
  (* Press all keys down in order, then release in reverse *)
  fe <- for_fold keys (0, []) (fun '(flags, events_down) key =>
          code <- lift (_resolve_keycode key) ;;
          let mod_flag := dict_get _MODIFIER_FLAGS (str_lower key) in
          let flags := match truthy mod_flag with
                       | Some f => Z.lor flags f
                       | None => flags
                       end in
          ret (flags, events_down ++ [KeyboardEvent code true flags None])) ;;
  let '(flags, events_down) := fe in
  for_each events_down (fun event => post kCGHIDEventTap event) ;;
  (* Release in reverse order *)
  for_fold (rev keys) flags (fun flags key =>
    code <- lift (_resolve_keycode key) ;;
    let mod_flag := dict_get _MODIFIER_FLAGS (str_lower key) in
    let flags := match truthy mod_flag with
                 | Some f => Z.land flags (Z.lnot f)
                 | None => flags
                 end in
    post kCGHIDEventTap (KeyboardEvent code false flags None) ;;
    ret flags) ;;
  ret tt.

(* -- locate -- *)

(** [np.where(row >= confidence)] on one row, from column [i]. *)
Fixpoint where_row (row : list pyfloat) (confidence : pyfloat) (i : Z)
  : list Z :=
  match row with
  | [] => []
  | s :: row' =>
      (if geb s confidence then [i] else [])
        ++ where_row row' confidence (i + 1)
  end.

(** [np.where(result >= confidence)], reversed and zipped: the (x, y)
    of the scores that reach [confidence], by rows from row [j]. *)
Fixpoint where_ge (result : list (list pyfloat)) (confidence : pyfloat)
         (j : Z) : list (Z * Z) :=
  match result with
  | [] => []
  | row :: result' =>
      List.map (fun i => (i, j)) (where_row row confidence 0)
        ++ where_ge result' confidence (j + 1)
  end.

(** [region.left if region else 0]: a Region is a non-empty tuple. *)
Definition origin (region : option Region.t) : Z * Z :=
  match region with
  | Some r => (Region.left r, Region.top r)
  | None => (0, 0)
  end.

Definition locate_on_screen (self : t) (image : pystr)
           (confidence : pyfloat) (region : option Region.t)
           (mode : LocateMode) : M World (option Region.t) :=
  cv2 <- gets (fun w => import_cv2 (os w)) ;;
  if negb cv2 then raise OpenCVRequired
  else
    screenshot <- take_screenshot self region ;;
    template <- gets (fun w => cv2_imread_grayscale (os w) image) ;;
    match template with
    | None => raise (TemplateNotLoaded image)
    | Some template =>
        let result := cv2_matchTemplate screenshot template in
        let '(max_val, max_loc) := cv2_minMaxLoc result in
        if ltb max_val confidence then ret None
        else
          let '(th, tw) := template_shape template in
          let '(ox, oy) := origin region in
          ret (Some (Region.mk (fst max_loc + ox) (snd max_loc + oy) tw th))
    end.

Definition locate_all_on_screen (self : t) (image : pystr)
           (confidence : pyfloat) (region : option Region.t)
           (mode : LocateMode) : M World (list Region.t) :=
  cv2 <- gets (fun w => import_cv2 (os w)) ;;
  if negb cv2 then raise OpenCVRequired
  else
    screenshot <- take_screenshot self region ;;
    template <- gets (fun w => cv2_imread_grayscale (os w) image) ;;
    match template with
    | None => raise (TemplateNotLoaded image)
    | Some template =>
        let result := cv2_matchTemplate screenshot template in
        let locations := where_ge result confidence 0 in
        let '(th, tw) := template_shape template in
        let '(ox, oy) := origin region in
        ret (List.map (fun pt => Region.mk (fst pt + ox) (snd pt + oy) tw th)
                      locations)
    end.
End Methods.
End MacOSBackend.

(* ------------------------------------------------------------------ *)
(** ** autoguix/core/backend_base.py

    The abstract base: the methods every backend defines.  A method runs on
    the backend object and the world; it may change both, and may raise. *)

Module BackendBase.
Class C `{Host} (B : Type) := {
  initialize : M (B * World) unit;
  cleanup : M (B * World) unit;
  get_mouse_position : M (B * World) Point.t;
  move_mouse : Z -> Z -> pyfloat -> M (B * World) unit;
  click : option Z -> option Z -> MouseButton -> Z -> pyfloat
          -> M (B * World) unit;
  scroll : Z -> option Z -> option Z -> M (B * World) unit;
  press_key : pystr -> M (B * World) unit;
  key_down : pystr -> M (B * World) unit;
  key_up : pystr -> M (B * World) unit;
  type_text : pystr -> pyfloat -> M (B * World) unit;
  hotkey : list pystr -> M (B * World) unit;
  get_screen_size : M (B * World) Size.t;
  take_screenshot : option Region.t -> M (B * World) Image;
  locate_on_screen : pystr -> pyfloat -> option Region.t -> LocateMode
                     -> M (B * World) (option Region.t);
  locate_all_on_screen : pystr -> pyfloat -> option Region.t -> LocateMode
                         -> M (B * World) (list Region.t)
}.
End BackendBase.

(** A method that reads [self] and never assigns to it. *)
Definition on_self {S W A} (f : S -> M W A) : M (S * W) A :=
  fun '(self, w) => let '(r, w') := f self w in (r, (self, w')).

(** A method that assigns to the attributes of [self] when it returns. *)
Definition updating_self {S W} (f : S -> M W S) : M (S * W) unit :=
  fun '(self, w) =>
    match f self w with
    | (Ok self', w') => (Ok tt, (self', w'))
    | (Raise e, w') => (Raise e, (self, w'))
    end.

#[export] Instance MacOSBackend_is_backend `{Host}
  : BackendBase.C MacOSBackend.t := {|
  BackendBase.initialize := updating_self MacOSBackend.initialize;
  BackendBase.cleanup := updating_self MacOSBackend.cleanup;
  BackendBase.get_mouse_position := on_self MacOSBackend.get_mouse_position;
  BackendBase.move_mouse x y d :=
    on_self (fun self => MacOSBackend.move_mouse self x y d);
  BackendBase.click x y b n i :=
    on_self (fun self => MacOSBackend.click self x y b n i);
  BackendBase.scroll n x y :=
    on_self (fun self => MacOSBackend.scroll self n x y);
  BackendBase.press_key k := on_self (fun self => MacOSBackend.press_key self k);
  BackendBase.key_down k := on_self (fun self => MacOSBackend.key_down self k);
  BackendBase.key_up k := on_self (fun self => MacOSBackend.key_up self k);
  BackendBase.type_text s i :=
    on_self (fun self => MacOSBackend.type_text self s i);
  BackendBase.hotkey ks := on_self (fun self => MacOSBackend.hotkey self ks);
  BackendBase.get_screen_size := on_self MacOSBackend.get_screen_size;
  BackendBase.take_screenshot r :=
    on_self (fun self => MacOSBackend.take_screenshot self r);
  BackendBase.locate_on_screen im c r m :=
    on_self (fun self => MacOSBackend.locate_on_screen self im c r m);
  BackendBase.locate_all_on_screen im c r m :=
    on_self (fun self => MacOSBackend.locate_all_on_screen self im c r m)
|}.

(** A backend object held by the orchestrator: the one of this repository,
    or an instance of some other subclass [X] of BackendBase. *)
Inductive AnyBackend (X : Type) :=
| Mac (b : MacOSBackend.t)
| Other (x : X).
Arguments Mac {X} b.
Arguments Other {X} x.

(** Method call on an object of either class. *)
Definition dispatch `{Host} {X R}
           (mac : M (MacOSBackend.t * World) R) (other : M (X * World) R)
  : M (AnyBackend X * World) R :=
  fun '(b, w) =>
    match b with
    | Mac mb => let '(r, (mb', w')) := mac (mb, w) in (r, (Mac mb', w'))
    | Other x => let '(r, (x', w')) := other (x, w) in (r, (Other x', w'))
    end.

#[export] Instance AnyBackend_is_backend `{Host} {X} `{!BackendBase.C X}
  : BackendBase.C (AnyBackend X) := {|
  BackendBase.initialize :=
    dispatch BackendBase.initialize BackendBase.initialize;
  BackendBase.cleanup := dispatch BackendBase.cleanup BackendBase.cleanup;
  BackendBase.get_mouse_position :=
    dispatch BackendBase.get_mouse_position BackendBase.get_mouse_position;
  BackendBase.move_mouse x y d :=
    dispatch (BackendBase.move_mouse x y d) (BackendBase.move_mouse x y d);
  BackendBase.click x y b n i :=
    dispatch (BackendBase.click x y b n i) (BackendBase.click x y b n i);
  BackendBase.scroll n x y :=
    dispatch (BackendBase.scroll n x y) (BackendBase.scroll n x y);
  BackendBase.press_key k :=
    dispatch (BackendBase.press_key k) (BackendBase.press_key k);
  BackendBase.key_down k :=
    dispatch (BackendBase.key_down k) (BackendBase.key_down k);
  BackendBase.key_up k :=
    dispatch (BackendBase.key_up k) (BackendBase.key_up k);
  BackendBase.type_text s i :=
    dispatch (BackendBase.type_text s i) (BackendBase.type_text s i);
  BackendBase.hotkey ks :=
    dispatch (BackendBase.hotkey ks) (BackendBase.hotkey ks);
  BackendBase.get_screen_size :=
    dispatch BackendBase.get_screen_size BackendBase.get_screen_size;
  BackendBase.take_screenshot r :=
    dispatch (BackendBase.take_screenshot r) (BackendBase.take_screenshot r);
  BackendBase.locate_on_screen im c r m :=
    dispatch (BackendBase.locate_on_screen im c r m)
             (BackendBase.locate_on_screen im c r m);
  BackendBase.locate_all_on_screen im c r m :=
    dispatch (BackendBase.locate_all_on_screen im c r m)
             (BackendBase.locate_all_on_screen im c r m)
|}.

(* ------------------------------------------------------------------ *)
(** ** autoguix/core/automation_core.py *)

(** Run an async coroutine synchronously: on either path the coroutine
    runs to completion and its value, or its exception, is the caller's. *)
Definition _run {S A} (coro : M S A) : M S A := coro.

Module AutomationCore.

Record t (X : Type) := mk {
  _backend : option (AnyBackend X);
  _initialized : bool
}.
Arguments mk {X} _ _.
Arguments _backend {X} _.
Arguments _initialized {X} _.

(** [AutomationCore()] *)
Definition __init__ {X} : t X := mk None false.

Section Methods.
Context `{Host} {X : Type} `{!BackendBase.C X}.

Abbreviation state := (t X * World)%type.

Definition set_backend (b : option (AnyBackend X)) : M state unit :=
  modify (fun '(self, w) => (mk b (_initialized self), w)).

Definition set_initialized (v : bool) : M state unit :=
  modify (fun '(self, w) => (mk (_backend self) v, w)).

(** A call of a method on the object [b] that [self._backend] refers
    to: the object is left as the method leaves it, also when the
    method raises. *)
Definition invoke {R} (b : AnyBackend X) (m : method)
           (op : M (AnyBackend X * World) R) : M state R :=
  fun '(self, w) =>
    let '(r, (b', w')) := op (b, note_call m w) in
    (r, (mk (Some b') (_initialized self), w')).

Definition _ensure_initialized : M state (AnyBackend X) :=
  fun '(self, w) =>
    match negb (_initialized self), _backend self with
    | false, Some b => (Ok b, (self, w))
    | _, _ => (Raise CoreNotInitialized, (self, w))
    end.

(* -- lifecycle -- *)

(** Detect platform and initialize the appropriate backend. *)
Definition init : M state unit :=
  self <- gets fst ;;
  if _initialized self then ret tt
  else if negb (sys_platform =? "darwin")%string
  then raise (UnsupportedPlatform sys_platform)
  else
    let b := Mac MacOSBackend.__init__ in
    modify (fun '(self, w) => (self, note_construction w)) ;;
    set_backend (Some b) ;;
    _run (invoke b m_initialize BackendBase.initialize) ;;
    set_initialized true.

Definition cleanup : M state unit :=
  self <- gets fst ;;
  match _backend self with
  | Some b => _run (invoke b m_cleanup BackendBase.cleanup)
  | None => ret tt
  end ;;
  set_backend None ;;
  set_initialized false.

(* -- screen -- *)

Definition get_screen_size : M state Size.t :=
  b <- _ensure_initialized ;;
  _run (invoke b m_get_screen_size BackendBase.get_screen_size).

Definition take_screenshot (region : option Region.t) : M state Image :=
  b <- _ensure_initialized ;;
  _run (invoke b m_take_screenshot (BackendBase.take_screenshot region)).

(* -- mouse -- *)

Definition get_mouse_position : M state Point.t :=
  b <- _ensure_initialized ;;
  _run (invoke b m_get_mouse_position BackendBase.get_mouse_position).

Definition move_mouse (x y : Z) (duration : pyfloat) : M state unit :=
  b <- _ensure_initialized ;;
  _run (invoke b m_move_mouse (BackendBase.move_mouse x y duration)).

Definition click (x y : option Z) (button : MouseButton) (clicks : Z)
           (interval : pyfloat) : M state unit :=
  b <- _ensure_initialized ;;
  _run (invoke b m_click (BackendBase.click x y button clicks interval)).

Definition scroll (clicks : Z) (x y : option Z) : M state unit :=
  b <- _ensure_initialized ;;
  _run (invoke b m_scroll (BackendBase.scroll clicks x y)).

(* -- keyboard -- *)

Definition press_key (key : pystr) : M state unit :=
  b <- _ensure_initialized ;;
  _run (invoke b m_press_key (BackendBase.press_key key)).

Definition key_down (key : pystr) : M state unit :=
  b <- _ensure_initialized ;;
  _run (invoke b m_key_down (BackendBase.key_down key)).

Definition key_up (key : pystr) : M state unit :=
  b <- _ensure_initialized ;;
  _run (invoke b m_key_up (BackendBase.key_up key)).

Definition type_text (text : pystr) (interval : pyfloat) : M state unit :=
  b <- _ensure_initialized ;;
  _run (invoke b m_type_text (BackendBase.type_text text interval)).

Definition hotkey (keys : list pystr) : M state unit :=
  b <- _ensure_initialized ;;
  _run (invoke b m_hotkey (BackendBase.hotkey keys)).

(* -- locate -- *)

Definition locate_on_screen (image : pystr) (confidence : pyfloat)
           (region : option Region.t) (mode : LocateMode)
  : M state (option Region.t) :=
  b <- _ensure_initialized ;;
  _run (invoke b m_locate_on_screen
          (BackendBase.locate_on_screen image confidence region mode)).

Definition locate_all_on_screen (image : pystr) (confidence : pyfloat)
           (region : option Region.t) (mode : LocateMode)
  : M state (list Region.t) :=
  b <- _ensure_initialized ;;
  _run (invoke b m_locate_all_on_screen
          (BackendBase.locate_all_on_screen image confidence region mode)).

(** The calls a client can make on the orchestrator. *)
Inductive call :=
| c_init
| c_cleanup
| c_get_screen_size
| c_take_screenshot (region : option Region.t)
| c_get_mouse_position
| c_move_mouse (x y : Z) (duration : pyfloat)
| c_click (x y : option Z) (button : MouseButton) (clicks : Z)
          (interval : pyfloat)
| c_scroll (clicks : Z) (x y : option Z)
| c_press_key (key : pystr)
| c_key_down (key : pystr)
| c_key_up (key : pystr)
| c_type_text (text : pystr) (interval : pyfloat)
| c_hotkey (keys : list pystr)
| c_locate_on_screen (image : pystr) (confidence : pyfloat)
                     (region : option Region.t) (mode : LocateMode)
| c_locate_all_on_screen (image : pystr) (confidence : pyfloat)
                         (region : option Region.t) (mode : LocateMode).

Definition is_lifecycle (c : call) : bool :=
  match c with
  | c_init | c_cleanup => true
  | _ => false
  end.

(** The outcome of a call without its value. *)
Definition outcome {S A} (c : M S A) : M S unit := c ;; ret tt.

Definition perform (c : call) : M state unit :=
  match c with
  | c_init => init
  | c_cleanup => cleanup
  | c_get_screen_size => outcome get_screen_size
  | c_take_screenshot r => outcome (take_screenshot r)
  | c_get_mouse_position => outcome get_mouse_position
  | c_move_mouse x y d => move_mouse x y d
  | c_click x y b n i => click x y b n i
  | c_scroll n x y => scroll n x y
  | c_press_key k => press_key k
  | c_key_down k => key_down k
  | c_key_up k => key_up k
  | c_type_text s i => type_text s i
  | c_hotkey ks => hotkey ks
  | c_locate_on_screen im c r m => outcome (locate_on_screen im c r m)
  | c_locate_all_on_screen im c r m =>
      outcome (locate_all_on_screen im c r m)
  end.

(** The orchestrator states a client can bring about: from a new
    object, by any calls, each in whatever world it finds. *)
Inductive reachable : t X -> Prop :=
| reachable_new : reachable __init__
| reachable_call self w c :
    reachable self -> reachable (fst (snd (perform c (self, w)))).

(** Initialized backend behind the handle. *)
Definition backend_ready (self : t X) : Prop :=
  exists b, _backend self = Some (Mac b)
            /\ MacOSBackend._initialized b = true.
End Methods.
End AutomationCore.

(* ------------------------------------------------------------------ *)
(** ** Test doubles *)

(** A simulated host with the values of tests/test_macos_backend.py
    ([_make_mock_cg]): display 1920 by 1080, event flags 0,
    [kCGEventMouseMoved = 5], [kCGHIDEventTap = 0].  Its state is the cursor
    location, which follows the mouse events posted.  Screen captures are
    one pixel; the only template on disk is "button.png", 2 rows by 3
    columns, matched best at (7, 9) with score 19/20. *)
Definition sim_post (tap : Z) (e : CGEvent) (loc : pyfloat * pyfloat)
  : pyfloat * pyfloat :=
  match e with
  | MouseEvent _ (px, py) _ _ =>
      (Finite (inject_Z px), Finite (inject_Z py))
  | _ => loc
  end.

Definition sim_lower_ascii (s : pystr) (_ : is_ascii s)
  : List.map ascii_lower s = List.map ascii_lower s := eq_refl.

Definition sim_host : Host := {|
  OS := pyfloat * pyfloat;
  sys_platform := "darwin";
  import_Quartz := fun _ => true;
  kCGEventMouseMoved := 5;
  kCGHIDEventTap := 0;
  CGDisplayBounds_size := fun _ => (Finite 1920, Finite 1080);
  CGEventGetLocation := fun loc => loc;
  CGEventGetFlags := fun _ => 0;
  CGWindowListCreateImage := fun _ _ =>
    Some (mkCGImage 1 1 4 [x10; x20; x30; xff]%byte);
  CGEventPost := sim_post;
  asyncio_sleep := fun _ loc => loc;
  str_lower := List.map ascii_lower;
  str_lower_ascii := sim_lower_ascii;
  import_cv2 := fun _ => true;
  Template := Z * Z;
  cv2_imread_grayscale := fun _ path =>
    if pystr_eqb path (pystr_of_string "button.png") then Some (2, 3) else None;
  template_shape := fun shape => shape;
  cv2_matchTemplate := fun _ _ => [[Finite (19 # 20)]];
  cv2_minMaxLoc := fun _ => (Finite (19 # 20), (7, 9))
|}.

(** The same host on another platform, or without PyObjC. *)
Definition sim_host_with (platform : string) (quartz : bool) : Host := {|
  OS := pyfloat * pyfloat;
  sys_platform := platform;
  import_Quartz := fun _ => quartz;
  kCGEventMouseMoved := 5;
  kCGHIDEventTap := 0;
  CGDisplayBounds_size := fun _ => (Finite 1920, Finite 1080);
  CGEventGetLocation := fun loc => loc;
  CGEventGetFlags := fun _ => 0;
  CGWindowListCreateImage := fun _ _ => None;
  CGEventPost := sim_post;
  asyncio_sleep := fun _ loc => loc;
  str_lower := List.map ascii_lower;
  str_lower_ascii := sim_lower_ascii;
  import_cv2 := fun _ => false;
  Template := Z * Z;
  cv2_imread_grayscale := fun _ _ => None;
  template_shape := fun shape => shape;
  cv2_matchTemplate := fun _ _ => [];
  cv2_minMaxLoc := fun _ => (NaN, (0, 0))
|}.

(** A world of the simulated host with the cursor at (cx, cy). *)
Definition sim_world (cx cy : Z) : @World sim_host :=
  @mkWorld sim_host (Finite (inject_Z cx), Finite (inject_Z cy)) [] [] 0.

(** tests/test_core.py: a fully mocked backend. *)
Module MockBackend.
Record t := mk { initialized : bool }.

Definition __init__ : t := mk false.

Definition returning `{Host} {A} (a : A) : M (t * World) A := ret a.

#[global] Instance is_backend `{Host} : BackendBase.C t := {|
  BackendBase.initialize := modify (fun '(_, w) => (mk true, w));
  BackendBase.cleanup := modify (fun '(_, w) => (mk false, w));
  BackendBase.get_mouse_position := returning (Point.mk 100 200);
  BackendBase.move_mouse _ _ _ := returning tt;
  BackendBase.click _ _ _ _ _ := returning tt;
  BackendBase.scroll _ _ _ := returning tt;
  BackendBase.press_key _ := returning tt;
  BackendBase.key_down _ := returning tt;
  BackendBase.key_up _ := returning tt;
  BackendBase.type_text _ _ := returning tt;
  BackendBase.hotkey _ := returning tt;
  BackendBase.get_screen_size := returning (Size.mk 1920 1080);
  BackendBase.take_screenshot _ :=
    returning (repeat (repeat (x00, x00, x00)%byte 100) 100);
  BackendBase.locate_on_screen _ _ _ _ :=
    returning (Some (Region.mk 10 20 50 50));
  BackendBase.locate_all_on_screen _ _ _ _ :=
    returning [Region.mk 10 20 50 50]
|}.
End MockBackend.

(** A backend that has lost its connection: every method raises. *)
Module DeadBackend.
Inductive t := mk.

Definition gone : exn := Foreign RuntimeError "connection lost".

#[global] Instance is_backend `{Host} : BackendBase.C t := {|
  BackendBase.initialize := raise gone;
  BackendBase.cleanup := raise gone;
  BackendBase.get_mouse_position := raise gone;
  BackendBase.move_mouse _ _ _ := raise gone;
  BackendBase.click _ _ _ _ _ := raise gone;
  BackendBase.scroll _ _ _ := raise gone;
  BackendBase.press_key _ := raise gone;
  BackendBase.key_down _ := raise gone;
  BackendBase.key_up _ := raise gone;
  BackendBase.type_text _ _ := raise gone;
  BackendBase.hotkey _ := raise gone;
  BackendBase.get_screen_size := raise gone;
  BackendBase.take_screenshot _ := raise gone;
  BackendBase.locate_on_screen _ _ _ _ := raise gone;
  BackendBase.locate_all_on_screen _ _ _ _ := raise gone
|}.
End DeadBackend.

(* ------------------------------------------------------------------ *)
(** ** Vocabulary of the statements *)

Section Vocabulary.
Context `{Host}.

(** The flag a key contributes to the modifier mask: 0 for a key that is
    not a modifier. *)
Definition modifier_flag (key : pystr) : Z :=
  match MacOSBackend.truthy
          (dict_get MacOSBackend._MODIFIER_FLAGS (str_lower key)) with
  | Some f => f
  | None => 0
  end.

(** The bitwise-or of the modifier flags of the keys of a list. *)
Definition mask_of (keys : list pystr) : Z :=
  fold_left Z.lor (List.map modifier_flag keys) 0.

Definition recognized (key : pystr) (code : Z) : Prop :=
  dict_get MacOSBackend._KEYCODE_MAP (str_lower key) = Some code.

Definition unrecognized (key : pystr) : Prop :=
  dict_get MacOSBackend._KEYCODE_MAP (str_lower key) = None.

(** The backend has been initialized. *)
Definition ready (self : MacOSBackend.t) : Prop :=
  MacOSBackend._cg self = Some MacOSBackend.Quartz_CoreGraphics
  /\ MacOSBackend._initialized self = true.

(** The world after posting the events of a list. *)
Definition emit (events : list CGEvent) (w : World) : World :=
  fold_left (fun w e => snd (post kCGHIDEventTap e w)) events w.

Definition posted (e : CGEvent) : Action := Post kCGHIDEventTap e.

(** The code of a key, 0 when [_resolve_keycode] raises. *)
Definition keycode (key : pystr) : Z :=
  match MacOSBackend._resolve_keycode key with
  | Ok code => code
  | Raise _ => 0
  end.

(** The down events of a hotkey from the mask [flags], and its up events
    for the keys [rkeys] in the order of release. *)
Fixpoint down_events (flags : Z) (keys : list pystr) : list CGEvent :=
  match keys with
  | [] => []
  | k :: ks =>
      let flags := Z.lor flags (modifier_flag k) in
      KeyboardEvent (keycode k) true flags None :: down_events flags ks
  end.

Fixpoint up_events (flags : Z) (rkeys : list pystr) : list CGEvent :=
  match rkeys with
  | [] => []
  | k :: ks =>
      let flags := Z.land flags (Z.lnot (modifier_flag k)) in
      KeyboardEvent (keycode k) false flags None :: up_events flags ks
  end.

(** The first loop of [hotkey], on its own. *)
Definition press_loop (keys : list pystr) (acc : Z * list CGEvent)
  : M World (Z * list CGEvent) :=
  for_fold keys acc (fun '(flags, events_down) key =>
    code <- lift (MacOSBackend._resolve_keycode key) ;;
    let mod_flag := dict_get MacOSBackend._MODIFIER_FLAGS (str_lower key) in
    let flags := match MacOSBackend.truthy mod_flag with
                 | Some f => Z.lor flags f
                 | None => flags
                 end in
    ret (flags, events_down ++ [KeyboardEvent code true flags None])).

(** The last loop of [hotkey], on its own. *)
Definition release_loop (rkeys : list pystr) (flags : Z) : M World Z :=
  for_fold rkeys flags (fun flags key =>
    code <- lift (MacOSBackend._resolve_keycode key) ;;
    let mod_flag := dict_get MacOSBackend._MODIFIER_FLAGS (str_lower key) in
    let flags := match MacOSBackend.truthy mod_flag with
                 | Some f => Z.land flags (Z.lnot f)
                 | None => flags
                 end in
    post kCGHIDEventTap (KeyboardEvent code false flags None) ;;
    ret flags).
End Vocabulary.

(** [c] differs from the lower-case name [n] in letter case only. *)
Definition case_variant (key name : pystr) : Prop :=
  Forall2 (fun c n => c = n \/ ((97 <= n <= 122)%N /\ c = (n - 32)%N)) key name.

(** Every name of the key-code table is ASCII without capitals, and the
    table gives one code per name. *)
Definition lower_name (n : pystr) : bool :=
  forallb (fun c => (c <? 128)%N && negb ((65 <=? c) && (c <=? 90))%N) n.

Definition keycode_entry_ok (entry : string * Z) : bool :=
  lower_name (pystr_of_string (fst entry))
  && match dict_get MacOSBackend._KEYCODE_MAP (pystr_of_string (fst entry)) with
     | Some c => c =? snd entry
     | None => false
     end.

(** [sep] between consecutive chunks, and nowhere else. *)
Fixpoint intersperse {A} (sep : list A) (chunks : list (list A)) : list A :=
  match chunks with
  | [] => []
  | c :: cs =>
      match cs with
      | [] => c
      | _ :: _ => c ++ sep ++ intersperse sep cs
      end
  end.

Section MouseVocabulary.
Context `{Host}.

(** The down and up events of one click of [button] at [pos], stamped
    with the click-sequence number [n] in field 1. *)
Definition click_pair (button : MouseButton) (pos : Z * Z) (n : Z)
  : list Action :=
  let '(down_type, up_type, cg_button) := MacOSBackend._BUTTON_MAP button in
  [ posted (MouseEvent down_type pos cg_button [(1, n)]);
    posted (MouseEvent up_type pos cg_button [(1, n)]) ].

(** The suspension between repetitions: none unless [interval > 0]. *)
Definition pause (interval : pyfloat) : list Action :=
  if gt0 interval then [Sleep interval] else [].

(** What typing the character [ch] adds to the trace: a down and an up
    event with key code 0 and [ch] as their Unicode string, then the
    suspension. *)
Definition typed (interval : pyfloat) (ch : codepoint)
           (chunk : list Action) : Prop :=
  exists flags_down flags_up,
    chunk = [ posted (KeyboardEvent 0 true flags_down (Some (1, [ch])));
              posted (KeyboardEvent 0 false flags_up (Some (1, [ch]))) ]
            ++ pause interval.

(** The cursor is at a finite location, whose integer part is [pos]. *)
Definition cursor_at (w : World) (pos : Z * Z) : Prop :=
  exists qx qy, CGEventGetLocation (os w) = (Finite qx, Finite qy)
                /\ pos = (trunc qx, trunc qy).
End MouseVocabulary.

(** The orchestrator's flag and its backend agree: no backend and the flag
    down, or a [MacOSBackend] whose own flag is the orchestrator's. *)
Definition lifecycle_inv {X} (self : AutomationCore.t X) : Prop :=
  match AutomationCore._backend self with
  | None => AutomationCore._initialized self = false
  | Some (Mac b) =>
      AutomationCore._initialized self = MacOSBackend._initialized b
  | Some (Other _) => False
  end.

(** The point of step [i] of [n] on the way from (sx, sy) to (x, y), as
    [move_mouse] computes it: [int(sx + (x - sx) * (i / n))], every
    operation rounded to binary64.  (The defaults stand for a raised
    exception.) *)
Definition path_point (sx sy x y n i : Z) : Z * Z :=
  match truediv i n with
  | Ok t =>
      match MacOSBackend.interpolate sx x t, MacOSBackend.interpolate sy y t with
      | Ok cx, Ok cy => (cx, cy)
      | _, _ => (0, 0)
      end
  | Raise _ => (0, 0)
  end.

(** The same step in exact arithmetic: the integer part of
    [a + (b - a) * i / n]. *)
Definition exact_step (a b i n : Z) : Z :=
  trunc (inject_Z a + inject_Z (b - a) * (inject_Z i / inject_Z n)).

(** An initialized backend. *)
Definition ready_backend : MacOSBackend.t :=
  MacOSBackend.mk (Some MacOSBackend.Quartz_CoreGraphics) true.

(* ------------------------------------------------------------------ *)
(** ** autoguix/__init__.py

    The functions of the package, on the one orchestrator [_core].
    [screenshot] is left out: saving the image is outside the world
    modelled here. *)

Module autoguix.
Section Functions.
Context `{Host} {X : Type} `{!BackendBase.C X}.

Abbreviation state := (AutomationCore.t X * World)%type.

(** [MouseButton(value)] *)
Definition MouseButton_of_value (value : pystr) : result MouseButton :=
  if pystr_eqb value (pystr_of_string "left") then Ok LEFT
  else if pystr_eqb value (pystr_of_string "right") then Ok RIGHT
  else if pystr_eqb value (pystr_of_string "middle") then Ok MIDDLE
  else Raise (Foreign ValueError "not a valid MouseButton").

(* -- lifecycle -- *)

Definition init : M state unit := AutomationCore.init.

Definition cleanup : M state unit := AutomationCore.cleanup.

(* -- screen -- *)

Definition size : M state Size.t := AutomationCore.get_screen_size.

(* -- mouse -- *)

Definition position : M state Point.t := AutomationCore.get_mouse_position.

Definition moveTo (x y : Z) (duration : pyfloat) : M state unit :=
  AutomationCore.move_mouse x y duration.

Definition click (x y : option Z) (clicks : Z) (interval : pyfloat)
           (button : pystr) : M state unit :=
  b <- lift (MouseButton_of_value button) ;;
  AutomationCore.click x y b clicks interval.

Definition doubleClick (x y : option Z) : M state unit :=
  AutomationCore.click x y LEFT 2 (Finite 0).

Definition rightClick (x y : option Z) : M state unit :=
  AutomationCore.click x y RIGHT 1 (Finite 0).

Definition middleClick (x y : option Z) : M state unit :=
  AutomationCore.click x y MIDDLE 1 (Finite 0).

Definition scroll (clicks : Z) (x y : option Z) : M state unit :=
  AutomationCore.scroll clicks x y.

(* -- keyboard -- *)

Definition press (key : pystr) : M state unit := AutomationCore.press_key key.

Definition keyDown (key : pystr) : M state unit := AutomationCore.key_down key.

Definition keyUp (key : pystr) : M state unit := AutomationCore.key_up key.

Definition typewrite (text : pystr) (interval : pyfloat) : M state unit :=
  AutomationCore.type_text text interval.

Definition write (text : pystr) (interval : pyfloat) : M state unit :=
  typewrite text interval.

Definition hotkey (keys : list pystr) : M state unit :=
  AutomationCore.hotkey keys.

(* -- locate -- *)

Definition locateOnScreen (image : pystr) (confidence : pyfloat)
           (region : option Region.t) : M state (option Region.t) :=
  AutomationCore.locate_on_screen image confidence region IMAGE.

Definition locateAllOnScreen (image : pystr) (confidence : pyfloat)
           (region : option Region.t) : M state (list Region.t) :=
  AutomationCore.locate_all_on_screen image confidence region IMAGE.

Definition locateCenterOnScreen (image : pystr) (confidence : pyfloat)
           (region : option Region.t) : M state (option Point.t) :=
  loc <- locateOnScreen image confidence region ;;
  match loc with
  | None => ret None
  | Some loc =>
      ret (Some (Point.mk (Region.left loc + Region.width loc / 2)
                          (Region.top loc + Region.height loc / 2)))
  end.
End Functions.
End autoguix.

(** The number of events posted in a trace, and of its suspensions. *)
Definition is_post (a : Action) : bool :=
  match a with
  | Post _ _ => true
  | Sleep _ => false
  end.

Definition count_posts (l : list Action) : nat :=
  List.length (filter is_post l).

Definition count_sleeps (l : list Action) : nat :=
  List.length (filter (fun a => negb (is_post a)) l).

(** The backend method behind a call of the orchestrator. *)
Definition method_of (c : AutomationCore.call) : method :=
  match c with
  | AutomationCore.c_init => m_initialize
  | AutomationCore.c_cleanup => m_cleanup
  | AutomationCore.c_get_screen_size => m_get_screen_size
  | AutomationCore.c_take_screenshot _ => m_take_screenshot
  | AutomationCore.c_get_mouse_position => m_get_mouse_position
  | AutomationCore.c_move_mouse _ _ _ => m_move_mouse
  | AutomationCore.c_click _ _ _ _ _ => m_click
  | AutomationCore.c_scroll _ _ _ => m_scroll
  | AutomationCore.c_press_key _ => m_press_key
  | AutomationCore.c_key_down _ => m_key_down
  | AutomationCore.c_key_up _ => m_key_up
  | AutomationCore.c_type_text _ _ => m_type_text
  | AutomationCore.c_hotkey _ => m_hotkey
  | AutomationCore.c_locate_on_screen _ _ _ _ => m_locate_on_screen
  | AutomationCore.c_locate_all_on_screen _ _ _ _ => m_locate_all_on_screen
  end.

(** The same call made on a backend object directly, without its value. *)
Definition backend_call `{Host} {B : Type} `{!BackendBase.C B}
           (c : AutomationCore.call) : M (B * World) unit :=
  match c with
  | AutomationCore.c_init => BackendBase.initialize
  | AutomationCore.c_cleanup => BackendBase.cleanup
  | AutomationCore.c_get_screen_size =>
      AutomationCore.outcome BackendBase.get_screen_size
  | AutomationCore.c_take_screenshot r =>
      AutomationCore.outcome (BackendBase.take_screenshot r)
  | AutomationCore.c_get_mouse_position =>
      AutomationCore.outcome BackendBase.get_mouse_position
  | AutomationCore.c_move_mouse x y d => BackendBase.move_mouse x y d
  | AutomationCore.c_click x y b n i => BackendBase.click x y b n i
  | AutomationCore.c_scroll n x y => BackendBase.scroll n x y
  | AutomationCore.c_press_key k => BackendBase.press_key k
  | AutomationCore.c_key_down k => BackendBase.key_down k
  | AutomationCore.c_key_up k => BackendBase.key_up k
  | AutomationCore.c_type_text s i => BackendBase.type_text s i
  | AutomationCore.c_hotkey ks => BackendBase.hotkey ks
  | AutomationCore.c_locate_on_screen im c r m =>
      AutomationCore.outcome (BackendBase.locate_on_screen im c r m)
  | AutomationCore.c_locate_all_on_screen im c r m =>
      AutomationCore.outcome (BackendBase.locate_all_on_screen im c r m)
  end.

(** The states the orchestrator is ever in: no backend; a backend as
    constructed, after an initialization that failed; a backend that is
    initialized. *)
Definition lifecycle_state {X} (self : AutomationCore.t X) : Prop :=
  self = AutomationCore.__init__
  \/ self = AutomationCore.mk (Some (Mac MacOSBackend.__init__)) false
  \/ self = AutomationCore.mk (Some (Mac ready_backend)) true.

(** The key code and the flags of a keyboard event. *)
Definition event_keycode (e : CGEvent) : option Z :=
  match e with
  | KeyboardEvent code _ _ _ => Some code
  | _ => None
  end.

Definition event_flags (e : CGEvent) : option Z :=
  match e with
  | KeyboardEvent _ _ flags _ => Some flags
  | _ => None
  end.

(** An entry of the modifier table has a flag other than 0 and a name that
    is in the key-code table. *)
Definition modifier_entry_ok (entry : string * Z) : bool :=
  negb (snd entry =? 0)
  && match dict_get MacOSBackend._KEYCODE_MAP (pystr_of_string (fst entry)) with
     | Some _ => true
     | None => false
     end.



(** The value of a member of the enumeration (types.py). *)
Definition MouseButton_value (b : MouseButton) : pystr :=
  match b with
  | LEFT => pystr_of_string "left"
  | RIGHT => pystr_of_string "right"
  | MIDDLE => pystr_of_string "middle"
  end.

(** [z] is [q] with its fraction dropped: the integer next to [q] on the
    side of zero. *)
Definition toward_zero (q : Q) (z : Z) : Prop :=
  (inject_Z (Z.abs z) <= Qabs q)%Q
  /\ (Qabs q < inject_Z (Z.abs z) + 1)%Q
  /\ ((0 <= q)%Q -> 0 <= z)
  /\ ((q <= 0)%Q -> z <= 0).

Definition finite (f : pyfloat) : bool :=
  match f with
  | Finite _ => true
  | _ => false
  end.

(** The computation [c] raises nothing but exceptions in [P]. *)
Definition raises_only {S A} (P : exn -> Prop) (c : M S A) : Prop :=
  forall s e, fst (c s) = Raise e -> P e.

(** The errors of [int(f)]. *)
Definition int_conversion_error (e : exn) : Prop :=
  e = FloatNaNToInt \/ e = FloatInfToInt.

(** An exception other than the backend's state error. *)
Abbreviation other_error := (fun e : exn => e <> BackendNotInitialized).

(* ------------------------------------------------------------------ *)
(** ** Computations: basic facts *)

Lemma bind_ok {S A B} (c : M S A) (k : A -> M S B) s a s' :
  c s = (Ok a, s') -> bind c k s = k a s'.
Proof. intros E. unfold bind. now rewrite E. Qed.

Lemma bind_raise {S A B} (c : M S A) (k : A -> M S B) s e s' :
  c s = (Raise e, s') -> bind c k s = (Raise e, s').
Proof. intros E. unfold bind. now rewrite E. Qed.

Lemma for_each_app {S A} (l1 l2 : list A) (body : A -> M S unit) s s' :
  for_each l1 body s = (Ok tt, s') ->
  for_each (l1 ++ l2) body s = for_each l2 body s'.
Proof.
  revert s. induction l1 as [|a l1 IH]; intros s E; cbn in *.
  - unfold ret in E. now inversion E.
  - unfold bind in *. destruct (body a s) as [[[]|e] s1]; [auto|discriminate].
Qed.

Section WorldFacts.
Context `{Host}.

Lemma post_eq tap e w :
  post tap e w = (Ok tt, mkWorld (CGEventPost tap e (os w))
                                 (trace w ++ [Post tap e])
                                 (invoked w) (constructed w)).
Proof. reflexivity. Qed.

Lemma sleep_eq d w :
  sleep d w = (Ok tt, mkWorld (asyncio_sleep d (os w))
                              (trace w ++ [Sleep d])
                              (invoked w) (constructed w)).
Proof. reflexivity. Qed.

Lemma emit_trace events w :
  trace (emit events w) = trace w ++ List.map posted events.
Proof.
  revert w. induction events as [|e es IH]; intros w; cbn.
  - now rewrite app_nil_r.
  - unfold emit in IH. rewrite IH. cbn. now rewrite <- app_assoc.
Qed.

Lemma emit_invoked events w : invoked (emit events w) = invoked w.
Proof.
  revert w. induction events as [|e es IH]; intros w; cbn; auto.
  unfold emit in IH. now rewrite IH.
Qed.

Lemma emit_constructed events w : constructed (emit events w) = constructed w.
Proof.
  revert w. induction events as [|e es IH]; intros w; cbn; auto.
  unfold emit in IH. now rewrite IH.
Qed.

Lemma emit_app es1 es2 w : emit (es1 ++ es2) w = emit es2 (emit es1 w).
Proof. unfold emit. now rewrite fold_left_app. Qed.

Lemma for_each_post events w :
  for_each events (fun e => post kCGHIDEventTap e) w = (Ok tt, emit events w).
Proof.
  revert w. induction events as [|e es IH]; intros w; [reflexivity|].
  cbn [for_each]. erewrite bind_ok by apply post_eq. apply IH.
Qed.

Lemma ensure_ready_ok self :
  ready self -> MacOSBackend._ensure_ready self = Ok MacOSBackend.Quartz_CoreGraphics.
Proof.
  intros [Hcg Hi]. unfold MacOSBackend._ensure_ready. now rewrite Hcg, Hi.
Qed.

Lemma ensure_ready_inv self cg :
  MacOSBackend._ensure_ready self = Ok cg -> ready self.
Proof.
  unfold MacOSBackend._ensure_ready, ready.
  destruct self as [[[]|] []]; cbn; intros E; try discriminate; auto.
Qed.
End WorldFacts.

(* ------------------------------------------------------------------ *)
(** ** Keyboard: key codes and hotkeys *)

Lemma lor_fold_acc (l : list Z) (a : Z) :
  fold_left Z.lor l a = Z.lor a (fold_left Z.lor l 0).
Proof.
  revert a. induction l as [|z l IH]; intros a; cbn.
  - now rewrite Z.lor_0_r.
  - rewrite IH, (IH z). now rewrite Z.lor_assoc.
Qed.

Lemma land_lnot_lor (f a b : Z) :
  Z.land (Z.land f (Z.lnot a)) (Z.lnot b) = Z.land f (Z.lnot (Z.lor a b)).
Proof.
  apply Z.bits_inj'. intros n Hn.
  rewrite !Z.land_spec, !Z.lnot_spec, Z.lor_spec by assumption.
  now destruct (Z.testbit f n), (Z.testbit a n), (Z.testbit b n).
Qed.

Lemma land_lnot_self (f a : Z) : Z.land (Z.land f (Z.lnot a)) a = 0.
Proof.
  apply Z.bits_inj'. intros n Hn.
  rewrite !Z.land_spec, Z.lnot_spec, Z.bits_0 by assumption.
  now destruct (Z.testbit f n), (Z.testbit a n).
Qed.

Section Keyboard.
Context `{Host}.

Lemma resolve_recognized key code :
  recognized key code -> MacOSBackend._resolve_keycode key = Ok code.
Proof. unfold recognized, MacOSBackend._resolve_keycode. now intros ->. Qed.

Lemma resolve_unrecognized key :
  unrecognized key -> MacOSBackend._resolve_keycode key = Raise (UnknownKey key).
Proof. unfold unrecognized, MacOSBackend._resolve_keycode. now intros ->. Qed.

Lemma keycode_recognized key code : recognized key code -> keycode key = code.
Proof. intros R. unfold keycode. now rewrite (resolve_recognized _ _ R). Qed.

Lemma recognized_or_not key :
  (exists code, recognized key code) \/ unrecognized key.
Proof.
  unfold recognized, unrecognized.
  destruct (dict_get MacOSBackend._KEYCODE_MAP (str_lower key)); eauto.
Qed.

Lemma press_flags flags key :
  match MacOSBackend.truthy
          (dict_get MacOSBackend._MODIFIER_FLAGS (str_lower key)) with
  | Some f => Z.lor flags f
  | None => flags
  end = Z.lor flags (modifier_flag key).
Proof.
  unfold modifier_flag.
  destruct (MacOSBackend.truthy _); [reflexivity | now rewrite Z.lor_0_r].
Qed.

Lemma release_flags flags key :
  match MacOSBackend.truthy
          (dict_get MacOSBackend._MODIFIER_FLAGS (str_lower key)) with
  | Some f => Z.land flags (Z.lnot f)
  | None => flags
  end = Z.land flags (Z.lnot (modifier_flag key)).
Proof.
  unfold modifier_flag.
  destruct (MacOSBackend.truthy _); [reflexivity|].
  change (Z.lnot 0) with (-1). now rewrite Z.land_m1_r.
Qed.

Lemma hotkey_unfold self keys :
  MacOSBackend.hotkey self keys =
  (cg <- lift (MacOSBackend._ensure_ready self) ;;
   fe <- press_loop keys (0, []) ;;
   let '(flags, events_down) := fe in
   for_each events_down (fun event => post kCGHIDEventTap event) ;;
   release_loop (rev keys) flags ;;
   ret tt)%py.
Proof. reflexivity. Qed.

Lemma press_loop_ok keys : forall flags events w,
  Forall (fun k => exists code, recognized k code) keys ->
  press_loop keys (flags, events) w =
  (Ok (fold_left Z.lor (List.map modifier_flag keys) flags,
       events ++ down_events flags keys), w).
Proof.
  induction keys as [|k ks IH]; intros flags events w Hall.
  - cbn. now rewrite app_nil_r.
  - inversion Hall as [|? ? [code Hk] Hks]; subst.
    unfold press_loop. cbn [for_fold]. fold (press_loop ks).
    unfold bind at 1. unfold bind at 1, lift.
    rewrite (resolve_recognized _ _ Hk). cbn [ret].
    rewrite press_flags, IH by assumption.
    cbn [List.map fold_left down_events].
    rewrite (keycode_recognized _ _ Hk), <- app_assoc. reflexivity.
Qed.

(** An unrecognized key makes the first loop raise, and the loop posts
    nothing: the world is the one it started from. *)
Lemma press_loop_raises keys : forall acc w,
  Exists unrecognized keys ->
  exists k, In k keys /\ unrecognized k /\
            press_loop keys acc w = (Raise (UnknownKey k), w).
Proof.
  induction keys as [|k ks IH]; intros [flags events] w Hex.
  - inversion Hex.
  - unfold press_loop. cbn [for_fold]. fold (press_loop ks).
    destruct (recognized_or_not k) as [[code Hk]|Hk].
    + assert (Hks : Exists unrecognized ks).
      { inversion Hex as [? ? Hu|]; subst; auto.
        unfold recognized, unrecognized in *. congruence. }
      unfold bind at 1. unfold bind at 1, lift.
      rewrite (resolve_recognized _ _ Hk). cbn [ret].
      destruct (IH (Z.lor flags (modifier_flag k),
                    events ++ [KeyboardEvent code true
                                 (Z.lor flags (modifier_flag k)) None]) w Hks)
        as (k' & Hin & Hu & E).
      exists k'. rewrite press_flags, E. auto using in_cons.
    + exists k. unfold bind at 1. unfold bind at 1, lift.
      rewrite (resolve_unrecognized _ Hk). auto using in_eq.
Qed.

Lemma release_loop_ok rkeys : forall flags w,
  Forall (fun k => exists code, recognized k code) rkeys ->
  exists flags',
    release_loop rkeys flags w = (Ok flags', emit (up_events flags rkeys) w).
Proof.
  induction rkeys as [|k ks IH]; intros flags w Hall.
  - exists flags. reflexivity.
  - inversion Hall as [|? ? [code Hk] Hks]; subst.
    unfold release_loop. cbn [for_fold]. fold (release_loop ks).
    unfold bind at 1. unfold bind at 1. unfold bind at 1, lift.
    rewrite (resolve_recognized _ _ Hk), release_flags, post_eq.
    cbn [ret up_events emit fold_left].
    rewrite (keycode_recognized _ _ Hk).
    destruct (IH (Z.land flags (Z.lnot (modifier_flag k)))
                 (snd (post kCGHIDEventTap
                         (KeyboardEvent code false
                            (Z.land flags (Z.lnot (modifier_flag k))) None) w))
                 Hks) as [flags' E].
    exists flags'. rewrite post_eq in E. cbn [snd] in E. exact E.
Qed.

Lemma down_events_length keys : forall flags,
  List.length (down_events flags keys) = List.length keys.
Proof. induction keys; intros; cbn; auto. Qed.

Lemma up_events_length rkeys : forall flags,
  List.length (up_events flags rkeys) = List.length rkeys.
Proof. induction rkeys; intros; cbn; auto. Qed.

Lemma down_events_nth keys : forall flags i k,
  nth_error keys i = Some k ->
  nth_error (down_events flags keys) i =
  Some (KeyboardEvent (keycode k) true
          (fold_left Z.lor (List.map modifier_flag (firstn (S i) keys)) flags)
          None).
Proof.
  induction keys as [|k0 ks IH]; intros flags [|i] k E; try discriminate.
  - cbn in E. inversion E; subst. cbn. now destruct ks.
  - cbn in E. cbn [down_events nth_error]. rewrite (IH _ _ _ E). reflexivity.
Qed.

Lemma up_events_nth rkeys : forall flags j k,
  nth_error rkeys j = Some k ->
  nth_error (up_events flags rkeys) j =
  Some (KeyboardEvent (keycode k) false
          (Z.land flags (Z.lnot (mask_of (firstn (S j) rkeys)))) None).
Proof.
  unfold mask_of.
  induction rkeys as [|k0 ks IH]; intros flags [|j] k E; try discriminate.
  - cbn in E. inversion E; subst. cbn. now destruct ks.
  - cbn in E. cbn [up_events nth_error]. rewrite (IH _ _ _ E).
    rewrite land_lnot_lor. do 3 f_equal.
    cbn [firstn List.map fold_left]. rewrite (lor_fold_acc _ (Z.lor 0 _)).
    reflexivity.
Qed.
End Keyboard.

Lemma keycode_map_ok :
  forallb keycode_entry_ok MacOSBackend._KEYCODE_MAP = true.
Proof. vm_compute. reflexivity. Qed.

Lemma case_variant_lower key name :
  lower_name name = true -> case_variant key name ->
  is_ascii key /\ List.map ascii_lower key = name.
Proof.
  intros Hn Hv. induction Hv as [|c n key name Hc Hv IH].
  - split; [constructor | reflexivity].
  - cbn in Hn. apply andb_true_iff in Hn as [Hcn Hn].
    apply andb_true_iff in Hcn as [Hlt Hup]. apply N.ltb_lt in Hlt.
    destruct (IH Hn) as [IHa IHl]. unfold is_ascii.
    destruct Hc as [->|[Hr ->]].
    + split; [constructor; assumption|]. cbn [List.map]. f_equal; auto.
      unfold ascii_lower. now rewrite (negb_true_iff _) in Hup; rewrite Hup.
    + split; [constructor; [lia | assumption]|]. cbn [List.map]. f_equal; auto.
      unfold ascii_lower.
      replace ((65 <=? n - 32) && (n - 32 <=? 90))%N with true; [lia|].
      symmetry. apply andb_true_iff. split; apply N.leb_le; lia.
Qed.

Section KeyboardClaims.
Context `{Host}.

Lemma resolve_case_variant name code key :
  In (name, code) MacOSBackend._KEYCODE_MAP ->
  case_variant key (pystr_of_string name) ->
  recognized key code.
Proof.
  intros Hin Hv.
  pose proof (proj1 (forallb_forall _ _) keycode_map_ok _ Hin) as Hok.
  unfold keycode_entry_ok in Hok. cbn [fst snd] in Hok.
  apply andb_true_iff in Hok as [Hlow Hget].
  destruct (case_variant_lower _ _ Hlow Hv) as [Ha Hl].
  unfold recognized. rewrite (str_lower_ascii _ Ha), Hl.
  destruct (dict_get MacOSBackend._KEYCODE_MAP (pystr_of_string name));
    [|discriminate].
  apply Z.eqb_eq in Hget. now subst.
Qed.

Lemma key_down_unrecognized self key w :
  ready self -> unrecognized key ->
  MacOSBackend.key_down self key w = (Raise (UnknownKey key), w).
Proof.
  intros Hr Hu. unfold MacOSBackend.key_down, bind, lift.
  now rewrite (ensure_ready_ok _ Hr), (resolve_unrecognized _ Hu).
Qed.

Lemma key_up_unrecognized self key w :
  ready self -> unrecognized key ->
  MacOSBackend.key_up self key w = (Raise (UnknownKey key), w).
Proof.
  intros Hr Hu. unfold MacOSBackend.key_up, bind, lift.
  now rewrite (ensure_ready_ok _ Hr), (resolve_unrecognized _ Hu).
Qed.

Lemma hotkey_unrecognized self keys w :
  ready self -> Exists unrecognized keys ->
  exists k, In k keys /\ unrecognized k /\
            MacOSBackend.hotkey self keys w = (Raise (UnknownKey k), w).
Proof.
  intros Hr Hex.
  destruct (press_loop_raises keys (0, []) w Hex) as (k & Hin & Hu & E).
  exists k. repeat split; auto.
  rewrite hotkey_unfold. unfold bind at 1, lift.
  rewrite (ensure_ready_ok _ Hr). now rewrite (bind_raise _ _ _ _ _ E).
Qed.

(** C9. A key name whose lower-cased form is not in the key-code table
    makes [key_down], [key_up] and [press_key] raise a ValueError, and
    makes [hotkey] raise one when it is any member of the list; a name of
    the table resolves to its code however its letters are cased. *)
Theorem unknown_key_value_error :
  (forall self key w,
      ready self -> unrecognized key ->
      MacOSBackend.key_down self key w = (Raise (UnknownKey key), w)
      /\ MacOSBackend.key_up self key w = (Raise (UnknownKey key), w)
      /\ MacOSBackend.press_key self key w = (Raise (UnknownKey key), w)
      /\ class_of (UnknownKey key) = ValueError
      /\ forall keys, In key keys ->
           exists k, unrecognized k
                     /\ MacOSBackend.hotkey self keys w = (Raise (UnknownKey k), w)
                     /\ class_of (UnknownKey k) = ValueError)
  /\ (forall name code key,
         In (name, code) MacOSBackend._KEYCODE_MAP ->
         case_variant key (pystr_of_string name) ->
         MacOSBackend._resolve_keycode key = Ok code).
Proof.
  split.
  - intros self key w Hr Hu. repeat split.
    + now apply key_down_unrecognized.
    + now apply key_up_unrecognized.
    + unfold MacOSBackend.press_key.
      now rewrite (bind_raise _ _ _ _ _ (key_down_unrecognized _ _ w Hr Hu)).
    + intros keys Hin.
      destruct (hotkey_unrecognized self keys w Hr) as (k & _ & Hk & E).
      { apply Exists_exists. eauto. }
      exists k. auto.
  - intros name code key Hin Hv.
    apply resolve_recognized. eapply resolve_case_variant; eauto.
Qed.

(** C10. A hotkey whose list holds an unrecognized key name, at any
    position, raises the ValueError from its first loop, where events are
    only built: nothing is posted and the world is left as it was, so no
    key of the list is left held down. *)
Theorem hotkey_unknown_key_posts_nothing self keys w :
  ready self ->
  Exists unrecognized keys ->
  exists k,
    In k keys /\ unrecognized k
    /\ press_loop keys (0, []) w = (Raise (UnknownKey k), w)
    /\ MacOSBackend.hotkey self keys w = (Raise (UnknownKey k), w)
    /\ class_of (UnknownKey k) = ValueError
    /\ trace (snd (MacOSBackend.hotkey self keys w)) = trace w.
Proof.
  intros Hr Hex.
  destruct (press_loop_raises keys (0, []) w Hex) as (k & Hin & Hu & E).
  assert (E' : MacOSBackend.hotkey self keys w = (Raise (UnknownKey k), w)).
  { rewrite hotkey_unfold. unfold bind at 1, lift.
    rewrite (ensure_ready_ok _ Hr). now rewrite (bind_raise _ _ _ _ _ E). }
  exists k. rewrite E'. auto 10.
Qed.

(** C4. A hotkey on recognized key names posts one down event per key in
    the order given, then one up event per key in the reverse order; the
    down event of the i-th key carries the bitwise-or of the modifier
    flags of the first i keys, and each up event carries the full mask
    less the flags of the keys released so far, its own key included. *)
Theorem hotkey_down_then_up self keys w :
  ready self ->
  Forall (fun k => exists code, recognized k code) keys ->
  exists w' downs ups,
    MacOSBackend.hotkey self keys w = (Ok tt, w')
    /\ trace w' = trace w ++ List.map posted downs ++ List.map posted ups
    /\ List.length downs = List.length keys
    /\ List.length ups = List.length keys
    /\ (forall i k code,
           nth_error keys i = Some k -> recognized k code ->
           nth_error downs i =
           Some (KeyboardEvent code true (mask_of (firstn (S i) keys)) None))
    /\ (forall j k code,
           nth_error (rev keys) j = Some k -> recognized k code ->
           exists flags,
             nth_error ups j = Some (KeyboardEvent code false flags None)
             /\ flags = Z.land (mask_of keys)
                               (Z.lnot (mask_of (firstn (S j) (rev keys))))
             /\ Z.land flags (modifier_flag k) = 0).
Proof.
  intros Hr Hall.
  assert (Hrev : Forall (fun k => exists code, recognized k code) (rev keys)).
  { apply Forall_forall. intros k Hin. apply in_rev in Hin.
    revert k Hin. now apply Forall_forall. }
  destruct (release_loop_ok (rev keys) (mask_of keys)
              (emit (down_events 0 keys) w) Hrev) as [flags' Erel].
  exists (emit (up_events (mask_of keys) (rev keys))
               (emit (down_events 0 keys) w)),
         (down_events 0 keys), (up_events (mask_of keys) (rev keys)).
  split; [|split; [|split; [|split; [|split]]]].
  - rewrite hotkey_unfold. unfold bind at 1, lift.
    rewrite (ensure_ready_ok _ Hr).
    erewrite bind_ok by (apply press_loop_ok; assumption).
    cbn [app]. erewrite bind_ok by apply for_each_post.
    fold (mask_of keys). erewrite bind_ok by exact Erel. reflexivity.
  - rewrite !emit_trace. now rewrite app_assoc.
  - apply down_events_length.
  - rewrite up_events_length. apply length_rev.
  - intros i k code Hi Hk. rewrite (down_events_nth _ _ _ _ Hi).
    now rewrite (keycode_recognized _ _ Hk).
  - intros j k code Hj Hk. eexists. split; [|split; [reflexivity|]].
    + rewrite (up_events_nth _ _ _ _ Hj).
      now rewrite (keycode_recognized _ _ Hk).
    + apply nth_error_split in Hj as (l1 & l2 & Hsplit & Hlen).
      rewrite Hsplit. replace (S j) with (List.length (l1 ++ [k])).
      2:{ rewrite length_app. cbn. lia. }
      replace (l1 ++ k :: l2) with ((l1 ++ [k]) ++ l2).
      2:{ now rewrite <- app_assoc. }
      rewrite firstn_app, firstn_all, Nat.sub_diag. cbn [firstn].
      rewrite app_nil_r. unfold mask_of. rewrite map_app, fold_left_app.
      cbn [List.map fold_left]. rewrite <- land_lnot_lor.
      apply land_lnot_self.
Qed.
End KeyboardClaims.

(* ------------------------------------------------------------------ *)
(** ** Mouse clicks and typing *)

Lemma range_cons (lo hi : Z) :
  lo < hi -> range lo hi = lo :: range (lo + 1) hi.
Proof.
  intros Hlt. unfold range.
  replace (Z.to_nat (hi - lo)) with (S (Z.to_nat (hi - (lo + 1)))) by lia.
  cbn [seq List.map]. f_equal; [lia|].
  rewrite <- seq_shift, map_map. apply map_ext. intros k. lia.
Qed.

Lemma range_nil (lo hi : Z) : hi <= lo -> range lo hi = [].
Proof.
  intros Hle. unfold range. now replace (Z.to_nat (hi - lo)) with O by lia.
Qed.

Lemma range_length (lo hi : Z) : List.length (range lo hi) = Z.to_nat (hi - lo).
Proof. unfold range. now rewrite length_map, length_seq. Qed.

Section Mouse.
Context `{Host}.

Lemma get_mouse_position_ok self w pos :
  ready self -> cursor_at w pos ->
  MacOSBackend.get_mouse_position self w
  = (Ok (Point.mk (fst pos) (snd pos)), w).
Proof.
  intros Hr (qx & qy & Hloc & ->).
  unfold MacOSBackend.get_mouse_position, bind, lift, gets.
  rewrite (ensure_ready_ok _ Hr), Hloc. reflexivity.
Qed.

Lemma move_mouse_instant self x y duration w :
  ready self -> le0 duration = true ->
  MacOSBackend.move_mouse self x y duration w
  = (Ok tt, emit [MouseEvent kCGEventMouseMoved (x, y) 0 []] w).
Proof.
  intros Hr Hd. unfold MacOSBackend.move_mouse, bind, lift.
  rewrite (ensure_ready_ok _ Hr), Hd. reflexivity.
Qed.

(** The loop of [click] from repetition [i]. *)
Lemma click_loop button pos clicks interval : forall (m : nat) i w,
  i + Z.of_nat m = Z.max clicks 0 -> 0 <= i ->
  exists w',
    for_each (range i clicks) (fun i =>
      let '(down_type, up_type, cg_button) :=
        MacOSBackend._BUTTON_MAP button in
      post kCGHIDEventTap
           (MouseEvent down_type pos cg_button [(1, i + 1)]) ;;
      post kCGHIDEventTap
           (MouseEvent up_type pos cg_button [(1, i + 1)]) ;;
      if gt0 interval && (i <? clicks - 1) then sleep interval else ret tt) w
    = (Ok tt, w')
    /\ trace w' = trace w
                  ++ intersperse (pause interval)
                       (List.map (click_pair button pos)
                                 (range (i + 1) (clicks + 1))).
Proof.
  induction m as [|m IH]; intros i w Hi H0.
  - rewrite !range_nil by lia. exists w. cbn. now rewrite app_nil_r.
  - rewrite (range_cons i clicks), (range_cons (i + 1) (clicks + 1)) by lia.
    cbn [for_each List.map intersperse].
    destruct (MacOSBackend._BUTTON_MAP button) as [[down_type up_type] cg_button]
      eqn:Ebtn.
    unfold bind at 1. unfold bind at 1. rewrite post_eq.
    unfold bind at 1. rewrite post_eq.
    cbn [os trace invoked constructed].
    destruct m as [|m].
    + (* the last repetition *)
      replace (i <? clicks - 1) with false by (symmetry; apply Z.ltb_ge; lia).
      rewrite andb_false_r. unfold ret at 1.
      rewrite !range_nil by lia. cbn [for_each List.map ret].
      eexists. split; [reflexivity|]. cbn [trace].
      unfold click_pair, posted. rewrite Ebtn. now rewrite <- app_assoc.
    + replace (i <? clicks - 1) with true by (symmetry; apply Z.ltb_lt; lia).
      rewrite andb_true_r.
      assert (Er : range (i + 1 + 1) (clicks + 1)
                   = (i + 1 + 1) :: range (i + 1 + 1 + 1) (clicks + 1))
        by (apply range_cons; lia).
      match goal with
      | |- context [(if gt0 interval then _ else _) ?w1] => set (w0 := w1)
      end.
      assert (Ew : exists w1,
                 (if gt0 interval then sleep interval else ret tt) w0
                 = (Ok tt, w1)
                 /\ trace w1 = trace w0 ++ pause interval).
      { unfold pause. destruct (gt0 interval).
        - rewrite sleep_eq. eexists. split; reflexivity.
        - exists w0. split; [reflexivity | now rewrite app_nil_r]. }
      destruct Ew as (w1 & Ew & Tw). rewrite Ew.
      destruct (IH (i + 1) w1 ltac:(lia) ltac:(lia)) as (w' & E & T).
      exists w'. split; [exact E|]. rewrite T, Tw. subst w0. cbn [trace].
      rewrite Er. cbn [List.map].
      unfold click_pair at 3, posted. rewrite Ebtn.
      rewrite <- !app_assoc. reflexivity.
Qed.
End Mouse.

Lemma range_snoc (lo hi : Z) :
  lo <= hi -> range lo (hi + 1) = range lo hi ++ [hi].
Proof.
  intros Hle. unfold range.
  replace (Z.to_nat (hi + 1 - lo)) with (Z.to_nat (hi - lo) + 1)%nat by lia.
  rewrite seq_app, map_app. cbn. f_equal. f_equal. lia.
Qed.

Lemma intersperse_snoc {A} (sep : list A) (chunks : list (list A)) (c : list A) :
  exists pre, intersperse sep (chunks ++ [c]) = pre ++ c.
Proof.
  induction chunks as [|c0 cs [pre IH]].
  - now exists [].
  - exists (c0 ++ sep ++ pre). cbn [app intersperse].
    destruct (cs ++ [c]) eqn:E.
    + now destruct cs.
    + rewrite IH. now rewrite <- !app_assoc.
Qed.

Section MouseClaims.
Context `{Host}.

(** C5. A click with both coordinates given first moves the cursor
    there, and otherwise clicks where the cursor is; it then posts, for
    each repetition, the down and the up event of the button, both
    stamped with the number of the repetition counted from 1; when
    [interval > 0] it sleeps for [interval] between two repetitions and
    not after the last. *)
Theorem click_events self x y button clicks interval w pos :
  ready self ->
  (x = None \/ y = None -> cursor_at w pos) ->
  let move := match x, y with
              | Some x, Some y =>
                  [posted (MouseEvent kCGEventMouseMoved (x, y) 0 [])]
              | _, _ => []
              end in
  let at_pos := match x, y with
                | Some x, Some y => (x, y)
                | _, _ => pos
                end in
  let repetitions :=
    List.map (click_pair button at_pos) (range 1 (clicks + 1)) in
  exists w',
    MacOSBackend.click self x y button clicks interval w = (Ok tt, w')
    /\ trace w' = trace w ++ move ++ intersperse (pause interval) repetitions
    /\ List.length repetitions = Z.to_nat clicks
    /\ (1 <= clicks ->
        exists before,
          intersperse (pause interval) repetitions
          = before ++ click_pair button at_pos clicks).
Proof.
  intros Hr Hcur move at_pos repetitions.
  assert (Hpre : exists w0,
             (match x, y with
              | Some x, Some y =>
                  MacOSBackend.move_mouse self x y (Finite 0) ;; ret (x, y)
              | _, _ =>
                  p <- MacOSBackend.get_mouse_position self ;;
                  ret (Point.x p, Point.y p)
              end)%py w = (Ok at_pos, w0)
             /\ trace w0 = trace w ++ move).
  { subst move at_pos. destruct x as [x|], y as [y|].
    - erewrite bind_ok by (apply move_mouse_instant; [assumption|reflexivity]).
      eexists. split; [reflexivity|]. now rewrite emit_trace.
    - erewrite bind_ok by (apply get_mouse_position_ok; auto).
      exists w. split; [now destruct pos | now rewrite app_nil_r].
    - erewrite bind_ok by (apply get_mouse_position_ok; auto).
      exists w. split; [now destruct pos | now rewrite app_nil_r].
    - erewrite bind_ok by (apply get_mouse_position_ok; auto).
      exists w. split; [now destruct pos | now rewrite app_nil_r]. }
  destruct Hpre as (w0 & Epre & Tpre).
  destruct (click_loop button at_pos clicks interval
              (Z.to_nat (Z.max clicks 0)) 0 w0 ltac:(lia) ltac:(lia))
    as (w' & E & T).
  exists w'. repeat split.
  - unfold MacOSBackend.click. unfold bind at 1, lift.
    rewrite (ensure_ready_ok _ Hr).
    erewrite bind_ok by exact Epre.
    destruct (MacOSBackend._BUTTON_MAP button) as [[down_type up_type] cg_button].
    exact E.
  - rewrite T, Tpre. now rewrite <- app_assoc.
  - subst repetitions. rewrite length_map, range_length. lia.
  - intros Hc. subst repetitions.
    rewrite (range_snoc 1 clicks Hc), map_app. apply intersperse_snoc.
Qed.

(** The loop of [type_text]. *)
Lemma type_text_loop interval text : forall w,
  exists w' chunks,
    for_each text (fun ch =>
      flags0 <- gets (fun w => CGEventGetFlags (os w)) ;;
      post kCGHIDEventTap (KeyboardEvent 0 true flags0 (Some (1, [ch]))) ;;
      flags1 <- gets (fun w => CGEventGetFlags (os w)) ;;
      post kCGHIDEventTap (KeyboardEvent 0 false flags1 (Some (1, [ch]))) ;;
      if gt0 interval then sleep interval else ret tt) w
    = (Ok tt, w')
    /\ trace w' = trace w ++ List.concat chunks
    /\ Forall2 (typed interval) text chunks.
Proof.
  induction text as [|ch text IH]; intros w.
  - exists w, []. repeat split; [now rewrite app_nil_r | constructor].
  - cbn [for_each].
    unfold bind at 1. unfold bind at 1, gets at 1.
    unfold bind at 1. rewrite post_eq.
    unfold bind at 1, gets at 1.
    unfold bind at 1. rewrite post_eq.
    cbn [os trace invoked constructed].
    match goal with
    | |- context [(if gt0 interval then _ else _) ?w1] => set (w0 := w1)
    end.
    assert (Ew : exists w1,
               (if gt0 interval then sleep interval else ret tt) w0
               = (Ok tt, w1)
               /\ trace w1 = trace w0 ++ pause interval).
    { unfold pause. destruct (gt0 interval).
      - rewrite sleep_eq. eexists. split; reflexivity.
      - exists w0. split; [reflexivity | now rewrite app_nil_r]. }
    destruct Ew as (w1 & Ew & Tw). rewrite Ew.
    destruct (IH w1) as (w' & chunks & E & T & F).
    exists w',
      (([ posted (KeyboardEvent 0 true (CGEventGetFlags (os w))
                    (Some (1, [ch])));
          posted (KeyboardEvent 0 false
                    (CGEventGetFlags
                       (CGEventPost kCGHIDEventTap
                          (KeyboardEvent 0 true (CGEventGetFlags (os w))
                             (Some (1, [ch]))) (os w)))
                    (Some (1, [ch]))) ] ++ pause interval) :: chunks).
    split; [exact E|]. split.
    + rewrite T, Tw. subst w0. cbn [trace List.concat]. unfold posted.
      rewrite <- !app_assoc. reflexivity.
    + constructor; [|exact F]. eexists _, _. reflexivity.
Qed.

(** C8. [type_text] posts, for each character of the text in order, a
    down event and then an up event that carry the character itself as
    their Unicode string, with key code 0 and no look-up in the key-code
    table: it accepts every string and never raises a ValueError; when
    [interval > 0] it sleeps for [interval] after the events of each
    character, hence between any two characters. *)
Theorem type_text_events :
  (forall self text interval w,
      ready self ->
      exists w' chunks,
        MacOSBackend.type_text self text interval w = (Ok tt, w')
        /\ trace w' = trace w ++ List.concat chunks
        /\ Forall2 (typed interval) text chunks)
  /\ (forall self text interval w e,
         fst (MacOSBackend.type_text self text interval w) = Raise e ->
         class_of e <> ValueError).
Proof.
  split.
  - intros self text interval w Hr.
    unfold MacOSBackend.type_text. unfold bind at 1, lift.
    rewrite (ensure_ready_ok _ Hr). apply type_text_loop.
  - intros self text interval w e.
    unfold MacOSBackend.type_text. unfold bind at 1, lift.
    destruct (MacOSBackend._ensure_ready self) as [cg|e0] eqn:Er.
    + destruct (type_text_loop interval text w) as (w' & chunks & E & _).
      rewrite E. discriminate.
    + unfold MacOSBackend._ensure_ready in Er.
      destruct (negb _), (MacOSBackend._cg self); inversion Er; subst;
        cbn; intros [= <-]; discriminate.
Qed.
End MouseClaims.

(* ------------------------------------------------------------------ *)
(** ** The orchestrator's lifecycle *)

Section Orchestrator.
Context `{Host} {X : Type} `{!BackendBase.C X}.

Lemma outcome_state {S A} (c : M S A) (s : S) :
  snd (AutomationCore.outcome c s) = snd (c s).
Proof.
  unfold AutomationCore.outcome, bind, ret. now destruct (c s) as [[a|e] s'].
Qed.

Lemma outcome_raise {S A} (c : M S A) (s s' : S) e :
  c s = (Raise e, s') -> AutomationCore.outcome c s = (Raise e, s').
Proof. apply bind_raise. Qed.

Lemma ensure_initialized_raises (self : AutomationCore.t X) w :
  AutomationCore._initialized self = false
  \/ AutomationCore._backend self = None ->
  AutomationCore._ensure_initialized (self, w)
  = (Raise CoreNotInitialized, (self, w)).
Proof.
  unfold AutomationCore._ensure_initialized.
  intros [E|E]; rewrite E; cbn; [reflexivity|].
  now destruct (negb (AutomationCore._initialized self)).
Qed.

Lemma ensure_initialized_ok (self : AutomationCore.t X) w b s :
  AutomationCore._ensure_initialized (self, w) = (Ok b, s) ->
  s = (self, w) /\ AutomationCore._backend self = Some b
  /\ AutomationCore._initialized self = true.
Proof.
  unfold AutomationCore._ensure_initialized.
  destruct (AutomationCore._initialized self),
           (AutomationCore._backend self); cbn; intros E; inversion E; auto.
Qed.

(** A method of [MacOSBackend] that reads [self] leaves the object that
    the orchestrator holds as it was. *)
Lemma invoke_reader {R} (f : MacOSBackend.t -> M World R)
      (other : M (X * World) R) mb m (self : AutomationCore.t X) w :
  exists r w',
    AutomationCore.invoke (Mac mb) m (dispatch (on_self f) other) (self, w)
    = (r, (AutomationCore.mk (Some (Mac mb))
                             (AutomationCore._initialized self), w')).
Proof.
  unfold AutomationCore.invoke, dispatch, on_self.
  destruct (f mb (note_call m w)) as [r w']. eauto.
Qed.

Lemma delegate_inv {R} (f : MacOSBackend.t -> M World R)
      (other : M (X * World) R) m (self : AutomationCore.t X) w :
  lifecycle_inv self ->
  lifecycle_inv
    (fst (snd ((b <- AutomationCore._ensure_initialized ;;
                _run (AutomationCore.invoke b m
                        (dispatch (on_self f) other)))%py (self, w)))).
Proof.
  intros Hinv. unfold bind.
  destruct (AutomationCore._ensure_initialized (self, w)) as [[b|e] s] eqn:E.
  - apply ensure_initialized_ok in E as (-> & Hb & Hi).
    unfold lifecycle_inv in Hinv. rewrite Hb in Hinv.
    destruct b as [mb|x]; [|contradiction].
    unfold _run.
    destruct (invoke_reader f other mb m self w) as (r & w' & ->).
    cbn. unfold lifecycle_inv. cbn. now rewrite <- Hinv.
  - unfold AutomationCore._ensure_initialized in E.
    destruct (negb _), (AutomationCore._backend self); inversion E; subst;
      exact Hinv.
Qed.

Lemma init_inv (self : AutomationCore.t X) w :
  lifecycle_inv self ->
  lifecycle_inv (fst (snd (AutomationCore.init (self, w)))).
Proof.
  intros Hinv. unfold AutomationCore.init.
  unfold bind at 1, gets. cbn [fst].
  destruct (AutomationCore._initialized self) eqn:Hi; [exact Hinv|].
  destruct (negb (sys_platform =? "darwin")%string); [exact Hinv|].
  unfold AutomationCore.set_backend, AutomationCore.set_initialized.
  unfold bind, modify, _run, AutomationCore.invoke.
  cbn [BackendBase.initialize AnyBackend_is_backend MacOSBackend_is_backend].
  unfold dispatch, updating_self, MacOSBackend.initialize.
  cbn [os note_call note_construction].
  destruct (import_Quartz (os w)); unfold lifecycle_inv; cbn;
    [reflexivity | exact Hi].
Qed.

Lemma cleanup_inv (self : AutomationCore.t X) w :
  lifecycle_inv self ->
  lifecycle_inv (fst (snd (AutomationCore.cleanup (self, w)))).
Proof.
  intros Hinv. unfold AutomationCore.cleanup.
  unfold bind at 1, gets. cbn [fst].
  unfold lifecycle_inv in Hinv.
  destruct (AutomationCore._backend self) as [[mb|x]|]; [| contradiction |];
    cbn; reflexivity.
Qed.

Lemma perform_inv c (self : AutomationCore.t X) w :
  lifecycle_inv self ->
  lifecycle_inv (fst (snd (AutomationCore.perform c (self, w)))).
Proof.
  intros Hinv.
  destruct c; cbn [AutomationCore.perform];
    try rewrite outcome_state;
    first [ now apply init_inv | now apply cleanup_inv
          | now apply delegate_inv ].
Qed.

Lemma reachable_inv (self : AutomationCore.t X) :
  AutomationCore.reachable self -> lifecycle_inv self.
Proof.
  induction 1 as [|self w c Hr IH]; [reflexivity | now apply perform_inv].
Qed.

Lemma inv_iff (self : AutomationCore.t X) :
  lifecycle_inv self ->
  AutomationCore._initialized self = true <-> AutomationCore.backend_ready self.
Proof.
  unfold lifecycle_inv, AutomationCore.backend_ready.
  destruct (AutomationCore._backend self) as [[mb|x]|]; intros Hinv.
  - rewrite Hinv. split; [eauto|]. now intros (b & [= <-] & Hb).
  - contradiction.
  - rewrite Hinv. split; [discriminate|]. now intros (b & [=] & _).
Qed.

(** C1. In every state the orchestrator can be brought to by calls of
    [init], [cleanup] and the delegated operations, whatever they return
    or raise, its flag is up exactly when it holds a backend whose own
    flag is up; and so it is again after any further call. *)
Theorem initialized_iff_backend_ready (self : AutomationCore.t X) :
  AutomationCore.reachable self ->
  (AutomationCore._initialized self = true
   <-> AutomationCore.backend_ready self)
  /\ forall c w,
      let self' := fst (snd (AutomationCore.perform c (self, w))) in
      AutomationCore._initialized self' = true
      <-> AutomationCore.backend_ready self'.
Proof.
  intros Hr. split.
  - apply inv_iff, reachable_inv, Hr.
  - intros c w self'. apply inv_iff, perform_inv, reachable_inv, Hr.
Qed.

(** C3. Every call other than [init] and [cleanup] on an orchestrator
    that is not initialized raises the RuntimeError of
    [_ensure_initialized] and leaves the orchestrator and the world as
    they were: no backend method is invoked.  [init] on an initialized
    orchestrator returns at once: nothing is constructed or invoked. *)
Theorem uninitialized_calls_raise :
  (forall (self : AutomationCore.t X) w c,
      AutomationCore.is_lifecycle c = false ->
      AutomationCore._initialized self = false
      \/ AutomationCore._backend self = None ->
      AutomationCore.perform c (self, w)
      = (Raise CoreNotInitialized, (self, w))
      /\ class_of CoreNotInitialized = RuntimeError)
  /\ (forall (self : AutomationCore.t X) w,
         AutomationCore._initialized self = true ->
         AutomationCore.init (self, w) = (Ok tt, (self, w))).
Proof.
  split.
  - intros self w c Hc Hu. split; [|reflexivity].
    pose proof (ensure_initialized_raises self w Hu) as E.
    destruct c; try discriminate Hc; cbn [AutomationCore.perform];
      try apply outcome_raise; apply (bind_raise _ _ _ _ _ E).
  - intros self w Hi. unfold AutomationCore.init.
    unfold bind, gets. cbn [fst]. now rewrite Hi.
Qed.

(** C2 as the code has it.  Without a backend [cleanup] invokes nothing
    and leaves the orchestrator uninitialized; with one it invokes the
    backend's cleanup, and when that returns it drops the handle and
    clears the flag, while an exception of the backend's cleanup reaches
    the caller with the handle and the flag left as they were.  The
    cleanup of [MacOSBackend] always returns. *)
Theorem cleanup_outcome :
  (forall (self : AutomationCore.t X) w,
      AutomationCore._backend self = None ->
      AutomationCore.cleanup (self, w)
      = (Ok tt, (AutomationCore.mk None false, w)))
  /\ (forall (self : AutomationCore.t X) w b,
         AutomationCore._backend self = Some b ->
         match BackendBase.cleanup (b, note_call m_cleanup w) with
         | (Ok _, (b', w')) =>
             AutomationCore.cleanup (self, w)
             = (Ok tt, (AutomationCore.mk None false, w'))
         | (Raise e, (b', w')) =>
             AutomationCore.cleanup (self, w)
             = (Raise e, (AutomationCore.mk
                            (Some b') (AutomationCore._initialized self), w'))
         end)
  /\ (forall (self : AutomationCore.t X) w mb,
         AutomationCore._backend self = Some (Mac mb) ->
         AutomationCore.cleanup (self, w)
         = (Ok tt, (AutomationCore.mk None false, note_call m_cleanup w))).
Proof.
  split; [|split].
  - intros self w Hb. unfold AutomationCore.cleanup.
    unfold bind at 1, gets. cbn [fst]. rewrite Hb. reflexivity.
  - intros self w b Hb.
    unfold AutomationCore.cleanup, AutomationCore.set_backend,
      AutomationCore.set_initialized.
    unfold bind, gets, modify, _run, AutomationCore.invoke. cbn [fst].
    rewrite Hb.
    destruct (BackendBase.cleanup (b, note_call m_cleanup w))
      as [[[]|e] [b' w']]; reflexivity.
  - intros self w mb Hb. unfold AutomationCore.cleanup.
    unfold bind at 1, gets. cbn [fst]. rewrite Hb. reflexivity.
Qed.
End Orchestrator.

(* ------------------------------------------------------------------ *)
(** ** Locating an image *)

Lemma geb_not_ltb (a b : pyfloat) : geb a b = true -> ltb a b = false.
Proof.
  destruct a as [x|s|], b as [y|t|]; cbn; try discriminate; intros E.
  - now rewrite E.
  - now rewrite E.
  - now destruct s.
  - now destruct s, t.
Qed.

Section Locate.
Context `{Host}.

Lemma take_screenshot_world self region w :
  snd (MacOSBackend.take_screenshot self region w) = w.
Proof.
  unfold MacOSBackend.take_screenshot, bind, lift, gets, raise, ret.
  destruct (MacOSBackend._ensure_ready self); [|reflexivity].
  destruct (CGWindowListCreateImage (os w) region) as [im|]; [|reflexivity].
  destruct (MacOSBackend.reshape im); reflexivity.
Qed.

(** C7. With OpenCV importable and the screen captured, [locate_on_screen]
    raises a FileNotFoundError when the template cannot be loaded;
    otherwise it returns None exactly when the best score is less than the
    confidence, and when the best score reaches the confidence it returns
    the Region of the template's size at the best position, moved by the
    origin of the search region, or by nothing without a region. *)
Theorem locate_on_screen_result self image confidence region mode w shot :
  import_cv2 (os w) = true ->
  fst (MacOSBackend.take_screenshot self region w) = Ok shot ->
  match cv2_imread_grayscale (os w) image with
  | None =>
      MacOSBackend.locate_on_screen self image confidence region mode w
      = (Raise (TemplateNotLoaded image), w)
      /\ class_of (TemplateNotLoaded image) = FileNotFoundError
  | Some template =>
      let best := cv2_minMaxLoc (cv2_matchTemplate shot template) in
      let max_val := fst best in
      let max_loc := snd best in
      let ox := match region with Some r => Region.left r | None => 0 end in
      let oy := match region with Some r => Region.top r | None => 0 end in
      exists found,
        MacOSBackend.locate_on_screen self image confidence region mode w
        = (Ok found, w)
        /\ (found = None <-> ltb max_val confidence = true)
        /\ (geb max_val confidence = true ->
            found = Some (Region.mk (fst max_loc + ox) (snd max_loc + oy)
                                    (snd (template_shape template))
                                    (fst (template_shape template))))
  end.
Proof.
  intros Hcv Hshot.
  assert (Eshot : MacOSBackend.take_screenshot self region w = (Ok shot, w)).
  { pose proof (take_screenshot_world self region w) as Hw.
    destruct (MacOSBackend.take_screenshot self region w) as [r w0].
    cbn in *. now subst. }
  unfold MacOSBackend.locate_on_screen.
  erewrite bind_ok by reflexivity. cbv beta. rewrite Hcv. cbn [negb].
  erewrite bind_ok by exact Eshot.
  erewrite bind_ok by reflexivity. cbv beta.
  destruct (cv2_imread_grayscale (os w) image) as [template|];
    [|split; reflexivity].
  cbn zeta.
  destruct (cv2_minMaxLoc (cv2_matchTemplate shot template))
    as [max_val max_loc].
  destruct (template_shape template) as [th tw]. cbn [fst snd].
  destruct (ltb max_val confidence) eqn:Elt.
  - exists None. repeat split; auto.
    intros Hge. apply geb_not_ltb in Hge. congruence.
  - unfold MacOSBackend.origin.
    destruct region as [r|]; eexists; (split; [reflexivity|]);
      (split; [split; discriminate | reflexivity]).
Qed.
End Locate.

(* ------------------------------------------------------------------ *)
(** ** Rounding to binary64 *)

Lemma pow2_inject (n : Z) : 0 <= n -> (2 ^ n == inject_Z (2 ^ n))%Q.
Proof. intros Hn. now rewrite Zpower_Qpower. Qed.

Lemma pow2_pos (n : Z) : (0 < 2 ^ n)%Q.
Proof. now apply Qpower_0_lt. Qed.

Lemma rne_int (q : Q) (m : Z) : (q == inject_Z m)%Q -> rne q = m.
Proof.
  intros E. unfold rne. rewrite (Qfloor_comp _ _ E), Qfloor_Z.
  assert (E0 : (q - inject_Z m == 0)%Q) by (rewrite E; ring).
  rewrite E0. reflexivity.
Qed.

Lemma ilog2_int (z : Z) : 0 < z -> ilog2 (inject_Z z) = Z.log2 z.
Proof.
  intros Hz. unfold ilog2. cbn [Qnum Qden inject_Z].
  change (Z.log2 1) with 0. rewrite Z.sub_0_r.
  match goal with
  | |- (if ?c then _ else _) = _ => replace c with true; [reflexivity|]
  end.
  symmetry. apply Qle_bool_iff.
  rewrite pow2_inject by apply Z.log2_nonneg.
  rewrite <- Zle_Qle.
  apply Z.log2_spec. assumption.
Qed.

Lemma Qred_inject (z : Z) : Qred (inject_Z z) = inject_Z z.
Proof.
  apply Qred_identity. cbn. apply Z.gcd_1_r.
Qed.

Lemma round64_int (z : Z) :
  Z.abs z < 2 ^ 53 -> round64 (inject_Z z) = Finite (inject_Z z).
Proof.
  intros Hz. unfold round64. rewrite Qred_inject. unfold round_canon.
  destruct (Qeq_bool (inject_Z z) 0) eqn:E0.
  - apply Qeq_bool_eq in E0. unfold Qeq in E0. cbn in E0.
    replace z with 0 by lia. reflexivity.
  - assert (Hnz : z <> 0).
    { intros ->. discriminate. }
    assert (Ha : Qabs (inject_Z z) = inject_Z (Z.abs z)) by reflexivity.
    rewrite Ha, ilog2_int by lia.
    set (l := Z.log2 (Z.abs z)).
    assert (Hl : 0 <= l < 53).
    { split; [apply Z.log2_nonneg|]. apply Z.log2_lt_pow2; lia. }
    rewrite Z.max_l by lia.
    assert (Ey : (inject_Z z * 2 ^ (- (l - 52)) == inject_Z (z * 2 ^ (52 - l)))%Q).
    { replace (- (l - 52)) with (52 - l) by lia.
      rewrite pow2_inject by lia. now rewrite inject_Z_mult. }
    rewrite (rne_int _ _ Ey).
    assert (Er : (inject_Z (z * 2 ^ (52 - l)) * 2 ^ (l - 52) == inject_Z z)%Q).
    { rewrite inject_Z_mult, <- pow2_inject by lia.
      rewrite <- Qmult_assoc, <- Qpower_plus by discriminate.
      replace (52 - l + (l - 52)) with 0 by lia. cbn. ring. }
    replace (Qle_bool (2 ^ 1024)
               (Qabs (inject_Z (z * 2 ^ (52 - l)) * 2 ^ (l - 52)))) with false.
    + f_equal. transitivity (Qred (inject_Z z));
        [now apply Qred_complete | apply Qred_inject].
    + symmetry. apply not_true_iff_false. intros Hle.
      apply Qle_bool_iff in Hle. rewrite Er, Ha in Hle.
      rewrite pow2_inject in Hle by lia. rewrite <- Zle_Qle in Hle.
      assert (2 ^ 53 < 2 ^ 1024) by (apply Z.pow_lt_mono_r; lia). lia.
Qed.

Lemma ilog2_lower (q : Q) : (0 < q)%Q -> (2 ^ ilog2 q <= q)%Q.
Proof.
  intros Hq. unfold ilog2.
  set (l := Z.log2 (Qnum q) - Z.log2 (Zpos (Qden q))).
  destruct (Qle_bool (2 ^ l) q) eqn:E; [now apply Qle_bool_iff|].
  destruct q as [a b]. cbn [Qnum Qden] in *.
  assert (Ha : 0 < a).
  { unfold Qlt in Hq. cbn in Hq. lia. }
  set (la := Z.log2 a) in *. set (lb := Z.log2 (Z.pos b)) in *.
  assert (Hla : 0 <= la) by apply Z.log2_nonneg.
  assert (Hlb : 0 <= lb) by apply Z.log2_nonneg.
  assert (HA : 2 ^ la <= a) by (apply Z.log2_spec; lia).
  assert (HB : Z.pos b < 2 ^ (lb + 1)).
  { change (lb + 1) with (Z.succ lb). apply Z.log2_spec. lia. }
  replace (l - 1) with (la - (lb + 1)) by (subst l; lia).
  rewrite Qpower_minus by discriminate.
  rewrite !pow2_inject by lia.
  assert (HBpos : 0 < 2 ^ (lb + 1)) by lia.
  rewrite <- (Z2Pos.id (2 ^ (lb + 1))) at 1 by assumption.
  rewrite <- Qmake_Qdiv. unfold Qle. cbn [Qnum Qden].
  rewrite Z2Pos.id by assumption. nia.
Qed.

Lemma rne_bound (y : Q) : (Qabs (inject_Z (rne y)) <= Qabs y + 1)%Q.
Proof.
  pose proof (Qfloor_le y) as Hlo. pose proof (Qlt_floor y) as Hhi.
  assert (Hr : rne y = Qfloor y \/ rne y = Qfloor y + 1).
  { unfold rne. destruct (_ ?= _)%Q; auto. destruct (Z.even _); auto. }
  rewrite inject_Z_plus in Hhi. change (inject_Z 1) with 1%Q in Hhi.
  pose proof (Qle_Qabs y) as H1.
  pose proof (Qle_Qabs (- y)) as H2. rewrite Qabs_opp in H2.
  apply Qabs_Qle_condition.
  destruct Hr as [-> | ->]; [|rewrite inject_Z_plus; change (inject_Z 1) with 1%Q];
    split; lra.
Qed.

Lemma pow2_le (n m : Z) : n <= m -> (2 ^ n <= 2 ^ m)%Q.
Proof. intros Hnm. apply Qpower_le_compat_l; [assumption | discriminate]. Qed.

Lemma pow2_cancel (q : Q) (e : Z) : (q * 2 ^ (- e) * 2 ^ e == q)%Q.
Proof.
  rewrite <- Qmult_assoc, <- Qpower_plus by discriminate.
  replace (- e + e) with 0 by lia. cbn. ring.
Qed.

Lemma round_canon_finite (q' : Q) :
  (Qabs q' <= 2 ^ 1022)%Q ->
  exists r, round_canon q' = Finite r /\ (Qabs r <= 2 * Qabs q' + 1)%Q.
Proof.
  intros Hq.
  assert (Hq0 : (0 <= Qabs q')%Q) by apply Qabs_nonneg.
  unfold round_canon.
  destruct (Qeq_bool q' 0) eqn:E0.
  - exists 0%Q. split; [reflexivity|]. change (Qabs 0) with 0%Q. lra.
  - assert (Hpos : (0 < Qabs q')%Q).
    { apply Qeq_bool_neq in E0.
      destruct (Qlt_le_dec 0 (Qabs q')) as [|Hle]; [assumption|].
      exfalso. apply E0.
      pose proof (Qle_Qabs q') as H1.
      pose proof (Qle_Qabs (- q')) as H2. rewrite Qabs_opp in H2. lra. }
    set (e := Z.max (ilog2 (Qabs q') - 52) (-1074)).
    set (m := rne (q' * 2 ^ (- e))).
    assert (He : (2 ^ e <= Qabs q' + 1)%Q).
    { subst e. apply Z.max_case_strong; intros _.
      - pose proof (ilog2_lower _ Hpos) as Hl.
        pose proof (pow2_le (ilog2 (Qabs q') - 52) (ilog2 (Qabs q'))
                      ltac:(lia)) as Hm. lra.
      - pose proof (pow2_le (-1074) 0 ltac:(lia)) as Hm.
        change (2 ^ 0)%Q with 1%Q in Hm. lra. }
    assert (Hr : (Qabs (inject_Z m * 2 ^ e) <= 2 * Qabs q' + 1)%Q).
    { rewrite Qabs_Qmult, (Qabs_pos (2 ^ e)) by apply Qlt_le_weak, pow2_pos.
      pose proof (rne_bound (q' * 2 ^ (- e))) as Hm. fold m in Hm.
      rewrite Qabs_Qmult, (Qabs_pos (2 ^ (- e))) in Hm
        by apply Qlt_le_weak, pow2_pos.
      pose proof (pow2_pos e) as Hpe.
      pose proof (pow2_cancel (Qabs q') e) as Hc.
      apply Qle_trans with ((Qabs q' * 2 ^ (- e) + 1) * 2 ^ e)%Q.
      - apply Qmult_le_compat_r; [exact Hm | lra].
      - rewrite Qmult_plus_distr_l, Hc. lra. }
    replace (Qle_bool (2 ^ 1024) (Qabs (inject_Z m * 2 ^ e))) with false.
    + eexists. split; [reflexivity|]. now rewrite Qred_correct.
    + symmetry. apply not_true_iff_false. intros Hle.
      apply Qle_bool_iff in Hle.
      assert (H24 : (2 ^ 1024 == 4 * 2 ^ 1022)%Q).
      { change 1024 with (2 + 1022). rewrite Qpower_plus by discriminate.
        reflexivity. }
      pose proof (pow2_le 0 1022 ltac:(lia)) as H1.
      change (2 ^ 0)%Q with 1%Q in H1. lra.
Qed.

Lemma round64_finite (q : Q) :
  (Qabs q <= 2 ^ 1022)%Q ->
  exists r, round64 q = Finite r /\ (Qabs r <= 2 * Qabs q + 1)%Q.
Proof.
  intros Hq. unfold round64.
  destruct (round_canon_finite (Qred q)) as (r & E & Hr).
  - now rewrite Qred_correct.
  - exists r. split; [exact E|]. now rewrite Qred_correct in Hr.
Qed.

Lemma round64_proper (q1 q2 : Q) : (q1 == q2)%Q -> round64 q1 = round64 q2.
Proof. intros E. unfold round64. now rewrite (Qred_complete _ _ E). Qed.

Lemma of_int_exact (z : Z) :
  Z.abs z < 2 ^ 53 -> of_int z = Ok (Finite (inject_Z z)).
Proof. intros Hz. unfold of_int. now rewrite round64_int. Qed.

Lemma trunc_inject (z : Z) : trunc (inject_Z z) = z.
Proof. unfold trunc. cbn. apply Z.quot_1_r. Qed.

Lemma trunc_abs_le (q : Q) : (inject_Z (Z.abs (trunc q)) <= Qabs q)%Q.
Proof.
  destruct q as [a b]. unfold trunc, Qabs, Qle. cbn [Qnum Qden inject_Z].
  rewrite <- Z.quot_abs by lia. rewrite Z.mul_1_r.
  change (Z.abs (Z.pos b)) with (Z.pos b).
  rewrite Z.mul_comm. apply Z.mul_quot_le; lia.
Qed.

Lemma abs_inject_lt (z b : Z) : Z.abs z < b -> (Qabs (inject_Z z) <= inject_Z b)%Q.
Proof.
  intros Hz. change (Qabs (inject_Z z)) with (inject_Z (Z.abs z)).
  rewrite <- Zle_Qle. lia.
Qed.

Lemma big_enough : (inject_Z (2 ^ 60) <= 2 ^ 1022)%Q.
Proof. rewrite <- pow2_inject by lia. apply pow2_le. lia. Qed.

Lemma truediv_self (n : Z) : 1 <= n -> truediv n n = Ok (Finite 1).
Proof.
  intros Hn. unfold truediv.
  replace (n =? 0) with false by (symmetry; apply Z.eqb_neq; lia).
  rewrite (round64_proper _ 1); [reflexivity|].
  field. intros E. unfold Qeq in E. cbn in E. lia.
Qed.

Lemma truediv_unit (i n : Z) :
  1 <= i <= n ->
  exists t, truediv i n = Ok (Finite t) /\ (Qabs t <= 3)%Q.
Proof.
  intros Hi. unfold truediv.
  replace (n =? 0) with false by (symmetry; apply Z.eqb_neq; lia).
  assert (Hq : (0 <= inject_Z i / inject_Z n <= 1)%Q).
  { assert (Hn : (0 < inject_Z n)%Q) by (rewrite <- (Zlt_Qlt 0); lia).
    split.
    - apply Qle_shift_div_l; [assumption|]. rewrite Qmult_0_l.
      rewrite <- (Zle_Qle 0). lia.
    - apply Qle_shift_div_r; [assumption|]. rewrite Qmult_1_l.
      rewrite <- Zle_Qle. lia. }
  destruct (round64_finite (inject_Z i / inject_Z n)) as (t & E & Ht).
  - rewrite Qabs_pos by apply Hq.
    pose proof (pow2_le 0 1022 ltac:(lia)) as H1.
    change (2 ^ 0)%Q with 1%Q in H1. lra.
  - exists t. rewrite E. split; [reflexivity|].
    rewrite (Qabs_pos (inject_Z i / inject_Z n)) in Ht by apply Hq. lra.
Qed.

Lemma interpolate_ok (a b : Z) (t : Q) :
  Z.abs a < 2 ^ 52 -> Z.abs b < 2 ^ 52 -> (Qabs t <= 3)%Q ->
  exists c, MacOSBackend.interpolate a b (Finite t) = Ok c.
Proof.
  intros Ha Hb Ht. unfold MacOSBackend.interpolate.
  assert (Hd : Z.abs (b - a) < 2 ^ 53) by lia.
  rewrite (of_int_exact _ Hd), (of_int_exact a) by lia.
  cbn [mul].
  pose proof big_enough as Hbig.
  pose proof (abs_inject_lt _ _ Hd) as Hdq.
  pose proof (abs_inject_lt a (2 ^ 52) Ha) as Haq.
  pose proof (Qabs_nonneg t) as Ht0.
  pose proof (Qabs_nonneg (inject_Z (b - a))) as Hd0.
  change (inject_Z (2 ^ 60)) with 1152921504606846976%Q in Hbig.
  change (inject_Z (2 ^ 53)) with 9007199254740992%Q in Hdq.
  change (inject_Z (2 ^ 52)) with 4503599627370496%Q in Haq.
  assert (Hdt : (Qabs (inject_Z (b - a) * t) <= 27021597764222976)%Q).
  { rewrite Qabs_Qmult.
    apply Qle_trans with (9007199254740992 * Qabs t)%Q.
    - apply Qmult_le_compat_r; assumption.
    - lra. }
  destruct (round64_finite (inject_Z (b - a) * t)) as (p & Ep & Hp); [lra|].
  rewrite Ep. cbn [add].
  pose proof (Qabs_triangle (inject_Z a) p) as Htri.
  destruct (round64_finite (inject_Z a + p)) as (r & Er & Hr); [lra|].
  rewrite Er. cbn [to_int]. eauto.
Qed.

Lemma interpolate_end (a b : Z) :
  Z.abs a < 2 ^ 52 -> Z.abs b < 2 ^ 52 ->
  MacOSBackend.interpolate a b (Finite 1) = Ok b.
Proof.
  intros Ha Hb. unfold MacOSBackend.interpolate.
  assert (Hd : Z.abs (b - a) < 2 ^ 53) by lia.
  rewrite (of_int_exact _ Hd), (of_int_exact a) by lia.
  cbn [mul].
  rewrite (round64_proper _ (inject_Z (b - a))) by ring.
  rewrite (round64_int _ Hd). cbn [add].
  rewrite (round64_proper _ (inject_Z b)).
  2:{ rewrite <- inject_Z_plus. now replace (a + (b - a)) with b by lia. }
  rewrite round64_int by lia. cbn [to_int]. now rewrite trunc_inject.
Qed.

Lemma steps_bound (d : Q) :
  (0 < d)%Q -> (d <= inject_Z (2 ^ 40))%Q ->
  exists p, mul (Finite d) (Finite 100) = Finite p
            /\ Z.abs (Z.max (trunc p) 2) < 2 ^ 53.
Proof.
  intros Hd0 Hd. cbn [mul].
  pose proof big_enough as Hbig.
  change (inject_Z (2 ^ 60)) with 1152921504606846976%Q in Hbig.
  change (inject_Z (2 ^ 40)) with 1099511627776%Q in Hd.
  assert (Ha : (Qabs (d * 100) == d * 100)%Q) by (apply Qabs_pos; lra).
  destruct (round64_finite (d * 100)) as (p & Ep & Hp); [lra|].
  exists p. split; [exact Ep|].
  pose proof (trunc_abs_le p) as Ht.
  assert (Hlt : (inject_Z (Z.abs (trunc p)) < inject_Z (2 ^ 53))%Q).
  { change (inject_Z (2 ^ 53)) with 9007199254740992%Q. lra. }
  rewrite <- Zlt_Qlt in Hlt. lia.
Qed.

(** The rounding agrees with the Standard Library's binary64 operations
    on the values of the example below: 29 / 100, 100 * (29 / 100) and
    0 + 100 * (29 / 100). *)
Example round64_agrees_with_SpecFloat :
  let f29 := spec_of_int 29 in
  let f100 := spec_of_int 100 in
  truediv 29 100 = Ok (of_spec (SFdiv 53 1024 f29 f100))
  /\ mul (Finite 100) (of_spec (SFdiv 53 1024 f29 f100))
     = of_spec (SFmul 53 1024 f100 (SFdiv 53 1024 f29 f100))
  /\ add (Finite 0) (of_spec (SFmul 53 1024 f100 (SFdiv 53 1024 f29 f100)))
     = of_spec (SFadd 53 1024 (spec_of_int 0)
                  (SFmul 53 1024 f100 (SFdiv 53 1024 f29 f100))).
Proof. vm_compute. repeat split. Qed.

(* ------------------------------------------------------------------ *)
(** ** Moving the mouse *)

Lemma in_range (lo hi i : Z) : In i (range lo hi) <-> lo <= i < hi.
Proof.
  unfold range. rewrite in_map_iff. split.
  - intros (k & <- & Hk). apply in_seq in Hk. lia.
  - intros Hi. exists (Z.to_nat (i - lo)). split; [lia|]. apply in_seq. lia.
Qed.

Section Move.
Context `{Host}.

Lemma for_each_trace {A} (l : list A) (body : A -> M World unit)
      (g : A -> list Action) :
  (forall a, In a l -> forall w,
        exists w', body a w = (Ok tt, w') /\ trace w' = trace w ++ g a) ->
  forall w,
    exists w', for_each l body w = (Ok tt, w')
               /\ trace w' = trace w ++ flat_map g l.
Proof.
  induction l as [|a l IH]; intros Hbody w.
  - exists w. split; [reflexivity | now rewrite app_nil_r].
  - destruct (Hbody a (in_eq a l) w) as (w1 & E1 & T1).
    destruct (IH (fun b Hb => Hbody b (in_cons a b l Hb)) w1) as (w' & E & T).
    exists w'. split.
    + cbn [for_each]. now rewrite (bind_ok _ _ _ _ _ E1).
    + rewrite T, T1. cbn [flat_map]. now rewrite <- app_assoc.
Qed.

(** One step of a paced move. *)
Lemma move_step d sx sy x y n i w :
  2 <= n -> Z.abs n < 2 ^ 53 -> 1 <= i <= n ->
  Z.abs sx < 2 ^ 52 -> Z.abs sy < 2 ^ 52 ->
  Z.abs x < 2 ^ 52 -> Z.abs y < 2 ^ 52 ->
  exists t w',
    truediv i n = Ok t
    /\ MacOSBackend.interpolate sx x t = Ok (fst (path_point sx sy x y n i))
    /\ MacOSBackend.interpolate sy y t = Ok (snd (path_point sx sy x y n i))
    /\ (t <- lift (truediv i n) ;;
        cx <- lift (MacOSBackend.interpolate sx x t) ;;
        cy <- lift (MacOSBackend.interpolate sy y t) ;;
        post kCGHIDEventTap (MouseEvent kCGEventMouseMoved (cx, cy) 0 []) ;;
        fsteps <- lift (of_int n) ;;
        pause <- lift (div (Finite d) fsteps) ;;
        sleep pause) w = (Ok tt, w')
    /\ trace w' = trace w
                  ++ [ posted (MouseEvent kCGEventMouseMoved
                                 (path_point sx sy x y n i) 0 []);
                       Sleep (round64 (d / inject_Z n)) ].
Proof.
  intros Hn Hn53 Hi Hsx Hsy Hx Hy.
  destruct (truediv_unit i n Hi) as (t & Et & Ht).
  destruct (interpolate_ok sx x t Hsx Hx Ht) as (cx & Ecx).
  destruct (interpolate_ok sy y t Hsy Hy Ht) as (cy & Ecy).
  assert (Ep : path_point sx sy x y n i = (cx, cy)).
  { unfold path_point. now rewrite Et, Ecx, Ecy. }
  assert (En0 : Qeq_bool (inject_Z n) 0 = false).
  { apply not_true_iff_false. intros E. apply Qeq_bool_eq in E.
    unfold Qeq in E. cbn in E. lia. }
  exists (Finite t). eexists. rewrite Ep. cbn [fst snd].
  split; [exact Et|]. split; [exact Ecx|]. split; [exact Ecy|].
  unfold bind, lift. rewrite Et, Ecx, Ecy, post_eq.
  rewrite (of_int_exact n Hn53). cbn [div]. rewrite En0, sleep_eq.
  split; [reflexivity|]. cbn [trace]. now rewrite <- app_assoc.
Qed.
End Move.

Section MoveClaim.
Context `{Host}.

(** C6 as the code has it.  With a duration that is not positive
    [move_mouse] posts one move event at the target.  With a positive
    duration (up to 2^40) and coordinates below 2^52 it posts
    n = max(int(duration * 100), 2) move events, each followed by a sleep of
    duration / n; step i is at int(start + (target - start) * (i / n)) with
    every operation rounded to binary64, and step n is the target. *)
Theorem move_mouse_events self x y w :
  ready self ->
  (forall duration,
      le0 duration = true ->
      exists w',
        MacOSBackend.move_mouse self x y duration w = (Ok tt, w')
        /\ trace w' = trace w
                      ++ [posted (MouseEvent kCGEventMouseMoved (x, y) 0 [])])
  /\ (forall d sx sy,
         (0 < d)%Q -> (d <= inject_Z (2 ^ 40))%Q ->
         cursor_at w (sx, sy) ->
         Z.abs sx < 2 ^ 52 -> Z.abs sy < 2 ^ 52 ->
         Z.abs x < 2 ^ 52 -> Z.abs y < 2 ^ 52 ->
         exists p w',
           mul (Finite d) (Finite 100) = Finite p
           /\ let n := Z.max (trunc p) 2 in
              2 <= n
              /\ List.length (range 1 (n + 1)) = Z.to_nat n
              /\ MacOSBackend.move_mouse self x y (Finite d) w = (Ok tt, w')
              /\ trace w' =
                 trace w
                 ++ flat_map
                      (fun i =>
                         [ posted (MouseEvent kCGEventMouseMoved
                                     (path_point sx sy x y n i) 0 []);
                           Sleep (round64 (d / inject_Z n)) ])
                      (range 1 (n + 1))
              /\ (forall i, 1 <= i <= n ->
                    exists t,
                      truediv i n = Ok t
                      /\ MacOSBackend.interpolate sx x t
                         = Ok (fst (path_point sx sy x y n i))
                      /\ MacOSBackend.interpolate sy y t
                         = Ok (snd (path_point sx sy x y n i)))
              /\ path_point sx sy x y n n = (x, y)).
Proof.
  intros Hr. split.
  - intros duration Hd. rewrite (move_mouse_instant _ _ _ _ _ Hr Hd).
    eexists. split; [reflexivity|]. now rewrite emit_trace.
  - intros d sx sy Hd0 Hd Hcur Hsx Hsy Hx Hy.
    destruct (steps_bound d Hd0 Hd) as (p & Ep & Hn53).
    set (n := Z.max (trunc p) 2) in *.
    assert (Hn : 2 <= n) by (subst n; lia).
    destruct (for_each_trace (range 1 (n + 1))
                (fun i =>
                   t <- lift (truediv i n) ;;
                   cx <- lift (MacOSBackend.interpolate sx x t) ;;
                   cy <- lift (MacOSBackend.interpolate sy y t) ;;
                   post kCGHIDEventTap
                        (MouseEvent kCGEventMouseMoved (cx, cy) 0 []) ;;
                   fsteps <- lift (of_int n) ;;
                   pause <- lift (div (Finite d) fsteps) ;;
                   sleep pause)%py
                (fun i =>
                   [ posted (MouseEvent kCGEventMouseMoved
                               (path_point sx sy x y n i) 0 []);
                     Sleep (round64 (d / inject_Z n)) ])) with (w := w)
      as (w' & E & T).
    { intros i Hi w0. apply in_range in Hi.
      destruct (move_step d sx sy x y n i w0 Hn Hn53 ltac:(lia)
                  Hsx Hsy Hx Hy) as (t & w1 & _ & _ & _ & E1 & T1).
      eauto. }
    exists p, w'. split; [exact Ep|]. cbn zeta. fold n.
    split; [exact Hn|]. split; [rewrite range_length; lia|].
    split; [|split; [exact T|split]].
    + unfold MacOSBackend.move_mouse. unfold bind at 1, lift at 1.
      rewrite (ensure_ready_ok _ Hr).
      replace (le0 (Finite d)) with false.
      2:{ symmetry. apply not_true_iff_false. cbn. intros Hle.
          apply Qle_bool_iff in Hle. lra. }
      erewrite bind_ok by (apply (get_mouse_position_ok _ _ (sx, sy)); auto).
      unfold bind at 1, lift at 1.
      replace (of_int 100) with (Ok (Finite 100)) by (vm_compute; reflexivity).
      unfold bind at 1, lift at 1. rewrite Ep.
      cbn [to_int Point.x Point.y fst snd]. fold n. exact E.
    + intros i Hi.
      destruct (move_step d sx sy x y n i w Hn Hn53 Hi Hsx Hsy Hx Hy)
        as (t & w1 & Et & Ex & Ey & _). eauto.
    + unfold path_point. rewrite truediv_self by lia.
      now rewrite !interpolate_end by assumption.
Qed.
End MoveClaim.


(* ------------------------------------------------------------------ *)
(** ** The backend outside its ready state, and its lifecycle *)

Section BackendLifecycle.
Context `{Host}.

Lemma ensure_ready_raises self :
  ~ ready self ->
  MacOSBackend._ensure_ready self = Raise BackendNotInitialized.
Proof.
  intros Hn. destruct (MacOSBackend._ensure_ready self) as [cg|e] eqn:E.
  - exfalso. apply Hn. eapply ensure_ready_inv; eauto.
  - unfold MacOSBackend._ensure_ready in E.
    destruct (negb _), (MacOSBackend._cg self); congruence.
Qed.

Lemma guarded_raises {A} self (k : MacOSBackend.CoreGraphics -> M World A) w :
  ~ ready self ->
  (cg <- lift (MacOSBackend._ensure_ready self) ;; k cg) w
  = (Raise BackendNotInitialized, w).
Proof.
  intros Hn. apply bind_raise. unfold lift.
  now rewrite (ensure_ready_raises _ Hn).
Qed.

(** X1. Every method that talks to CoreGraphics starts with [_ensure_ready]:
    on a backend that is not initialized it raises the RuntimeError and
    does nothing else, whatever its arguments (an unknown key name, a
    negative click count). *)
Theorem backend_not_ready_raises self w :
  ~ ready self ->
  MacOSBackend.get_screen_size self w = (Raise BackendNotInitialized, w)
  /\ (forall region,
         MacOSBackend.take_screenshot self region w
         = (Raise BackendNotInitialized, w))
  /\ MacOSBackend.get_mouse_position self w = (Raise BackendNotInitialized, w)
  /\ (forall x y duration,
         MacOSBackend.move_mouse self x y duration w
         = (Raise BackendNotInitialized, w))
  /\ (forall x y button clicks interval,
         MacOSBackend.click self x y button clicks interval w
         = (Raise BackendNotInitialized, w))
  /\ (forall clicks x y,
         MacOSBackend.scroll self clicks x y w
         = (Raise BackendNotInitialized, w))
  /\ (forall key,
         MacOSBackend.key_down self key w = (Raise BackendNotInitialized, w)
         /\ MacOSBackend.key_up self key w = (Raise BackendNotInitialized, w)
         /\ MacOSBackend.press_key self key w
            = (Raise BackendNotInitialized, w))
  /\ (forall text interval,
         MacOSBackend.type_text self text interval w
         = (Raise BackendNotInitialized, w))
  /\ (forall keys,
         MacOSBackend.hotkey self keys w = (Raise BackendNotInitialized, w))
  /\ class_of BackendNotInitialized = RuntimeError.
Proof.
  intros Hn.
  assert (Hd : forall key,
             MacOSBackend.key_down self key w
             = (Raise BackendNotInitialized, w))
    by (intros; now apply guarded_raises).
  repeat split; intros;
    first [ now apply guarded_raises
          | unfold MacOSBackend.press_key; apply bind_raise, Hd ].
Qed.

(** X2. The locate methods import OpenCV before anything else: without it
    they raise the ImportError on any backend; with it, a backend that is
    not initialized makes the screen capture raise the RuntimeError, before
    the template is looked for. *)
Theorem locate_error_order self image confidence region mode w :
  (import_cv2 (os w) = false ->
   MacOSBackend.locate_on_screen self image confidence region mode w
   = (Raise OpenCVRequired, w)
   /\ MacOSBackend.locate_all_on_screen self image confidence region mode w
      = (Raise OpenCVRequired, w))
  /\ (import_cv2 (os w) = true -> ~ ready self ->
      MacOSBackend.locate_on_screen self image confidence region mode w
      = (Raise BackendNotInitialized, w)
      /\ MacOSBackend.locate_all_on_screen self image confidence region mode w
         = (Raise BackendNotInitialized, w)).
Proof.
  split.
  - intros Hcv.
    unfold MacOSBackend.locate_on_screen, MacOSBackend.locate_all_on_screen.
    split; (erewrite bind_ok by reflexivity); cbv beta; rewrite Hcv;
      reflexivity.
  - intros Hcv Hn.
    assert (Es : MacOSBackend.take_screenshot self region w
                 = (Raise BackendNotInitialized, w))
      by now apply guarded_raises.
    unfold MacOSBackend.locate_on_screen, MacOSBackend.locate_all_on_screen.
    split; (erewrite bind_ok by reflexivity); cbv beta; rewrite Hcv;
      cbn [negb]; apply bind_raise, Es.
Qed.

(** X3. The backend's own lifecycle, as the orchestrator drives it:
    [initialize] makes any backend ready when PyObjC can be imported, and
    otherwise raises the ImportError and leaves the object as it was;
    [cleanup] always returns and leaves the object as constructed, not
    ready; neither touches the world. *)
Theorem backend_lifecycle (self : MacOSBackend.t) w :
  (import_Quartz (os w) = true ->
   exists self',
     BackendBase.initialize (self, w) = (Ok tt, (self', w)) /\ ready self')
  /\ (import_Quartz (os w) = false ->
      BackendBase.initialize (self, w) = (Raise PyObjCRequired, (self, w))
      /\ class_of PyObjCRequired = ImportError)
  /\ BackendBase.cleanup (self, w) = (Ok tt, (MacOSBackend.__init__, w))
  /\ ~ ready MacOSBackend.__init__.
Proof.
  split; [|split; [|split]].
  - intros Hq. eexists. cbn. unfold updating_self, MacOSBackend.initialize.
    rewrite Hq. split; [reflexivity | split; reflexivity].
  - intros Hq. cbn. unfold updating_self, MacOSBackend.initialize.
    now rewrite Hq.
  - reflexivity.
  - intros [Hcg _]. discriminate Hcg.
Qed.
End BackendLifecycle.

(* ------------------------------------------------------------------ *)
(** ** Single keys, scrolling, and what the queries leave alone *)

Section BackendEvents.
Context `{Host}.

Lemma key_down_recognized self key code w :
  ready self -> recognized key code ->
  MacOSBackend.key_down self key w
  = (Ok tt, emit [KeyboardEvent code true
                    (Z.lor (CGEventGetFlags (os w)) (modifier_flag key))
                    None] w).
Proof.
  intros Hr Hk. unfold MacOSBackend.key_down, bind, lift, gets.
  rewrite (ensure_ready_ok _ Hr), (resolve_recognized _ _ Hk).
  now rewrite press_flags.
Qed.

Lemma key_up_recognized self key code w :
  ready self -> recognized key code ->
  MacOSBackend.key_up self key w
  = (Ok tt, emit [KeyboardEvent code false (CGEventGetFlags (os w)) None] w).
Proof.
  intros Hr Hk. unfold MacOSBackend.key_up, bind, lift, gets.
  now rewrite (ensure_ready_ok _ Hr), (resolve_recognized _ _ Hk).
Qed.

Lemma press_key_run self key code w :
  ready self -> recognized key code ->
  let down := KeyboardEvent code true
                (Z.lor (CGEventGetFlags (os w)) (modifier_flag key)) None in
  let up := KeyboardEvent code false
              (CGEventGetFlags (CGEventPost kCGHIDEventTap down (os w))) None in
  MacOSBackend.press_key self key w = (Ok tt, emit [down; up] w).
Proof.
  intros Hr Hk down up.
  pose proof (key_down_recognized self key code w Hr Hk) as Ed.
  fold down in Ed. unfold MacOSBackend.press_key.
  rewrite (bind_ok _ _ _ _ _ Ed).
  now rewrite (key_up_recognized self key code _ Hr Hk).
Qed.

(** X4. A press of a recognized key is its down event followed by its up
    event and nothing else.  The down event has the key's modifier flag
    or-ed into the flags the event was created with; the up event is posted
    with the flags it was created with, also for a modifier key. *)
Theorem press_key_events self key code w :
  ready self -> recognized key code ->
  let down := KeyboardEvent code true
                (Z.lor (CGEventGetFlags (os w)) (modifier_flag key)) None in
  let up := KeyboardEvent code false
              (CGEventGetFlags (CGEventPost kCGHIDEventTap down (os w))) None in
  MacOSBackend.key_down self key w = (Ok tt, emit [down] w)
  /\ MacOSBackend.press_key self key w = (Ok tt, emit [down; up] w)
  /\ MacOSBackend.press_key self key w
     = MacOSBackend.key_up self key (snd (MacOSBackend.key_down self key w))
  /\ trace (emit [down; up] w) = trace w ++ [posted down; posted up].
Proof.
  intros Hr Hk down up.
  pose proof (key_down_recognized self key code w Hr Hk) as Ed.
  fold down in Ed.
  pose proof (press_key_run self key code w Hr Hk) as Ep.
  cbv zeta in Ep. fold down in Ep. fold up in Ep.
  split; [exact Ed|]. split; [exact Ep|]. split.
  - unfold MacOSBackend.press_key. rewrite (bind_ok _ _ _ _ _ Ed).
    now rewrite Ed.
  - now rewrite emit_trace.
Qed.

(** X5. [scroll] moves the cursor first only when both coordinates are given,
    then posts one line-unit, one-axis scroll event with the signed count;
    it never asks for the cursor position. *)
Theorem scroll_events self clicks x y w :
  ready self ->
  let move := match x, y with
              | Some x, Some y => [MouseEvent kCGEventMouseMoved (x, y) 0 []]
              | _, _ => []
              end in
  MacOSBackend.scroll self clicks x y w
  = (Ok tt, emit (move ++ [ScrollWheelEvent 0 1 clicks]) w).
Proof.
  intros Hr move. unfold MacOSBackend.scroll. unfold bind at 1, lift.
  rewrite (ensure_ready_ok _ Hr). subst move.
  destruct x as [x|], y as [y|]; cbn [app];
    try (erewrite bind_ok by reflexivity; apply post_eq).
  erewrite bind_ok
    by (apply move_mouse_instant; [assumption | reflexivity]).
  rewrite post_eq. reflexivity.
Qed.

Lemma get_screen_size_world self w :
  snd (MacOSBackend.get_screen_size self w) = w.
Proof.
  unfold MacOSBackend.get_screen_size, bind, lift, gets, ret.
  destruct (MacOSBackend._ensure_ready self); [|reflexivity].
  destruct (to_int (fst _)); [|reflexivity].
  destruct (to_int (snd _)); reflexivity.
Qed.

Lemma get_mouse_position_world self w :
  snd (MacOSBackend.get_mouse_position self w) = w.
Proof.
  unfold MacOSBackend.get_mouse_position, bind, lift, gets, ret.
  destruct (MacOSBackend._ensure_ready self); [|reflexivity].
  destruct (to_int (fst _)); [|reflexivity].
  destruct (to_int (snd _)); reflexivity.
Qed.

Lemma locate_on_screen_world self image confidence region mode w :
  snd (MacOSBackend.locate_on_screen self image confidence region mode w) = w.
Proof.
  unfold MacOSBackend.locate_on_screen.
  erewrite bind_ok by reflexivity. cbv beta.
  destruct (negb (import_cv2 (os w))); [reflexivity|].
  pose proof (take_screenshot_world self region w) as Hs.
  unfold bind at 1.
  destruct (MacOSBackend.take_screenshot self region w) as [[shot|e] w0];
    cbn [snd] in Hs; subst w0; [|reflexivity].
  erewrite bind_ok by reflexivity. cbv beta.
  destruct (cv2_imread_grayscale (os w) image) as [template|]; [|reflexivity].
  cbn zeta. destruct (cv2_minMaxLoc _) as [max_val max_loc].
  destruct (ltb max_val confidence); [reflexivity|].
  destruct (template_shape template), (MacOSBackend.origin region).
  reflexivity.
Qed.

Lemma locate_all_on_screen_world self image confidence region mode w :
  snd (MacOSBackend.locate_all_on_screen self image confidence region mode w)
  = w.
Proof.
  unfold MacOSBackend.locate_all_on_screen.
  erewrite bind_ok by reflexivity. cbv beta.
  destruct (negb (import_cv2 (os w))); [reflexivity|].
  pose proof (take_screenshot_world self region w) as Hs.
  unfold bind at 1.
  destruct (MacOSBackend.take_screenshot self region w) as [[shot|e] w0];
    cbn [snd] in Hs; subst w0; [|reflexivity].
  erewrite bind_ok by reflexivity. cbv beta.
  destruct (cv2_imread_grayscale (os w) image) as [template|]; [|reflexivity].
  cbn zeta.
  destruct (template_shape template), (MacOSBackend.origin region).
  reflexivity.
Qed.

(** X6. The five queries (screen size, cursor position, screenshot and the two
    locate methods) post no event and never sleep, whether they return or
    raise: they leave the world as it is. *)
Theorem queries_leave_world self w :
  snd (MacOSBackend.get_screen_size self w) = w
  /\ snd (MacOSBackend.get_mouse_position self w) = w
  /\ (forall region, snd (MacOSBackend.take_screenshot self region w) = w)
  /\ (forall image confidence region mode,
         snd (MacOSBackend.locate_on_screen self image confidence region
                mode w) = w
         /\ snd (MacOSBackend.locate_all_on_screen self image confidence
                   region mode w) = w).
Proof.
  split; [apply get_screen_size_world|].
  split; [apply get_mouse_position_world|].
  split; [intros; apply take_screenshot_world|].
  intros. split;
    [apply locate_on_screen_world | apply locate_all_on_screen_world].
Qed.
End BackendEvents.

(* ------------------------------------------------------------------ *)
(** ** More on hotkeys and on the tables *)

Lemma dict_get_in {V} (d : list (string * V)) (k : pystr) (v : V) :
  dict_get d k = Some v ->
  exists name, In (name, v) d /\ pystr_of_string name = k.
Proof.
  induction d as [|[name v0] d IH]; cbn; [discriminate|].
  unfold pystr_eqb. destruct (list_eq_dec N.eq_dec _ k) as [E|_].
  - intros [= <-]. eauto.
  - intros Hd. destruct (IH Hd) as (n & Hin & Hn). eauto.
Qed.

Lemma modifier_flags_ok :
  forallb modifier_entry_ok MacOSBackend._MODIFIER_FLAGS = true.
Proof. vm_compute. reflexivity. Qed.

Section HotkeyMore.
Context `{Host}.

(** X7. Every name of the modifier table is a name of the key-code table, and
    no flag is 0: a key that has a modifier flag is a recognized key, and
    the test [if flag:] never drops a flag that the table gives. *)
Theorem modifier_is_key key flag :
  dict_get MacOSBackend._MODIFIER_FLAGS (str_lower key) = Some flag ->
  flag <> 0
  /\ modifier_flag key = flag
  /\ exists code, recognized key code.
Proof.
  intros Hget. destruct (dict_get_in _ _ _ Hget) as (name & Hin & Hname).
  pose proof (proj1 (forallb_forall _ _) modifier_flags_ok _ Hin) as Hok.
  unfold modifier_entry_ok in Hok. cbn [fst snd] in Hok.
  apply andb_true_iff in Hok as [Hnz Hkey].
  apply negb_true_iff, Z.eqb_neq in Hnz.
  split; [exact Hnz|]. split.
  - unfold modifier_flag, MacOSBackend.truthy. rewrite Hget.
    now replace (flag =? 0) with false by (symmetry; now apply Z.eqb_neq).
  - unfold recognized. rewrite <- Hname.
    destruct (dict_get MacOSBackend._KEYCODE_MAP (pystr_of_string name));
      [eauto | discriminate].
Qed.

Lemma mask_of_cons k l : mask_of (k :: l) = Z.lor (modifier_flag k) (mask_of l).
Proof.
  unfold mask_of. cbn [List.map fold_left]. now rewrite lor_fold_acc.
Qed.

Lemma mask_of_snoc l k : mask_of (l ++ [k]) = Z.lor (mask_of l) (modifier_flag k).
Proof. unfold mask_of. now rewrite map_app, fold_left_app. Qed.

Lemma mask_of_rev l : mask_of (rev l) = mask_of l.
Proof.
  induction l as [|k l IH]; [reflexivity|].
  cbn [rev]. rewrite mask_of_snoc, mask_of_cons, IH. apply Z.lor_comm.
Qed.

Lemma up_events_snoc l : forall flags k,
  up_events flags (l ++ [k])
  = up_events flags l
    ++ [KeyboardEvent (keycode k) false
          (Z.land flags (Z.lnot (mask_of (l ++ [k])))) None].
Proof.
  induction l as [|k0 l IH]; intros flags k.
  - cbn. unfold mask_of. cbn. reflexivity.
  - cbn [app up_events]. rewrite IH. cbn [app]. do 3 f_equal.
    rewrite land_lnot_lor. now rewrite <- mask_of_cons.
Qed.

Lemma down_events_codes keys : forall flags,
  List.map event_keycode (down_events flags keys)
  = List.map (fun k => Some (keycode k)) keys.
Proof. induction keys as [|k ks IH]; intros; cbn; [|rewrite IH]; auto. Qed.

Lemma up_events_codes rkeys : forall flags,
  List.map event_keycode (up_events flags rkeys)
  = List.map (fun k => Some (keycode k)) rkeys.
Proof. induction rkeys as [|k ks IH]; intros; cbn; [|rewrite IH]; auto. Qed.

(** What a hotkey on recognized keys does to the world. *)
Lemma hotkey_run self keys w :
  ready self ->
  Forall (fun k => exists code, recognized k code) keys ->
  MacOSBackend.hotkey self keys w
  = (Ok tt, emit (down_events 0 keys ++ up_events (mask_of keys) (rev keys)) w).
Proof.
  intros Hr Hall.
  assert (Hrev : Forall (fun k => exists code, recognized k code) (rev keys)).
  { apply Forall_forall. intros k Hin. apply in_rev in Hin.
    revert k Hin. now apply Forall_forall. }
  destruct (release_loop_ok (rev keys) (mask_of keys)
              (emit (down_events 0 keys) w) Hrev) as [flags' Erel].
  rewrite hotkey_unfold. unfold bind at 1, lift.
  rewrite (ensure_ready_ok _ Hr).
  erewrite bind_ok by (apply press_loop_ok; assumption).
  cbn [app]. erewrite bind_ok by apply for_each_post.
  fold (mask_of keys). erewrite bind_ok by exact Erel.
  now rewrite emit_app.
Qed.

(** X8. A hotkey on recognized keys releases what it pressed: the key codes of
    its up events are those of its down events in reverse, and its last
    event releases the first key with an empty modifier mask. *)
Theorem hotkey_releases_all self first rest code w :
  ready self ->
  Forall (fun k => exists code, recognized k code) (first :: rest) ->
  recognized first code ->
  exists w' downs ups,
    MacOSBackend.hotkey self (first :: rest) w = (Ok tt, w')
    /\ trace w' = trace w ++ List.map posted (downs ++ ups)
    /\ List.map event_keycode ups = rev (List.map event_keycode downs)
    /\ exists before,
         ups = before ++ [KeyboardEvent code false 0 None].
Proof.
  intros Hr Hall Hk. set (keys := first :: rest) in *.
  exists (emit (down_events 0 keys ++ up_events (mask_of keys) (rev keys)) w),
    (down_events 0 keys), (up_events (mask_of keys) (rev keys)).
  split; [now apply hotkey_run|]. split; [apply emit_trace|]. split.
  - rewrite down_events_codes, up_events_codes. apply map_rev.
  - subst keys. cbn [rev]. rewrite up_events_snoc.
    eexists. f_equal. f_equal.
    rewrite (keycode_recognized _ _ Hk). f_equal.
    change (rev rest ++ [first]) with (rev (first :: rest)).
    rewrite mask_of_rev. apply Z.land_lnot_diag.
Qed.
End HotkeyMore.

(* ------------------------------------------------------------------ *)
(** ** How many events *)

Lemma count_posts_app l1 l2 :
  count_posts (l1 ++ l2) = (count_posts l1 + count_posts l2)%nat.
Proof. unfold count_posts. now rewrite filter_app, length_app. Qed.

Lemma count_sleeps_app l1 l2 :
  count_sleeps (l1 ++ l2) = (count_sleeps l1 + count_sleeps l2)%nat.
Proof. unfold count_sleeps. now rewrite filter_app, length_app. Qed.

Section Counts.
Context `{Host}.

Lemma count_posted events :
  count_posts (List.map posted events) = List.length events
  /\ count_sleeps (List.map posted events) = 0%nat.
Proof.
  unfold count_posts, count_sleeps.
  induction events as [|e es [IHp IHs]]; [split; reflexivity|].
  cbn. split; [now rewrite IHp | exact IHs].
Qed.

Lemma count_pause interval :
  count_posts (pause interval) = 0%nat
  /\ count_sleeps (pause interval) = if gt0 interval then 1%nat else 0%nat.
Proof. unfold pause. destruct (gt0 interval); split; reflexivity. Qed.

Lemma count_click_pair button pos n :
  count_posts (click_pair button pos n) = 2%nat
  /\ count_sleeps (click_pair button pos n) = 0%nat.
Proof.
  unfold click_pair.
  destruct (MacOSBackend._BUTTON_MAP button) as [[d u] b].
  split; reflexivity.
Qed.

Lemma count_intersperse sep chunks :
  count_posts sep = 0%nat ->
  Forall (fun c => count_posts c = 2%nat /\ count_sleeps c = 0%nat) chunks ->
  count_posts (intersperse sep chunks) = (2 * List.length chunks)%nat
  /\ count_sleeps (intersperse sep chunks)
     = (count_sleeps sep * (List.length chunks - 1))%nat.
Proof.
  intros Hsep Hall. induction Hall as [|c cs [Hp Hs] Hcs [IHp IHs]].
  - split; [reflexivity | cbn; lia].
  - cbn [intersperse]. destruct cs as [|c' cs'].
    + cbn. split; lia.
    + rewrite !count_posts_app, !count_sleeps_app, IHp, IHs, Hp, Hs, Hsep.
      cbn [List.length]. split; lia.
Qed.

Lemma count_typed interval text : forall chunks,
  Forall2 (typed interval) text chunks ->
  count_posts (List.concat chunks) = (2 * List.length text)%nat
  /\ count_sleeps (List.concat chunks)
     = ((if gt0 interval then 1 else 0) * List.length text)%nat.
Proof.
  intros chunks Hall.
  induction Hall as [|ch chunk text chunks (f1 & f2 & ->) _ [IHp IHs]].
  - split; [reflexivity | now rewrite Nat.mul_0_r].
  - cbn [List.concat List.length].
    rewrite !count_posts_app, !count_sleeps_app, IHp, IHs.
    destruct (count_pause interval) as [-> ->]. cbn. split; lia.
Qed.

(** What a click does to the world (the statement of the trace only). *)
Lemma click_run self x y button clicks interval w pos :
  ready self ->
  (x = None \/ y = None -> cursor_at w pos) ->
  exists w',
    MacOSBackend.click self x y button clicks interval w = (Ok tt, w')
    /\ trace w' =
       trace w
       ++ match x, y with
          | Some x, Some y =>
              [posted (MouseEvent kCGEventMouseMoved (x, y) 0 [])]
          | _, _ => []
          end
       ++ intersperse (pause interval)
            (List.map (click_pair button
                         match x, y with
                         | Some x, Some y => (x, y)
                         | _, _ => pos
                         end) (range 1 (clicks + 1))).
Proof.
  intros Hr Hcur.
  set (move := match x, y with
               | Some x, Some y =>
                   [posted (MouseEvent kCGEventMouseMoved (x, y) 0 [])]
               | _, _ => []
               end).
  set (at_pos := match x, y with
                 | Some x, Some y => (x, y)
                 | _, _ => pos
                 end).
  assert (Hpre : exists w0,
             (match x, y with
              | Some x, Some y =>
                  MacOSBackend.move_mouse self x y (Finite 0) ;; ret (x, y)
              | _, _ =>
                  p <- MacOSBackend.get_mouse_position self ;;
                  ret (Point.x p, Point.y p)
              end)%py w = (Ok at_pos, w0)
             /\ trace w0 = trace w ++ move).
  { subst move at_pos. destruct x as [x|], y as [y|].
    - erewrite bind_ok by (apply move_mouse_instant; [assumption|reflexivity]).
      eexists. split; [reflexivity|]. now rewrite emit_trace.
    - erewrite bind_ok by (apply get_mouse_position_ok; auto).
      exists w. split; [now destruct pos | now rewrite app_nil_r].
    - erewrite bind_ok by (apply get_mouse_position_ok; auto).
      exists w. split; [now destruct pos | now rewrite app_nil_r].
    - erewrite bind_ok by (apply get_mouse_position_ok; auto).
      exists w. split; [now destruct pos | now rewrite app_nil_r]. }
  destruct Hpre as (w0 & Epre & Tpre).
  destruct (click_loop button at_pos clicks interval
              (Z.to_nat (Z.max clicks 0)) 0 w0 ltac:(lia) ltac:(lia))
    as (w' & E & T).
  exists w'. split.
  - unfold MacOSBackend.click. unfold bind at 1, lift.
    rewrite (ensure_ready_ok _ Hr).
    erewrite bind_ok by exact Epre.
    destruct (MacOSBackend._BUTTON_MAP button) as [[down_type up_type] cg_button].
    exact E.
  - rewrite T, Tpre. now rewrite <- app_assoc.
Qed.

(** X9. The number of events each input method posts, and of its sleeps, for
    all inputs (the tests assert them for "a", "hi", command-c and a double
    click): a press posts 2 events; typing posts 2 per character and
    sleeps once per character when the interval is positive; a hotkey posts
    2 per key and never sleeps; a click posts 2 per repetition, one more
    when it first moves, and sleeps once less than it clicks. *)
Theorem event_counts self w :
  ready self ->
  (forall key code,
      recognized key code ->
      exists added,
        trace (snd (MacOSBackend.press_key self key w)) = trace w ++ added
        /\ count_posts added = 2%nat /\ count_sleeps added = 0%nat)
  /\ (forall text interval,
         exists added,
           trace (snd (MacOSBackend.type_text self text interval w))
           = trace w ++ added
           /\ count_posts added = (2 * List.length text)%nat
           /\ count_sleeps added
              = if gt0 interval then List.length text else 0%nat)
  /\ (forall keys,
         Forall (fun k => exists code, recognized k code) keys ->
         exists added,
           trace (snd (MacOSBackend.hotkey self keys w)) = trace w ++ added
           /\ count_posts added = (2 * List.length keys)%nat
           /\ count_sleeps added = 0%nat)
  /\ (forall x y button clicks interval pos,
         (x = None \/ y = None -> cursor_at w pos) ->
         exists added,
           trace (snd (MacOSBackend.click self x y button clicks interval w))
           = trace w ++ added
           /\ count_posts added
              = ((match x, y with Some _, Some _ => 1 | _, _ => 0 end)
                 + 2 * Z.to_nat clicks)%nat
           /\ count_sleeps added
              = if gt0 interval then (Z.to_nat clicks - 1)%nat else 0%nat).
Proof.
  intros Hr. split; [|split; [|split]].
  - intros key code Hk.
    rewrite (press_key_run self key code w Hr Hk). cbn [snd].
    rewrite emit_trace. eexists. split; [reflexivity|].
    split; reflexivity.
  - intros text interval.
    destruct (type_text_loop interval text w) as (w' & chunks & E & T & F).
    exists (List.concat chunks). split.
    + unfold MacOSBackend.type_text. unfold bind at 1, lift.
      rewrite (ensure_ready_ok _ Hr), E. exact T.
    + destruct (count_typed interval text chunks F) as [Hp Hs].
      split; [exact Hp|]. rewrite Hs. destruct (gt0 interval); lia.
  - intros keys Hall. rewrite (hotkey_run self keys w Hr Hall). cbn [snd].
    rewrite emit_trace. eexists. split; [reflexivity|].
    destruct (count_posted
                (down_events 0 keys ++ up_events (mask_of keys) (rev keys)))
      as [Hp Hs].
    split; [|exact Hs]. rewrite Hp, length_app, down_events_length,
      up_events_length, length_rev. lia.
  - intros x y button clicks interval pos Hcur.
    destruct (click_run self x y button clicks interval w pos Hr Hcur)
      as (w' & E & T).
    rewrite E. cbn [snd]. rewrite T. eexists. split; [reflexivity|].
    match goal with
    | |- context [intersperse _ (List.map ?f _)] => set (pair := f)
    end.
    destruct (count_intersperse (pause interval)
                (List.map pair (range 1 (clicks + 1))))
      as [Hp Hs].
    { apply count_pause. }
    { apply Forall_forall. intros c Hc. apply in_map_iff in Hc as (n & <- & _).
      apply count_click_pair. }
    rewrite count_posts_app, count_sleeps_app, Hp, Hs.
    rewrite length_map, range_length.
    replace (Z.to_nat (clicks + 1 - 1)) with (Z.to_nat clicks) by lia.
    destruct (count_pause interval) as [_ ->].
    destruct x as [x|], y as [y|]; cbn [count_posts count_sleeps];
      (split; [cbn; lia | destruct (gt0 interval); cbn; lia]).
Qed.
End Counts.

(* ------------------------------------------------------------------ *)
(** ** Durations that are not numbers *)

Section Durations.
Context `{Host}.

(** X10. A NaN duration is not [<= 0], so the paced branch reads the cursor
    and then [int(nan * 100)] raises a ValueError; an infinite duration
    raises an OverflowError there.  In both cases nothing has been posted.
    Minus infinity is [<= 0]: the move is immediate. *)
Theorem move_mouse_duration_not_finite self x y w pos :
  ready self -> cursor_at w pos ->
  MacOSBackend.move_mouse self x y NaN w = (Raise FloatNaNToInt, w)
  /\ class_of FloatNaNToInt = ValueError
  /\ MacOSBackend.move_mouse self x y (Inf false) w = (Raise FloatInfToInt, w)
  /\ class_of FloatInfToInt = OverflowError
  /\ MacOSBackend.move_mouse self x y (Inf true) w
     = (Ok tt, emit [MouseEvent kCGEventMouseMoved (x, y) 0 []] w).
Proof.
  intros Hr Hc.
  assert (E100 : of_int 100 = Ok (Finite 100)) by (vm_compute; reflexivity).
  repeat split.
  - unfold MacOSBackend.move_mouse. unfold bind at 1, lift at 1.
    rewrite (ensure_ready_ok _ Hr). cbn [le0].
    erewrite bind_ok by (apply (get_mouse_position_ok _ _ pos); auto).
    unfold bind at 1, lift at 1. rewrite E100. reflexivity.
  - unfold MacOSBackend.move_mouse. unfold bind at 1, lift at 1.
    rewrite (ensure_ready_ok _ Hr). cbn [le0].
    erewrite bind_ok by (apply (get_mouse_position_ok _ _ pos); auto).
    unfold bind at 1, lift at 1. rewrite E100. reflexivity.
  - now apply move_mouse_instant.
Qed.
End Durations.

(* ------------------------------------------------------------------ *)
(** ** The screenshot *)

Lemma pixels_length (n : nat) : forall data,
  List.length data = (4 * n)%nat ->
  List.length (MacOSBackend.pixels data) = n.
Proof.
  induction n as [|n IH]; intros data Hlen.
  - now destruct data.
  - destruct data as [|b0 [|b1 [|b2 [|b3 rest]]]]; cbn in Hlen; try lia.
    cbn [MacOSBackend.pixels List.length]. f_equal. apply IH. lia.
Qed.

Lemma pixels_nth (k : nat) : forall n data,
  List.length data = (4 * n)%nat -> (k < n)%nat ->
  exists b0 b1 b2 b3,
    nth_error data (4 * k) = Some b0
    /\ nth_error data (4 * k + 1) = Some b1
    /\ nth_error data (4 * k + 2) = Some b2
    /\ nth_error data (4 * k + 3) = Some b3
    /\ nth_error (MacOSBackend.pixels data) k = Some (b0, b1, b2, b3).
Proof.
  induction k as [|k IH]; intros n data Hlen Hk.
  - destruct data as [|b0 [|b1 [|b2 [|b3 rest]]]]; cbn in Hlen; try lia.
    exists b0, b1, b2, b3. repeat split.
  - destruct n as [|n]; [lia|].
    destruct data as [|b0 [|b1 [|b2 [|b3 rest]]]]; cbn in Hlen; try lia.
    destruct (IH n rest ltac:(lia) ltac:(lia))
      as (c0 & c1 & c2 & c3 & H0 & H1 & H2 & H3 & Hp).
    exists c0, c1, c2, c3.
    replace (4 * S k)%nat with (S (S (S (S (4 * k))))) by lia.
    cbn [nth_error Nat.add MacOSBackend.pixels]. auto.
Qed.

Lemma rows_length {A} (n cols : nat) : forall l : list A,
  List.length (MacOSBackend.rows n cols l) = n.
Proof. induction n; intros; cbn; auto. Qed.

Lemma rows_nth {A} (n cols : nat) : forall (l : list A) i,
  (i < n)%nat ->
  nth_error (MacOSBackend.rows n cols l) i
  = Some (firstn cols (skipn (i * cols) l)).
Proof.
  induction n as [|n IH]; intros l i Hi; [lia|].
  destruct i as [|i]; [reflexivity|].
  cbn [MacOSBackend.rows nth_error]. rewrite IH by lia.
  rewrite skipn_skipn.
  now replace (i * cols + cols)%nat with (S i * cols)%nat by (cbn; lia).
Qed.

Section Screenshot.
Context `{Host}.

(** X11. [take_screenshot] raises the RuntimeError when the capture gives no
    image, and a ValueError when the data does not fill
    height x (bytes_per_row // 4) pixels.  Otherwise it returns an image
    of [height] rows, each row cut to [width] pixels (the padding of the
    rows is dropped), whose pixel (i, j) is the red, green and blue byte
    of the BGRA pixel at 4 * (i * (bytes_per_row // 4) + j) in the data. *)
Theorem take_screenshot_result self region w :
  ready self ->
  (CGWindowListCreateImage (os w) region = None ->
   MacOSBackend.take_screenshot self region w = (Raise CaptureFailed, w)
   /\ class_of CaptureFailed = RuntimeError)
  /\ (forall im,
         CGWindowListCreateImage (os w) region = Some im ->
         let cols := img_bytes_per_row im / 4 in
         0 <= img_height im -> 0 <= cols -> 0 <= img_width im ->
         (Z.of_nat (List.length (img_data im)) <> img_height im * cols * 4 ->
          MacOSBackend.take_screenshot self region w = (Raise BufferShape, w))
         /\ (Z.of_nat (List.length (img_data im)) = img_height im * cols * 4 ->
             exists image,
               MacOSBackend.take_screenshot self region w = (Ok image, w)
               /\ List.length image = Z.to_nat (img_height im)
               /\ Forall (fun row =>
                            List.length row
                            = Z.to_nat (Z.min (img_width im) cols)) image
               /\ forall i j,
                    (i < Z.to_nat (img_height im))%nat ->
                    (j < Z.to_nat (Z.min (img_width im) cols))%nat ->
                    let k := (4 * (i * Z.to_nat cols + j))%nat in
                    exists b g r a row,
                      nth_error (img_data im) k = Some b
                      /\ nth_error (img_data im) (k + 1) = Some g
                      /\ nth_error (img_data im) (k + 2) = Some r
                      /\ nth_error (img_data im) (k + 3) = Some a
                      /\ nth_error image i = Some row
                      /\ nth_error row j = Some (r, g, b))).
Proof.
  intros Hr. split.
  - intros Hcap. unfold MacOSBackend.take_screenshot, bind, lift, gets.
    rewrite (ensure_ready_ok _ Hr), Hcap. split; reflexivity.
  - intros im Hcap cols Hh Hc Hw.
    assert (Erun : MacOSBackend.take_screenshot self region w
                   = match MacOSBackend.reshape im with
                     | Ok arr =>
                         (Ok (List.map
                                (List.map (fun '(b, g, r, a) => (r, g, b)))
                                (List.map
                                   (MacOSBackend.slice_to (img_width im)) arr)),
                          w)
                     | Raise e => (Raise e, w)
                     end).
    { unfold MacOSBackend.take_screenshot, bind, lift, gets.
      rewrite (ensure_ready_ok _ Hr), Hcap.
      destruct (MacOSBackend.reshape im); reflexivity. }
    assert (Eh : (0 <=? img_height im) = true) by now apply Z.leb_le.
    assert (Ec : (0 <=? img_bytes_per_row im / 4) = true) by now apply Z.leb_le.
    split.
    + intros Hne. rewrite Erun. unfold MacOSBackend.reshape.
      rewrite Eh, Ec. cbn [andb].
      now replace (_ =? _) with false by (symmetry; now apply Z.eqb_neq).
    + intros Hlen. rewrite Erun. unfold MacOSBackend.reshape.
      rewrite Eh, Ec. cbn [andb].
      replace (_ =? _) with true by (symmetry; now apply Z.eqb_eq).
      fold cols.
      set (h := Z.to_nat (img_height im)).
      set (c := Z.to_nat cols).
      set (px := MacOSBackend.pixels (img_data im)).
      assert (Hdata : List.length (img_data im) = (4 * (h * c))%nat)
        by (subst h c; nia).
      assert (Hpx : List.length px = (h * c)%nat)
        by (apply pixels_length; exact Hdata).
      assert (Hslice : forall row : list (byte * byte * byte * byte),
                 MacOSBackend.slice_to (img_width im) row
                 = firstn (Z.to_nat (img_width im)) row).
      { intros row. unfold MacOSBackend.slice_to.
        now replace (0 <=? img_width im) with true
          by (symmetry; now apply Z.leb_le). }
      assert (Hmin : Z.to_nat (Z.min (img_width im) cols)
                     = Nat.min (Z.to_nat (img_width im)) c)
        by (subst c; lia).
      assert (Hrow : forall i, (i < h)%nat ->
                 List.length (firstn c (skipn (i * c) px)) = c).
      { intros i Hi. rewrite length_firstn, length_skipn, Hpx. nia. }
      eexists. split; [reflexivity|]. split; [|split].
      * now rewrite !length_map, rows_length.
      * apply Forall_forall. intros row Hin.
        apply in_map_iff in Hin as (row1 & <- & Hin).
        apply in_map_iff in Hin as (row0 & <- & Hin).
        apply In_nth_error in Hin as [i Hi].
        assert (Hih : (i < h)%nat).
        { rewrite <- (rows_length h c px). apply nth_error_Some. congruence. }
        rewrite rows_nth in Hi by exact Hih. injection Hi as <-.
        rewrite length_map, Hslice, length_firstn, (Hrow i Hih). lia.
      * intros i j Hi Hj. cbv zeta. rewrite Hmin in Hj.
        destruct (pixels_nth (i * c + j) (h * c) (img_data im) Hdata
                    ltac:(nia))
          as (b & g & r & a & Hb & Hg & Hr2 & Ha & Hp).
        exists b, g, r, a. eexists.
        split; [exact Hb|]. split; [exact Hg|]. split; [exact Hr2|].
        split; [exact Ha|]. split.
        -- rewrite !nth_error_map, rows_nth by exact Hi. reflexivity.
        -- rewrite nth_error_map, Hslice, !nth_error_firstn.
           replace (j <? Z.to_nat (img_width im))%nat with true
             by (symmetry; apply Nat.ltb_lt; lia).
           replace (j <? c)%nat with true by (symmetry; apply Nat.ltb_lt; lia).
           rewrite nth_error_skipn. fold px in Hp. now rewrite Hp.
Qed.
End Screenshot.

(* ------------------------------------------------------------------ *)
(** ** All matches *)








Section LocateAll.
Context `{Host}.

End LocateAll.

(* ------------------------------------------------------------------ *)
(** ** More on the orchestrator *)

Section OrchestratorMore.
Context `{Host} {X : Type} `{!BackendBase.C X}.

Lemma init_run (self : AutomationCore.t X) w :
  AutomationCore._initialized self = false ->
  AutomationCore.init (self, w)
  = if negb (sys_platform =? "darwin")%string
    then (Raise (UnsupportedPlatform sys_platform), (self, w))
    else if import_Quartz (os w)
         then (Ok tt, (AutomationCore.mk (Some (Mac ready_backend)) true,
                       note_call m_initialize (note_construction w)))
         else (Raise PyObjCRequired,
               (AutomationCore.mk (Some (Mac MacOSBackend.__init__)) false,
                note_call m_initialize (note_construction w))).
Proof.
  intros Hi. unfold AutomationCore.init.
  unfold bind at 1, gets. cbn [fst]. rewrite Hi.
  destruct (negb (sys_platform =? "darwin")%string); [reflexivity|].
  unfold AutomationCore.set_backend, AutomationCore.set_initialized.
  unfold bind, modify, _run, AutomationCore.invoke.
  cbn [BackendBase.initialize AnyBackend_is_backend MacOSBackend_is_backend].
  unfold dispatch, updating_self, MacOSBackend.initialize.
  cbn [os note_call note_construction].
  destruct (import_Quartz (os w)); cbn; rewrite ?Hi; reflexivity.
Qed.

(** X13. [init] on an orchestrator that is not initialized.  On another
    platform it raises the OSError and constructs nothing.  On darwin it
    constructs a backend, replacing any it held; when PyObjC cannot be
    imported the ImportError reaches the caller and the orchestrator keeps
    the new, uninitialized backend with its flag down; otherwise the
    backend is ready and the flag is up. *)
Theorem init_outcome (self : AutomationCore.t X) w :
  AutomationCore._initialized self = false ->
  ((sys_platform =? "darwin")%string = false ->
   AutomationCore.init (self, w)
   = (Raise (UnsupportedPlatform sys_platform), (self, w))
   /\ class_of (UnsupportedPlatform sys_platform) = OSError)
  /\ ((sys_platform =? "darwin")%string = true ->
      import_Quartz (os w) = false ->
      AutomationCore.init (self, w)
      = (Raise PyObjCRequired,
         (AutomationCore.mk (Some (Mac MacOSBackend.__init__)) false,
          note_call m_initialize (note_construction w)))
      /\ class_of PyObjCRequired = ImportError)
  /\ ((sys_platform =? "darwin")%string = true ->
      import_Quartz (os w) = true ->
      AutomationCore.init (self, w)
      = (Ok tt, (AutomationCore.mk (Some (Mac ready_backend)) true,
                 note_call m_initialize (note_construction w)))).
Proof.
  intros Hi. pose proof (init_run self w Hi) as E.
  split; [|split].
  - intros Hp. rewrite Hp in E. split; [exact E | reflexivity].
  - intros Hp Hq. rewrite Hp, Hq in E. split; [exact E | reflexivity].
  - intros Hp Hq. rewrite Hp, Hq in E. exact E.
Qed.

Lemma cleanup_run_mac (self : AutomationCore.t X) w mb :
  AutomationCore._backend self = Some (Mac mb) ->
  AutomationCore.cleanup (self, w)
  = (Ok tt, (AutomationCore.__init__, note_call m_cleanup w)).
Proof.
  intros Hb. unfold AutomationCore.cleanup.
  unfold bind at 1, gets. cbn [fst]. rewrite Hb. reflexivity.
Qed.

Lemma cleanup_run_none (self : AutomationCore.t X) w :
  AutomationCore._backend self = None ->
  AutomationCore.cleanup (self, w) = (Ok tt, (AutomationCore.__init__, w)).
Proof.
  intros Hb. unfold AutomationCore.cleanup.
  unfold bind at 1, gets. cbn [fst]. rewrite Hb. reflexivity.
Qed.

(** What a delegated call does on an initialized orchestrator. *)
Lemma delegate_run {R} (m : method) (op : M (AnyBackend X * World) R)
      (self : AutomationCore.t X) w b :
  AutomationCore._initialized self = true ->
  AutomationCore._backend self = Some b ->
  (b0 <- AutomationCore._ensure_initialized ;;
   _run (AutomationCore.invoke b0 m op))%py (self, w)
  = let '(r, (b', w')) := op (b, note_call m w) in
    (r, (AutomationCore.mk (Some b') true, w')).
Proof.
  intros Hi Hb. unfold bind, AutomationCore._ensure_initialized.
  rewrite Hi, Hb. cbn [negb]. unfold _run, AutomationCore.invoke.
  rewrite Hi. reflexivity.
Qed.

Lemma outcome_let {S S' A} (c : S' * S) (f : S' -> S -> result A * S) :
  (let '(b', w') := c in f b' w') = f (fst c) (snd c).
Proof. now destruct c. Qed.

Lemma perform_lifecycle_state c (self : AutomationCore.t X) w :
  lifecycle_state self ->
  lifecycle_state (fst (snd (AutomationCore.perform c (self, w)))).
Proof.
  intros Hs.
  assert (Hinit : lifecycle_state
                    (fst (snd (AutomationCore.init (self, w))))).
  { destruct (AutomationCore._initialized self) eqn:Hi.
    - unfold AutomationCore.init, bind, gets. cbn [fst]. now rewrite Hi.
    - rewrite (init_run self w Hi).
      destruct (negb _); [exact Hs|].
      destruct (import_Quartz (os w)); cbn; unfold lifecycle_state; auto. }
  assert (Hclean : lifecycle_state
                     (fst (snd (AutomationCore.cleanup (self, w))))).
  { destruct Hs as [-> | [-> | ->]].
    - rewrite cleanup_run_none by reflexivity. now left.
    - erewrite cleanup_run_mac by reflexivity. now left.
    - erewrite cleanup_run_mac by reflexivity. now left. }
  assert (Hop : forall R (f : MacOSBackend.t -> M World R)
                       (other : M (X * World) R) m,
             lifecycle_state
               (fst (snd ((b <- AutomationCore._ensure_initialized ;;
                           _run (AutomationCore.invoke b m
                                   (dispatch (on_self f) other)))%py
                            (self, w))))).
  { intros R f other m. destruct Hs as [-> | [-> | ->]].
    - rewrite (bind_raise _ _ _ _ _
                 (ensure_initialized_raises AutomationCore.__init__ w
                    (or_introl eq_refl))).
      now left.
    - rewrite (bind_raise _ _ _ _ _
                 (ensure_initialized_raises
                    (AutomationCore.mk (Some (Mac MacOSBackend.__init__))
                       false) w (or_introl eq_refl))).
      right. now left.
    - rewrite (delegate_run m (dispatch (on_self f) other)
                 (AutomationCore.mk (Some (Mac ready_backend)) true) w
                 (Mac ready_backend) eq_refl eq_refl).
      unfold dispatch, on_self.
      destruct (f ready_backend (note_call m w)) as [r w'].
      right. now right. }
  destruct c; cbn [AutomationCore.perform];
    try rewrite outcome_state;
    first [ exact Hinit | exact Hclean | apply Hop ].
Qed.

Lemma reachable_lifecycle_state (self : AutomationCore.t X) :
  AutomationCore.reachable self -> lifecycle_state self.
Proof.
  induction 1 as [|self w c Hr IH]; [now left|].
  now apply perform_lifecycle_state.
Qed.

(** X14. The orchestrator is only ever in one of three states: without a
    backend; holding a backend as constructed, its flag down, after an
    [init] whose import failed; or holding an initialized backend, its
    flag up.  So whenever the flag is up the backend it holds is a
    [MacOSBackend] that is ready. *)
Theorem reachable_states (self : AutomationCore.t X) :
  AutomationCore.reachable self ->
  lifecycle_state self
  /\ (AutomationCore._initialized self = true ->
      exists mb, AutomationCore._backend self = Some (Mac mb) /\ ready mb).
Proof.
  intros Hr. pose proof (reachable_lifecycle_state self Hr) as Hs.
  split; [exact Hs|]. intros Hi.
  destruct Hs as [-> | [-> | ->]]; try discriminate Hi.
  exists ready_backend. split; [reflexivity | split; reflexivity].
Qed.

(** X15. From any state the orchestrator can be in, [cleanup] returns and
    leaves the orchestrator as constructed (the backend's cleanup is
    invoked when one is held), so a second [cleanup] changes nothing more
    and invokes nothing. *)
Theorem cleanup_resets (self : AutomationCore.t X) w :
  AutomationCore.reachable self ->
  exists w',
    AutomationCore.cleanup (self, w) = (Ok tt, (AutomationCore.__init__, w'))
    /\ trace w' = trace w
    /\ invoked w' = invoked w
                    ++ match AutomationCore._backend self with
                       | Some _ => [m_cleanup]
                       | None => []
                       end
    /\ AutomationCore.cleanup (AutomationCore.__init__, w')
       = (Ok tt, (AutomationCore.__init__, w')).
Proof.
  intros Hr.
  destruct (reachable_lifecycle_state self Hr) as [-> | [-> | ->]].
  - exists w. rewrite cleanup_run_none by reflexivity. cbn.
    now rewrite app_nil_r.
  - eexists. erewrite cleanup_run_mac by reflexivity.
    split; [reflexivity|]. repeat split.
  - eexists. erewrite cleanup_run_mac by reflexivity.
    split; [reflexivity|]. repeat split.
Qed.

(** X16. A delegated call on an initialized orchestrator is the call of the
    same method, with the same arguments, on the backend it holds: the
    result (value or exception) is the backend's, and nothing else
    happens but the note of the call.  With a [MacOSBackend] behind it,
    the orchestrator itself is left as it was. *)
Theorem delegation (self : AutomationCore.t X) w b :
  AutomationCore._initialized self = true ->
  AutomationCore._backend self = Some b ->
  let via {R} (m : method) (op : M (AnyBackend X * World) R) :=
    let '(r, (b', w')) := op (b, note_call m w) in
    (r, (AutomationCore.mk (Some b') true, w')) in
  AutomationCore.get_screen_size (self, w)
  = via m_get_screen_size BackendBase.get_screen_size
  /\ AutomationCore.get_mouse_position (self, w)
     = via m_get_mouse_position BackendBase.get_mouse_position
  /\ (forall region,
         AutomationCore.take_screenshot region (self, w)
         = via m_take_screenshot (BackendBase.take_screenshot region))
  /\ (forall image confidence region mode,
         AutomationCore.locate_on_screen image confidence region mode (self, w)
         = via m_locate_on_screen
               (BackendBase.locate_on_screen image confidence region mode)
         /\ AutomationCore.locate_all_on_screen image confidence region mode
              (self, w)
            = via m_locate_all_on_screen
                  (BackendBase.locate_all_on_screen image confidence region
                     mode))
  /\ (forall c,
         AutomationCore.is_lifecycle c = false ->
         AutomationCore.perform c (self, w)
         = via (method_of c) (backend_call c)
         /\ forall mb, b = Mac mb ->
                       fst (snd (AutomationCore.perform c (self, w))) = self).
Proof.
  intros Hi Hb via.
  split; [apply (delegate_run _ _ _ _ _ Hi Hb)|].
  split; [apply (delegate_run _ _ _ _ _ Hi Hb)|].
  split; [intros; apply (delegate_run _ _ _ _ _ Hi Hb)|].
  split; [intros; split; apply (delegate_run _ _ _ _ _ Hi Hb)|].
  intros c Hc.
  assert (Hout : forall R (op : M (AnyBackend X * World) R) m,
             AutomationCore.outcome
               (b0 <- AutomationCore._ensure_initialized ;;
                _run (AutomationCore.invoke b0 m op))%py (self, w)
             = via unit m (AutomationCore.outcome op)).
  { intros R op m. unfold AutomationCore.outcome at 1. unfold bind at 1.
    rewrite (delegate_run m op self w b Hi Hb). subst via. cbv beta.
    unfold AutomationCore.outcome, bind, ret.
    destruct (op (b, note_call m w)) as [[r|e] [b' w']]; reflexivity. }
  assert (E : AutomationCore.perform c (self, w)
              = via unit (method_of c) (backend_call c)).
  { destruct c; try discriminate Hc;
      cbn [AutomationCore.perform method_of backend_call];
      first [ apply Hout | apply (delegate_run _ _ _ _ _ Hi Hb) ]. }
  split; [exact E|].
  intros mb ->. rewrite E. subst via. cbv beta.
  assert (Hself : self = AutomationCore.mk (Some (Mac mb)) true).
  { destruct self as [bk fl]. cbn in Hi, Hb. now subst. }
  assert (Hmac : forall R (f : MacOSBackend.t -> M World R)
                        (other : M (X * World) R) m,
             fst (snd (let '(r, (b', w')) :=
                         dispatch (on_self f) other (Mac mb, note_call m w) in
                       (r, (AutomationCore.mk (Some b') true, w'))))
             = self).
  { intros R f other m. unfold dispatch, on_self.
    destruct (f mb (note_call m w)) as [r w']. now rewrite Hself. }
  assert (Hmaco : forall R (f : MacOSBackend.t -> M World R)
                         (other : M (X * World) R) m,
             fst (snd (let '(r, (b', w')) :=
                         AutomationCore.outcome (dispatch (on_self f) other)
                           (Mac mb, note_call m w) in
                       (r, (AutomationCore.mk (Some b') true, w'))))
             = self).
  { intros R f other m. unfold AutomationCore.outcome, bind, ret, dispatch,
      on_self.
    destruct (f mb (note_call m w)) as [[r|e] w']; now rewrite Hself. }
  destruct c; try discriminate Hc; cbn [method_of backend_call];
    first [ apply Hmaco | apply Hmac ].
Qed.
End OrchestratorMore.

(* ------------------------------------------------------------------ *)
(** ** The functions of the package *)

Lemma pystr_eqb_eq (a b : pystr) : pystr_eqb a b = true <-> a = b.
Proof.
  unfold pystr_eqb. destruct (list_eq_dec N.eq_dec a b); split; congruence.
Qed.

Section Package.
Context `{Host} {X : Type} `{!BackendBase.C X}.

(** X17. [MouseButton(button)] accepts exactly the three values of the
    enumeration, as they are spelled there.  With any other string
    [click] raises the ValueError before the orchestrator is consulted:
    nothing is invoked, also when the orchestrator is not initialized.
    With one of the three it is the orchestrator's [click] with that
    member. *)
Theorem click_button_value (x y : option Z) (clicks : Z) (interval : pyfloat)
        (s : AutomationCore.t X * World) :
  (forall b, autoguix.MouseButton_of_value (MouseButton_value b) = Ok b)
  /\ (forall value b,
        autoguix.MouseButton_of_value value = Ok b ->
        value = MouseButton_value b)
  /\ (forall value,
        (forall b, value <> MouseButton_value b) ->
        exists e,
          autoguix.click x y clicks interval value s = (Raise e, s)
          /\ class_of e = ValueError)
  /\ (forall b,
        autoguix.click x y clicks interval (MouseButton_value b) s
        = AutomationCore.click x y b clicks interval s).
Proof.
  split; [now intros []|].
  assert (Hinv : forall value b,
             autoguix.MouseButton_of_value value = Ok b ->
             value = MouseButton_value b).
  { intros value b. unfold autoguix.MouseButton_of_value.
    destruct (pystr_eqb value (pystr_of_string "left")) eqn:E1;
      [apply pystr_eqb_eq in E1; intros [= <-]; exact E1|].
    destruct (pystr_eqb value (pystr_of_string "right")) eqn:E2;
      [apply pystr_eqb_eq in E2; intros [= <-]; exact E2|].
    destruct (pystr_eqb value (pystr_of_string "middle")) eqn:E3;
      [apply pystr_eqb_eq in E3; intros [= <-]; exact E3|].
    discriminate. }
  split; [exact Hinv|]. split.
  - intros value Hno. unfold autoguix.click, bind, lift.
    destruct (autoguix.MouseButton_of_value value) as [b|e] eqn:E.
    + exfalso. exact (Hno b (Hinv value b E)).
    + exists e. split; [reflexivity|].
      unfold autoguix.MouseButton_of_value in E.
      repeat match type of E with
             | (if ?c then _ else _) = _ => destruct c; [discriminate|]
             end.
      now injection E as <-.
  - intros b. unfold autoguix.click, bind, lift. now destruct b.
Qed.

(** X18. [locateCenterOnScreen] is [locateOnScreen] with the region, when one
    is found, replaced by the point at [left + width // 2] and
    [top + height // 2]: the middle of the region, rounded down.  It
    returns None when nothing is found and raises what [locateOnScreen]
    raises; the state it leaves is the one [locateOnScreen] leaves. *)
Theorem locateCenterOnScreen_center (image : pystr) (confidence : pyfloat)
        (region : option Region.t) (s : AutomationCore.t X * World) :
  match autoguix.locateOnScreen image confidence region s with
  | (Ok (Some loc), s') =>
      exists c,
        autoguix.locateCenterOnScreen image confidence region s
        = (Ok (Some c), s')
        /\ c = Point.mk (Region.left loc + Region.width loc / 2)
                        (Region.top loc + Region.height loc / 2)
        /\ 2 * (Point.x c - Region.left loc) <= Region.width loc
           < 2 * (Point.x c - Region.left loc) + 2
        /\ 2 * (Point.y c - Region.top loc) <= Region.height loc
           < 2 * (Point.y c - Region.top loc) + 2
  | (Ok None, s') =>
      autoguix.locateCenterOnScreen image confidence region s = (Ok None, s')
  | (Raise e, s') =>
      autoguix.locateCenterOnScreen image confidence region s = (Raise e, s')
  end.
Proof.
  unfold autoguix.locateCenterOnScreen, bind.
  destruct (autoguix.locateOnScreen image confidence region s)
    as [[[loc|]|e] s']; try reflexivity.
  eexists. split; [reflexivity|]. split; [reflexivity|].
  cbn [Point.x Point.y].
  pose proof (Z.div_mod (Region.width loc) 2 ltac:(lia)).
  pose proof (Z.mod_pos_bound (Region.width loc) 2 ltac:(lia)).
  pose proof (Z.div_mod (Region.height loc) 2 ltac:(lia)).
  pose proof (Z.mod_pos_bound (Region.height loc) 2 ltac:(lia)).
  lia.
Qed.

Lemma package_click_run (mb : MacOSBackend.t) x y button clicks interval w pos :
  ready mb ->
  (x = None \/ y = None -> cursor_at w pos) ->
  exists w',
    AutomationCore.click x y button clicks interval
      (AutomationCore.mk (Some (Mac mb)) true : AutomationCore.t X, w)
    = (Ok tt, (AutomationCore.mk (Some (Mac mb)) true, w'))
    /\ trace w' =
       trace w
       ++ match x, y with
          | Some x, Some y =>
              [posted (MouseEvent kCGEventMouseMoved (x, y) 0 [])]
          | _, _ => []
          end
       ++ intersperse (pause interval)
            (List.map (click_pair button
                         match x, y with
                         | Some x, Some y => (x, y)
                         | _, _ => pos
                         end) (range 1 (clicks + 1))).
Proof.
  intros Hr Hcur.
  destruct (click_run mb x y button clicks interval (note_call m_click w) pos
              Hr Hcur) as (w' & E & T).
  exists w'. split; [|exact T].
  unfold AutomationCore.click.
  rewrite (delegate_run m_click _
             (AutomationCore.mk (Some (Mac mb)) true) w (Mac mb)
             eq_refl eq_refl).
  cbn [BackendBase.click AnyBackend_is_backend MacOSBackend_is_backend].
  unfold dispatch, on_self. now rewrite E.
Qed.

(** X19. On an initialized orchestrator, with the target given (or the cursor
    at a finite location), [doubleClick] posts after the move two pairs of
    left-button events at the target, numbered 1 and 2 in their click
    state, with no suspension between them; [rightClick] and
    [middleClick] post one pair, of their button, numbered 1. *)
Theorem click_shortcuts (mb : MacOSBackend.t) (x y : option Z) (w : World)
        (pos : Z * Z) :
  ready mb ->
  (x = None \/ y = None -> cursor_at w pos) ->
  let self : AutomationCore.t X := AutomationCore.mk (Some (Mac mb)) true in
  let move := match x, y with
              | Some x, Some y =>
                  [posted (MouseEvent kCGEventMouseMoved (x, y) 0 [])]
              | _, _ => []
              end in
  let target := match x, y with
                | Some x, Some y => (x, y)
                | _, _ => pos
                end in
  (exists w', autoguix.doubleClick x y (self, w) = (Ok tt, (self, w'))
              /\ trace w' = trace w ++ move ++ click_pair LEFT target 1
                                    ++ click_pair LEFT target 2)
  /\ (exists w', autoguix.rightClick x y (self, w) = (Ok tt, (self, w'))
                 /\ trace w' = trace w ++ move ++ click_pair RIGHT target 1)
  /\ (exists w', autoguix.middleClick x y (self, w) = (Ok tt, (self, w'))
                 /\ trace w' = trace w ++ move ++ click_pair MIDDLE target 1).
Proof.
  intros Hr Hcur self move target.
  split; [|split].
  - destruct (package_click_run mb x y LEFT 2 (Finite 0) w pos Hr Hcur)
      as (w' & E & T).
    exists w'. split; [exact E|]. rewrite T. reflexivity.
  - destruct (package_click_run mb x y RIGHT 1 (Finite 0) w pos Hr Hcur)
      as (w' & E & T).
    exists w'. split; [exact E|]. rewrite T. reflexivity.
  - destruct (package_click_run mb x y MIDDLE 1 (Finite 0) w pos Hr Hcur)
      as (w' & E & T).
    exists w'. split; [exact E|]. rewrite T. reflexivity.
Qed.
End Package.

(* ------------------------------------------------------------------ *)
(** ** Conversions of the reported geometry *)

Lemma trunc_toward_zero (q : Q) : toward_zero q (trunc q).
Proof.
  destruct q as [n d]. unfold toward_zero, trunc. cbn [Qnum Qden].
  assert (Habs : Z.abs (n ÷ Zpos d) = Z.abs n / Zpos d).
  { rewrite <- Z.quot_abs by lia. cbn [Z.abs].
    apply Z.quot_div_nonneg; lia. }
  pose proof (Z.div_mod (Z.abs n) (Zpos d) ltac:(lia)) as E.
  pose proof (Z.mod_pos_bound (Z.abs n) (Zpos d) ltac:(lia)) as B.
  unfold Qle, Qlt, Qabs, inject_Z, Qplus. cbn [Qnum Qden].
  rewrite !Z.mul_1_r, ?Z.mul_0_l, Habs.
  split; [nia|]. split; [nia|]. split; intros Hs.
  - apply Z.quot_pos; lia.
  - assert (Hn : n <= 0) by lia.
    replace n with (- (- n)) by lia. rewrite Z.quot_opp_l by lia.
    pose proof (Z.quot_pos (- n) (Zpos d) ltac:(lia) ltac:(lia)). lia.
Qed.

Section Geometry.
Context `{Host}.

(** X20. [get_mouse_position] and [get_screen_size] on a ready backend convert
    each number that Quartz reports with [int]: a finite one loses its
    fraction, toward zero (so a location of -0.5 is reported as 0); a NaN
    raises the ValueError and an infinity the OverflowError, the
    horizontal number being converted first.  Nothing is posted either
    way. *)
Theorem position_and_size_conversion (self : MacOSBackend.t) (w : World) :
  ready self ->
  let outcome {A} (reported : pyfloat * pyfloat) (make : Z -> Z -> A)
              (got : result A * World) : Prop :=
    snd got = w
    /\ match reported with
       | (Finite qx, Finite qy) =>
           exists zx zy, fst got = Ok (make zx zy)
                         /\ toward_zero qx zx /\ toward_zero qy zy
       | (fx, fy) =>
           exists e, fst got = Raise e
                     /\ (class_of e = ValueError
                         <-> (if finite fx then fy else fx) = NaN)
                     /\ (class_of e = OverflowError
                         <-> exists s, (if finite fx then fy else fx) = Inf s)
       end in
  outcome (CGEventGetLocation (os w)) Point.mk
          (MacOSBackend.get_mouse_position self w)
  /\ outcome (CGDisplayBounds_size (os w)) Size.mk
             (MacOSBackend.get_screen_size self w).
Proof.
  intros Hr outcome.
  assert (Hgen : forall A (make : Z -> Z -> A) (reported : pyfloat * pyfloat),
             outcome A reported make
               (match to_int (fst reported) with
                | Ok zx => match to_int (snd reported) with
                           | Ok zy => (Ok (make zx zy), w)
                           | Raise e => (Raise e, w)
                           end
                | Raise e => (Raise e, w)
                end)).
  { intros A make [fx fy]. unfold outcome. cbn [fst snd].
    destruct fx as [qx|sx|], fy as [qy|sy|]; cbn;
      (split; [reflexivity|]);
      try (exists (trunc qx), (trunc qy);
           split; [reflexivity|]; split; apply trunc_toward_zero);
      eexists; (split; [reflexivity|]); cbn;
      split; split; try congruence; try (intros [s Hs]; congruence);
      eauto. }
  split.
  - specialize (Hgen _ Point.mk (CGEventGetLocation (os w))).
    unfold MacOSBackend.get_mouse_position, bind, lift, gets.
    rewrite (ensure_ready_ok _ Hr).
    destruct (to_int (fst (CGEventGetLocation (os w))));
      [destruct (to_int (snd (CGEventGetLocation (os w))))|]; exact Hgen.
  - specialize (Hgen _ Size.mk (CGDisplayBounds_size (os w))).
    unfold MacOSBackend.get_screen_size, bind, lift, gets.
    rewrite (ensure_ready_ok _ Hr).
    destruct (to_int (fst (CGDisplayBounds_size (os w))));
      [destruct (to_int (snd (CGDisplayBounds_size (os w))))|]; exact Hgen.
Qed.
End Geometry.


(* ------------------------------------------------------------------ *)
(** ** What a ready backend can raise *)

Lemma raises_only_ret {S A} (P : exn -> Prop) (a : A) :
  raises_only P (ret a : M S A).
Proof. intros s e. discriminate. Qed.

Lemma raises_only_gets {S A} (P : exn -> Prop) (f : S -> A) :
  raises_only P (gets f).
Proof. intros s e. discriminate. Qed.

Lemma raises_only_modify {S} (P : exn -> Prop) (f : S -> S) :
  raises_only P (modify f).
Proof. intros s e. discriminate. Qed.

Lemma raises_only_raise {S A} (P : exn -> Prop) e0 :
  P e0 -> raises_only P (raise e0 : M S A).
Proof. intros Hp s e [= <-]. exact Hp. Qed.

Lemma raises_only_lift {S A} (P : exn -> Prop) (r : result A) :
  (forall e, r = Raise e -> P e) -> raises_only P (lift r : M S A).
Proof. intros Hr s e. apply Hr. Qed.

Lemma raises_only_bind {S A B} (P : exn -> Prop) (c : M S A)
      (k : A -> M S B) :
  raises_only P c -> (forall a, raises_only P (k a)) ->
  raises_only P (bind c k).
Proof.
  intros Hc Hk s e. unfold bind.
  destruct (c s) as [[a|e0] s'] eqn:E.
  - apply Hk.
  - cbn. intros [= <-]. apply (Hc s). now rewrite E.
Qed.

Lemma raises_only_for_each {S A} (P : exn -> Prop) (l : list A)
      (body : A -> M S unit) :
  (forall a, In a l -> raises_only P (body a)) ->
  raises_only P (for_each l body).
Proof.
  induction l as [|a l IH]; intros Hb; cbn [for_each].
  - apply raises_only_ret.
  - apply raises_only_bind; [apply Hb; now left|].
    intros _. apply IH. intros b Hin. apply Hb. now right.
Qed.

Lemma raises_only_for_fold {S A T} (P : exn -> Prop) (l : list A) (acc : T)
      (body : T -> A -> M S T) :
  (forall acc a, In a l -> raises_only P (body acc a)) ->
  raises_only P (for_fold l acc body).
Proof.
  revert acc. induction l as [|a l IH]; intros acc Hb; cbn [for_fold].
  - apply raises_only_ret.
  - apply raises_only_bind; [apply Hb; now left|].
    intros acc'. apply IH. intros acc0 b Hin. apply Hb. now right.
Qed.

Lemma raises_only_weaken {S A} (P Q : exn -> Prop) (c : M S A) :
  (forall e, P e -> Q e) -> raises_only P c -> raises_only Q c.
Proof. intros Hpq Hc s e E. apply Hpq, (Hc s e E). Qed.

Section Raises.
Context `{Host}.

Lemma raises_only_post (P : exn -> Prop) tap e :
  raises_only P (post tap e).
Proof. apply raises_only_modify. Qed.

Lemma raises_only_sleep (P : exn -> Prop) d :
  raises_only P (sleep d).
Proof. apply raises_only_modify. Qed.

Lemma raises_only_ensure_ready (P : exn -> Prop) self :
  ready self -> forall e, MacOSBackend._ensure_ready self = Raise e -> P e.
Proof.
  intros [Hc Hi] e. unfold MacOSBackend._ensure_ready.
  rewrite Hc, Hi. discriminate.
Qed.

Lemma resolve_keycode_raises key e :
  MacOSBackend._resolve_keycode key = Raise e ->
  e = UnknownKey key /\ unrecognized key.
Proof.
  unfold MacOSBackend._resolve_keycode, unrecognized.
  destruct (dict_get MacOSBackend._KEYCODE_MAP (str_lower key));
    [discriminate|]. intros [= <-]. now split.
Qed.

Lemma to_int_raises f e : to_int f = Raise e -> int_conversion_error e.
Proof.
  unfold int_conversion_error.
  destruct f; cbn; [discriminate | |]; intros [= <-]; auto.
Qed.

Lemma move_mouse_instant_raises (P : exn -> Prop) self x y :
  ready self ->
  raises_only P (MacOSBackend.move_mouse self x y (Finite 0)).
Proof.
  intros Hr. unfold MacOSBackend.move_mouse.
  apply raises_only_bind;
    [apply raises_only_lift, (raises_only_ensure_ready _ _ Hr)|].
  intros _. change (le0 (Finite 0)) with true. cbv iota.
  apply raises_only_post.
Qed.

Lemma get_mouse_position_raises self :
  ready self ->
  raises_only int_conversion_error (MacOSBackend.get_mouse_position self).
Proof.
  intros Hr. unfold MacOSBackend.get_mouse_position.
  apply raises_only_bind;
    [apply raises_only_lift, (raises_only_ensure_ready _ _ Hr)|].
  intros _. apply raises_only_bind; [apply raises_only_gets|].
  intros loc. apply raises_only_bind;
    [apply raises_only_lift, to_int_raises|].
  intros px. apply raises_only_bind;
    [apply raises_only_lift, to_int_raises|].
  intros py. apply raises_only_ret.
Qed.

Lemma key_down_raises self key :
  ready self ->
  raises_only (fun e => e = UnknownKey key /\ unrecognized key)
              (MacOSBackend.key_down self key).
Proof.
  intros Hr. unfold MacOSBackend.key_down.
  apply raises_only_bind;
    [apply raises_only_lift, (raises_only_ensure_ready _ _ Hr)|].
  intros _. apply raises_only_bind;
    [apply raises_only_lift, resolve_keycode_raises|].
  intros code. apply raises_only_bind; [apply raises_only_gets|].
  intros flags0. apply raises_only_post.
Qed.

Lemma key_up_raises self key :
  ready self ->
  raises_only (fun e => e = UnknownKey key /\ unrecognized key)
              (MacOSBackend.key_up self key).
Proof.
  intros Hr. unfold MacOSBackend.key_up.
  apply raises_only_bind;
    [apply raises_only_lift, (raises_only_ensure_ready _ _ Hr)|].
  intros _. apply raises_only_bind;
    [apply raises_only_lift, resolve_keycode_raises|].
  intros code. apply raises_only_bind; [apply raises_only_gets|].
  intros flags0. apply raises_only_post.
Qed.

Lemma press_key_raises self key :
  ready self ->
  raises_only (fun e => e = UnknownKey key /\ unrecognized key)
              (MacOSBackend.press_key self key).
Proof.
  intros Hr. unfold MacOSBackend.press_key.
  apply raises_only_bind; [now apply key_down_raises|].
  intros _. now apply key_up_raises.
Qed.

Lemma type_text_raises self text interval :
  ready self ->
  raises_only (fun _ => False) (MacOSBackend.type_text self text interval).
Proof.
  intros Hr. unfold MacOSBackend.type_text.
  apply raises_only_bind;
    [apply raises_only_lift, (raises_only_ensure_ready _ _ Hr)|].
  intros _. apply raises_only_for_each. intros ch _.
  apply raises_only_bind; [apply raises_only_gets|]. intros f0.
  apply raises_only_bind; [apply raises_only_post|]. intros _.
  apply raises_only_bind; [apply raises_only_gets|]. intros f1.
  apply raises_only_bind; [apply raises_only_post|]. intros _.
  destruct (gt0 interval); [apply raises_only_sleep | apply raises_only_ret].
Qed.

Lemma hotkey_raises self keys :
  ready self ->
  raises_only (fun e => exists k, In k keys /\ unrecognized k
                                  /\ e = UnknownKey k)
              (MacOSBackend.hotkey self keys).
Proof.
  intros Hr. unfold MacOSBackend.hotkey.
  apply raises_only_bind;
    [apply raises_only_lift, (raises_only_ensure_ready _ _ Hr)|].
  intros _. apply raises_only_bind.
  - apply raises_only_for_fold. intros [flags events] k Hin.
    apply raises_only_bind; [|intros code; apply raises_only_ret].
    apply raises_only_lift. intros e E.
    apply resolve_keycode_raises in E as [-> Hu]. now exists k.
  - intros [flags events].
    apply raises_only_bind;
      [apply raises_only_for_each; intros; apply raises_only_post|].
    intros _. apply raises_only_bind; [|intros; apply raises_only_ret].
    apply raises_only_for_fold. intros flags0 k Hin.
    apply raises_only_bind.
    + apply raises_only_lift. intros e E.
      apply resolve_keycode_raises in E as [-> Hu]. exists k.
      split; [now apply in_rev|]. now split.
    + intros code. apply raises_only_bind; [apply raises_only_post|].
      intros _. apply raises_only_ret.
Qed.

Lemma scroll_raises self clicks x y :
  ready self ->
  raises_only (fun _ => False) (MacOSBackend.scroll self clicks x y).
Proof.
  intros Hr. unfold MacOSBackend.scroll.
  apply raises_only_bind;
    [apply raises_only_lift, (raises_only_ensure_ready _ _ Hr)|].
  intros _. apply raises_only_bind; [|intros; apply raises_only_post].
  destruct x as [x|], y as [y|];
    first [ now apply move_mouse_instant_raises | apply raises_only_ret ].
Qed.

Lemma click_raises self x y button clicks interval :
  ready self ->
  raises_only (fun e => (x = None \/ y = None) /\ int_conversion_error e)
              (MacOSBackend.click self x y button clicks interval).
Proof.
  intros Hr. unfold MacOSBackend.click.
  apply raises_only_bind;
    [apply raises_only_lift, (raises_only_ensure_ready _ _ Hr)|].
  intros _. apply raises_only_bind.
  - destruct x as [x|], y as [y|];
      try (apply raises_only_bind;
           [ apply (raises_only_weaken int_conversion_error);
             [ intros e He; split; [auto | exact He]
             | now apply get_mouse_position_raises ]
           | intros; apply raises_only_ret ]).
    apply raises_only_bind; [now apply move_mouse_instant_raises|].
    intros; apply raises_only_ret.
  - intros xy. destruct (MacOSBackend._BUTTON_MAP button) as [[dt ut] cb].
    apply raises_only_for_each. intros i _.
    apply raises_only_bind; [apply raises_only_post|]. intros _.
    apply raises_only_bind; [apply raises_only_post|]. intros _.
    destruct (gt0 interval && (i <? clicks - 1));
      [apply raises_only_sleep | apply raises_only_ret].
Qed.

(** X21. What the code of a ready backend raises itself, the calls of
    Quartz and of [asyncio.sleep] being taken to return.  [type_text] and
    [scroll] raise nothing; [key_down], [key_up] and [press_key] raise
    nothing but the ValueError of their own key name, and only when it is
    unrecognized; [hotkey] raises nothing but the ValueError of one of its
    key names that is unrecognized; [click] raises nothing when both
    coordinates are given, and otherwise nothing but the error of
    converting the cursor location with [int]. *)
Theorem ready_backend_raises_only (self : MacOSBackend.t) :
  ready self ->
  (forall text interval,
      raises_only (fun _ => False) (MacOSBackend.type_text self text interval))
  /\ (forall clicks x y,
         raises_only (fun _ => False) (MacOSBackend.scroll self clicks x y))
  /\ (forall key,
         let own e := e = UnknownKey key /\ unrecognized key in
         raises_only own (MacOSBackend.key_down self key)
         /\ raises_only own (MacOSBackend.key_up self key)
         /\ raises_only own (MacOSBackend.press_key self key))
  /\ (forall keys,
         raises_only (fun e => exists k, In k keys /\ unrecognized k
                                         /\ e = UnknownKey k)
                     (MacOSBackend.hotkey self keys))
  /\ (forall x y button clicks interval,
         raises_only (fun e => (x = None \/ y = None)
                               /\ int_conversion_error e)
                     (MacOSBackend.click self x y button clicks interval)).
Proof.
  intros Hr.
  split; [intros; now apply type_text_raises|].
  split; [intros; now apply scroll_raises|].
  split.
  { intros key own. split; [now apply key_down_raises|].
    split; [now apply key_up_raises | now apply press_key_raises]. }
  split; [intros; now apply hotkey_raises|].
  intros; now apply click_raises.
Qed.
End Raises.

(* ------------------------------------------------------------------ *)
(** ** The backend's state error behind the orchestrator *)

Lemma of_int_raises z e : of_int z = Raise e -> e = IntTooLargeForFloat.
Proof. unfold of_int. destruct (round64 _); congruence. Qed.

Lemma truediv_raises i n e :
  truediv i n = Raise e -> e = DivisionByZero \/ e = IntTooLargeForFloat.
Proof.
  unfold truediv. destruct (n =? 0); [intros [= <-]; auto|].
  destruct (round64 _); try discriminate. intros [= <-]; auto.
Qed.

Lemma div_raises a b e : div a b = Raise e -> e = DivisionByZero.
Proof.
  unfold div. destruct a, b; try discriminate;
    destruct (Qeq_bool _ _); congruence.
Qed.

Section Hidden.
Context `{Host}.

Lemma interpolate_raises a b t e :
  MacOSBackend.interpolate a b t = Raise e -> other_error e.
Proof.
  unfold MacOSBackend.interpolate.
  destruct (of_int (b - a)) as [d|e1] eqn:E1.
  - destruct (of_int a) as [fa|e2] eqn:E2.
    + intros E. apply to_int_raises in E as [-> | ->]; discriminate.
    + intros [= <-]. apply of_int_raises in E2 as ->. discriminate.
  - intros [= <-]. apply of_int_raises in E1 as ->. discriminate.
Qed.

Lemma reshape_raises im e :
  MacOSBackend.reshape im = Raise e -> e = BufferShape.
Proof. unfold MacOSBackend.reshape. destruct (_ && _); congruence. Qed.

Ltac ready_first Hr :=
  apply raises_only_bind;
  [apply raises_only_lift, (raises_only_ensure_ready _ _ Hr) | intros _].

Lemma get_screen_size_other self :
  ready self -> raises_only other_error (MacOSBackend.get_screen_size self).
Proof.
  intros Hr. unfold MacOSBackend.get_screen_size. ready_first Hr.
  apply raises_only_bind; [apply raises_only_gets|]. intros bounds.
  apply raises_only_bind.
  { apply raises_only_lift. intros e E.
    apply to_int_raises in E as [-> | ->]; discriminate. }
  intros w. apply raises_only_bind; [|intros; apply raises_only_ret].
  apply raises_only_lift. intros e E.
  apply to_int_raises in E as [-> | ->]; discriminate.
Qed.

Lemma get_mouse_position_other self :
  ready self ->
  raises_only other_error (MacOSBackend.get_mouse_position self).
Proof.
  intros Hr. apply (raises_only_weaken int_conversion_error).
  - intros e [-> | ->]; discriminate.
  - now apply get_mouse_position_raises.
Qed.

Lemma take_screenshot_other self region :
  ready self ->
  raises_only other_error (MacOSBackend.take_screenshot self region).
Proof.
  intros Hr. unfold MacOSBackend.take_screenshot. ready_first Hr.
  apply raises_only_bind; [apply raises_only_gets|]. intros [im|].
  - apply raises_only_bind; [|intros; apply raises_only_ret].
    apply raises_only_lift. intros e E.
    apply reshape_raises in E as ->. discriminate.
  - apply raises_only_raise. discriminate.
Qed.

Lemma move_mouse_other self x y duration :
  ready self ->
  raises_only other_error (MacOSBackend.move_mouse self x y duration).
Proof.
  intros Hr. unfold MacOSBackend.move_mouse. ready_first Hr.
  destruct (le0 duration); [apply raises_only_post|].
  apply raises_only_bind; [now apply get_mouse_position_other|].
  intros start. apply raises_only_bind.
  { apply raises_only_lift. intros e E.
    apply of_int_raises in E as ->. discriminate. }
  intros hundred. apply raises_only_bind.
  { apply raises_only_lift. intros e E.
    apply to_int_raises in E as [-> | ->]; discriminate. }
  intros n. apply raises_only_for_each. intros i _.
  apply raises_only_bind.
  { apply raises_only_lift. intros e E.
    apply truediv_raises in E as [-> | ->]; discriminate. }
  intros t. apply raises_only_bind;
    [apply raises_only_lift, interpolate_raises|].
  intros cx. apply raises_only_bind;
    [apply raises_only_lift, interpolate_raises|].
  intros cy. apply raises_only_bind; [apply raises_only_post|].
  intros _. apply raises_only_bind.
  { apply raises_only_lift. intros e E.
    apply of_int_raises in E as ->. discriminate. }
  intros fsteps. apply raises_only_bind; [|intros; apply raises_only_sleep].
  apply raises_only_lift. intros e E. apply div_raises in E as ->.
  discriminate.
Qed.

Lemma locate_on_screen_other self image confidence region mode :
  ready self ->
  raises_only other_error
    (MacOSBackend.locate_on_screen self image confidence region mode).
Proof.
  intros Hr. unfold MacOSBackend.locate_on_screen.
  apply raises_only_bind; [apply raises_only_gets|]. intros cv2.
  destruct (negb cv2); [apply raises_only_raise; discriminate|].
  apply raises_only_bind; [now apply take_screenshot_other|].
  intros shot. apply raises_only_bind; [apply raises_only_gets|].
  intros [template|]; [|apply raises_only_raise; discriminate].
  cbv zeta. destruct (cv2_minMaxLoc _) as [max_val max_loc].
  destruct (ltb max_val confidence); [apply raises_only_ret|].
  destruct (template_shape template), (MacOSBackend.origin region).
  apply raises_only_ret.
Qed.

Lemma locate_all_on_screen_other self image confidence region mode :
  ready self ->
  raises_only other_error
    (MacOSBackend.locate_all_on_screen self image confidence region mode).
Proof.
  intros Hr. unfold MacOSBackend.locate_all_on_screen.
  apply raises_only_bind; [apply raises_only_gets|]. intros cv2.
  destruct (negb cv2); [apply raises_only_raise; discriminate|].
  apply raises_only_bind; [now apply take_screenshot_other|].
  intros shot. apply raises_only_bind; [apply raises_only_gets|].
  intros [template|]; [|apply raises_only_raise; discriminate].
  cbv zeta.
  destruct (template_shape template), (MacOSBackend.origin region).
  apply raises_only_ret.
Qed.

Context {X : Type} `{!BackendBase.C X}.

Lemma dispatch_on_self_fst {R} (f : MacOSBackend.t -> M World R)
      (other : M (X * World) R) mb w :
  fst (dispatch (on_self f) other (Mac mb, w)) = fst (f mb w).
Proof. unfold dispatch, on_self. now destruct (f mb w). Qed.

Lemma outcome_fst_raise {S A} (c : M S A) s e :
  fst (AutomationCore.outcome c s) = Raise e -> fst (c s) = Raise e.
Proof.
  unfold AutomationCore.outcome, bind, ret.
  destruct (c s) as [[a|e0] s']; cbn; [discriminate | now intros [= ->]].
Qed.

Lemma backend_call_other c mb w e :
  ready mb ->
  AutomationCore.is_lifecycle c = false ->
  fst (backend_call c (Mac mb : AnyBackend X, w)) = Raise e ->
  e <> BackendNotInitialized.
Proof.
  intros Hr Hc.
  destruct c; try discriminate Hc; cbn [backend_call]; intros E;
    try apply outcome_fst_raise in E;
    cbn [BackendBase.get_screen_size BackendBase.take_screenshot
         BackendBase.get_mouse_position BackendBase.move_mouse
         BackendBase.click BackendBase.scroll BackendBase.press_key
         BackendBase.key_down BackendBase.key_up BackendBase.type_text
         BackendBase.hotkey BackendBase.locate_on_screen
         BackendBase.locate_all_on_screen
         AnyBackend_is_backend MacOSBackend_is_backend] in E;
    rewrite dispatch_on_self_fst in E.
  - exact (get_screen_size_other mb Hr w e E).
  - exact (take_screenshot_other mb _ Hr w e E).
  - exact (get_mouse_position_other mb Hr w e E).
  - exact (move_mouse_other mb _ _ _ Hr w e E).
  - destruct (click_raises mb _ _ _ _ _ Hr w e E) as [_ [-> | ->]];
      discriminate.
  - destruct (scroll_raises mb _ _ _ Hr w e E).
  - destruct (press_key_raises mb _ Hr w e E) as [-> _]. discriminate.
  - destruct (key_down_raises mb _ Hr w e E) as [-> _]. discriminate.
  - destruct (key_up_raises mb _ Hr w e E) as [-> _]. discriminate.
  - destruct (type_text_raises mb _ _ Hr w e E).
  - destruct (hotkey_raises mb _ Hr w e E) as (k & _ & _ & ->). discriminate.
  - exact (locate_on_screen_other mb _ _ _ _ Hr w e E).
  - exact (locate_all_on_screen_other mb _ _ _ _ Hr w e E).
Qed.

Lemma perform_run (self : AutomationCore.t X) w b c :
  AutomationCore._initialized self = true ->
  AutomationCore._backend self = Some b ->
  AutomationCore.is_lifecycle c = false ->
  AutomationCore.perform c (self, w)
  = let '(r, (b', w')) := backend_call c (b, note_call (method_of c) w) in
    (r, (AutomationCore.mk (Some b') true, w')).
Proof.
  intros Hi Hb Hc.
  assert (Hout : forall R (op : M (AnyBackend X * World) R) m,
             AutomationCore.outcome
               (b0 <- AutomationCore._ensure_initialized ;;
                _run (AutomationCore.invoke b0 m op))%py (self, w)
             = let '(r, (b', w')) :=
                 AutomationCore.outcome op (b, note_call m w) in
               (r, (AutomationCore.mk (Some b') true, w'))).
  { intros R op m. unfold AutomationCore.outcome at 1. unfold bind at 1.
    rewrite (delegate_run m op self w b Hi Hb).
    unfold AutomationCore.outcome, bind, ret.
    destruct (op (b, note_call m w)) as [[r|e] [b' w']]; reflexivity. }
  destruct c; try discriminate Hc;
    cbn [AutomationCore.perform method_of backend_call];
    first [ apply Hout | apply (delegate_run _ _ _ _ _ Hi Hb) ].
Qed.

(** X22. Through the orchestrator the backend's own "not initialized"
    error is never seen: whatever calls were made before, in whatever
    worlds, no call raises it.  The state error a client can get is the
    orchestrator's. *)
Theorem backend_state_error_hidden (self : AutomationCore.t X) c w :
  AutomationCore.reachable self ->
  fst (AutomationCore.perform c (self, w)) <> Raise BackendNotInitialized.
Proof.
  intros Hreach.
  pose proof (reachable_lifecycle_state self Hreach) as Hs.
  destruct (AutomationCore.is_lifecycle c) eqn:Hc.
  - destruct c; try discriminate Hc; cbn [AutomationCore.perform].
    + destruct (AutomationCore._initialized self) eqn:Hi.
      * unfold AutomationCore.init, bind, gets. cbn [fst]. rewrite Hi.
        discriminate.
      * rewrite (init_run self w Hi).
        destruct (negb _); [discriminate|].
        destruct (import_Quartz (os w)); discriminate.
    + destruct Hs as [-> | [-> | ->]].
      * rewrite cleanup_run_none by reflexivity. discriminate.
      * erewrite cleanup_run_mac by reflexivity. discriminate.
      * erewrite cleanup_run_mac by reflexivity. discriminate.
  - assert (Hun : forall s : AutomationCore.t X,
               AutomationCore._initialized s = false ->
               fst (AutomationCore.perform c (s, w))
               <> Raise BackendNotInitialized).
    { intros s Hi.
      pose proof (ensure_initialized_raises s w (or_introl Hi)) as E.
      assert (Ep : AutomationCore.perform c (s, w)
                   = (Raise CoreNotInitialized, (s, w))).
      { destruct c; try discriminate Hc; cbn [AutomationCore.perform];
          try apply outcome_raise; apply (bind_raise _ _ _ _ _ E). }
      rewrite Ep. discriminate. }
    destruct Hs as [-> | [-> | ->]]; try (apply Hun; reflexivity).
    rewrite (perform_run (AutomationCore.mk (Some (Mac ready_backend)) true)
               w (Mac ready_backend) c eq_refl eq_refl Hc).
    destruct (backend_call c (Mac ready_backend, note_call (method_of c) w))
      as [r [b' w']] eqn:E.
    cbn [fst]. intros ->.
    apply (backend_call_other c ready_backend (note_call (method_of c) w)
             BackendNotInitialized); [split; reflexivity | exact Hc | |
                                      reflexivity].
    now rewrite E.
Qed.
End Hidden.


(* ------------------------------------------------------------------ *)
(** ** The theorems at work on the simulated host *)

#[global] Existing Instance sim_host.

Lemma initialized_iff_backend_ready_witness :
  let self : AutomationCore.t MockBackend.t :=
    fst (snd (AutomationCore.perform AutomationCore.c_init
                (AutomationCore.__init__, sim_world 0 0))) in
  AutomationCore.reachable self
  /\ (AutomationCore._initialized self = true
      <-> AutomationCore.backend_ready self).
Proof.
  cbv zeta. split.
  - apply AutomationCore.reachable_call, AutomationCore.reachable_new.
  - refine (proj1 (initialized_iff_backend_ready _ _)).
    apply AutomationCore.reachable_call, AutomationCore.reachable_new.
Defined.

Lemma cleanup_outcome_witness :
  let self : AutomationCore.t MockBackend.t :=
    AutomationCore.mk (Some (Mac ready_backend)) true in
  AutomationCore._backend self = Some (Mac ready_backend)
  /\ AutomationCore.cleanup (self, sim_world 0 0)
     = (Ok tt, (AutomationCore.mk None false,
                note_call m_cleanup (sim_world 0 0))).
Proof.
  cbv zeta. split; [reflexivity|].
  apply (proj2 (proj2 cleanup_outcome) _ _ ready_backend). reflexivity.
Defined.

(** C2 as stated fails: the cleanup of this backend raises, and the
    orchestrator keeps the handle and the flag. *)
Lemma cleanup_raising_keeps_backend :
  let self : AutomationCore.t DeadBackend.t :=
    AutomationCore.mk (Some (Other DeadBackend.mk)) true in
  let out := AutomationCore.cleanup (self, sim_world 0 0) in
  fst out = Raise DeadBackend.gone
  /\ invoked (snd (snd out)) = [m_cleanup]
  /\ ~ (AutomationCore._backend (fst (snd out)) = None
        /\ AutomationCore._initialized (fst (snd out)) = false).
Proof.
  cbv zeta. split; [reflexivity|]. split; [reflexivity|].
  intros [Hb _]. discriminate Hb.
Qed.

Lemma uninitialized_calls_raise_witness :
  let self : AutomationCore.t MockBackend.t := AutomationCore.__init__ in
  let c := AutomationCore.c_press_key (pystr_of_string "a") in
  AutomationCore.is_lifecycle c = false
  /\ (AutomationCore._initialized self = false
      \/ AutomationCore._backend self = None)
  /\ AutomationCore.perform c (self, sim_world 0 0)
     = (Raise CoreNotInitialized, (self, sim_world 0 0)).
Proof.
  cbv zeta. split; [reflexivity|]. split; [left; reflexivity|].
  apply (proj1 uninitialized_calls_raise); [reflexivity | left; reflexivity].
Defined.

Lemma hotkey_down_then_up_witness :
  let keys := [pystr_of_string "command"; pystr_of_string "Shift"; pystr_of_string "c"] in
  ready ready_backend
  /\ Forall (fun k => exists code, recognized k code) keys
  /\ exists w', MacOSBackend.hotkey ready_backend keys (sim_world 0 0)
                = (Ok tt, w').
Proof.
  cbv zeta.
  assert (Hr : ready ready_backend) by (split; reflexivity).
  assert (Hk : Forall (fun k => exists code, recognized k code)
                      [pystr_of_string "command"; pystr_of_string "Shift"; pystr_of_string "c"]).
  { repeat constructor; eexists; vm_compute; reflexivity. }
  split; [exact Hr|]. split; [exact Hk|].
  destruct (hotkey_down_then_up ready_backend _ (sim_world 0 0) Hr Hk)
    as (w' & _ & _ & E & _).
  exists w'. exact E.
Defined.

Lemma click_events_witness :
  ready ready_backend
  /\ cursor_at (sim_world 3 4) (3, 4)
  /\ exists w',
       MacOSBackend.click ready_backend None None LEFT 2 (Finite 1)
                          (sim_world 3 4) = (Ok tt, w')
       /\ trace w' = intersperse [Sleep (Finite 1)]
                       [click_pair LEFT (3, 4) 1; click_pair LEFT (3, 4) 2].
Proof.
  assert (Hr : ready ready_backend) by (split; reflexivity).
  assert (Hc : cursor_at (sim_world 3 4) (3, 4)).
  { eexists _, _. split; reflexivity. }
  split; [exact Hr|]. split; [exact Hc|].
  destruct (click_events ready_backend None None LEFT 2 (Finite 1)
              (sim_world 3 4) (3, 4) Hr (fun _ => Hc))
    as (w' & E & T & _).
  exists w'. split; [exact E | exact T].
Defined.

Lemma move_mouse_events_witness :
  ready ready_backend
  /\ (0 < 1)%Q /\ (1 <= inject_Z (2 ^ 40))%Q
  /\ cursor_at (sim_world 0 0) (0, 0)
  /\ exists w',
       MacOSBackend.move_mouse ready_backend 100 50 (Finite 1) (sim_world 0 0)
       = (Ok tt, w')
       /\ path_point 0 0 100 50 100 100 = (100, 50).
Proof.
  assert (Hr : ready ready_backend) by (split; reflexivity).
  assert (Hc : cursor_at (sim_world 0 0) (0, 0)).
  { eexists _, _. split; reflexivity. }
  assert (H0 : (0 < 1)%Q) by reflexivity.
  assert (H1 : (1 <= inject_Z (2 ^ 40))%Q) by (unfold Qle; cbn; lia).
  split; [exact Hr|]. split; [exact H0|]. split; [exact H1|].
  split; [exact Hc|].
  destruct (proj2 (move_mouse_events ready_backend 100 50 (sim_world 0 0) Hr)
              1%Q 0 0 H0 H1 Hc ltac:(cbn; lia) ltac:(cbn; lia)
              ltac:(cbn; lia) ltac:(cbn; lia))
    as (p & w' & Ep & _ & _ & E & _ & _ & Hend).
  exists w'. split; [exact E|].
  replace (Z.max (trunc p) 2) with 100 in Hend; [exact Hend|].
  vm_compute in Ep. inversion Ep. reflexivity.
Defined.

(** C6 as stated fails: moving from (0, 0) to (100, 0) in one second
    takes 100 steps, and step 29 is posted at x = 28, while
    0 + (100 - 0) * 29 / 100 is 29. *)
Lemma move_mouse_step_off_the_line :
  let w' := snd (MacOSBackend.move_mouse ready_backend 100 0 (Finite 1)
                   (sim_world 0 0)) in
  to_int (mul (Finite 1) (Finite 100)) = Ok 100
  /\ nth_error (trace w') (2 * 28)
     = Some (posted (MouseEvent kCGEventMouseMoved (28, 0) 0 []))
  /\ exact_step 0 100 29 100 = 29
  /\ path_point 0 0 100 0 100 29 <> (exact_step 0 100 29 100,
                                     exact_step 0 0 29 100).
Proof.
  cbv zeta. split; [vm_compute; reflexivity|].
  split; [vm_compute; reflexivity|]. split; [vm_compute; reflexivity|].
  vm_compute. discriminate.
Qed.

Lemma locate_on_screen_result_witness :
  let region := Some (Region.mk 1 2 30 40) in
  let image := pystr_of_string "button.png" in
  import_cv2 (os (sim_world 0 0)) = true
  /\ fst (MacOSBackend.take_screenshot ready_backend region (sim_world 0 0))
     = Ok [[(x30, x20, x10)%byte]]
  /\ MacOSBackend.locate_on_screen ready_backend image (Finite (9 # 10))
       region IMAGE (sim_world 0 0)
     = (Ok (Some (Region.mk 8 11 3 2)), sim_world 0 0).
Proof.
  cbv zeta. split; [reflexivity|]. split; [reflexivity|].
  pose proof (locate_on_screen_result ready_backend (pystr_of_string "button.png")
                (Finite (9 # 10)) (Some (Region.mk 1 2 30 40)) IMAGE
                (sim_world 0 0) [[(x30, x20, x10)%byte]]
                eq_refl eq_refl) as T.
  cbv beta iota zeta delta [cv2_imread_grayscale sim_host pystr_eqb] in T.
  destruct T as (found & E & _ & Hge).
  rewrite (Hge eq_refl) in E. exact E.
Defined.

Lemma type_text_events_witness :
  ready ready_backend
  /\ exists w',
       MacOSBackend.type_text ready_backend [104; 955]%N (Finite 0)
                              (sim_world 0 0) = (Ok tt, w').
Proof.
  assert (Hr : ready ready_backend) by (split; reflexivity).
  split; [exact Hr|].
  destruct (proj1 type_text_events ready_backend [104; 955]%N (Finite 0)
              (sim_world 0 0) Hr) as (w' & chunks & E & _).
  exists w'. exact E.
Defined.

Lemma unknown_key_value_error_witness :
  ready ready_backend
  /\ unrecognized (pystr_of_string "nonexistent_key")
  /\ MacOSBackend.press_key ready_backend (pystr_of_string "nonexistent_key")
                            (sim_world 0 0)
     = (Raise (UnknownKey (pystr_of_string "nonexistent_key")), sim_world 0 0)
  /\ In ("esc"%string, 0x35) MacOSBackend._KEYCODE_MAP
  /\ case_variant (pystr_of_string "Esc") (pystr_of_string "esc")
  /\ MacOSBackend._resolve_keycode (pystr_of_string "Esc") = Ok 0x35.
Proof.
  assert (Hr : ready ready_backend) by (split; reflexivity).
  assert (Hu : unrecognized (pystr_of_string "nonexistent_key")) by reflexivity.
  assert (Hin : In ("esc"%string, 0x35) MacOSBackend._KEYCODE_MAP).
  { vm_compute. tauto. }
  assert (Hv : case_variant (pystr_of_string "Esc") (pystr_of_string "esc")).
  { unfold case_variant. cbn. constructor.
    - right. split; [lia | reflexivity].
    - repeat (constructor; [left; reflexivity|]). constructor. }
  split; [exact Hr|]. split; [exact Hu|]. split; [|split; [exact Hin|split]].
  - apply (proj1 unknown_key_value_error ready_backend _ (sim_world 0 0) Hr Hu).
  - exact Hv.
  - apply (proj2 unknown_key_value_error _ _ _ Hin Hv).
Defined.

Lemma hotkey_unknown_key_posts_nothing_witness :
  let keys := [pystr_of_string "command"; pystr_of_string "nonexistent_key"; pystr_of_string "c"] in
  ready ready_backend
  /\ Exists unrecognized keys
  /\ trace (snd (MacOSBackend.hotkey ready_backend keys (sim_world 0 0))) = [].
Proof.
  cbv zeta.
  assert (Hr : ready ready_backend) by (split; reflexivity).
  assert (Hu : Exists unrecognized
                      [pystr_of_string "command"; pystr_of_string "nonexistent_key"; pystr_of_string "c"]).
  { apply Exists_cons_tl, Exists_cons_hd. reflexivity. }
  split; [exact Hr|]. split; [exact Hu|].
  destruct (hotkey_unknown_key_posts_nothing ready_backend _ (sim_world 0 0)
              Hr Hu) as (k & _ & _ & _ & _ & _ & T).
  exact T.
Defined.

(** Outside the bounds of [move_mouse_events] the arithmetic is no longer
    exact: a target beyond 2^53 is missed by the last step, and a duration
    whose hundredfold overflows makes [int] raise. *)
Example move_mouse_target_beyond_precision :
  MacOSBackend.interpolate 0 (2 ^ 53 + 1) (Finite 1) = Ok (2 ^ 53).
Proof. vm_compute. reflexivity. Qed.

Example move_mouse_duration_overflow :
  to_int (mul (Finite (inject_Z (2 ^ 1020))) (Finite 100)) = Raise FloatInfToInt.
Proof. vm_compute. reflexivity. Qed.

(** The scenario of the specification: init, size, moveTo(100, 100, 0),
    position, cleanup, position. *)
Example lifecycle_scenario :
  let s0 : AutomationCore.t MockBackend.t * World :=
    (AutomationCore.__init__, sim_world 7 9) in
  let '(r1, s1) := AutomationCore.init s0 in
  let '(r2, s2) := AutomationCore.get_screen_size s1 in
  let '(r3, s3) := AutomationCore.move_mouse 100 100 (Finite 0) s2 in
  let '(r4, s4) := AutomationCore.get_mouse_position s3 in
  let '(r5, s5) := AutomationCore.cleanup s4 in
  let '(r6, s6) := AutomationCore.get_mouse_position s5 in
  r1 = Ok tt
  /\ r2 = Ok (Size.mk 1920 1080)
  /\ r3 = Ok tt
  /\ r4 = Ok (Point.mk 100 100)
  /\ r5 = Ok tt
  /\ r6 = Raise CoreNotInitialized
  /\ invoked (snd s6) = [m_initialize; m_get_screen_size; m_move_mouse;
                         m_get_mouse_position; m_cleanup]
  /\ constructed (snd s6) = 1%nat.
Proof. vm_compute. repeat split. Qed.

(* ------------------------------------------------------------------ *)
(** ** The further properties at work on the simulated host *)

Lemma backend_not_ready_raises_witness :
  ~ ready MacOSBackend.__init__
  /\ MacOSBackend.press_key MacOSBackend.__init__ (pystr_of_string "a")
       (sim_world 0 0)
     = (Raise BackendNotInitialized, sim_world 0 0).
Proof.
  assert (Hn : ~ ready MacOSBackend.__init__).
  { intros [Hc _]. discriminate Hc. }
  split; [exact Hn|].
  destruct (backend_not_ready_raises MacOSBackend.__init__ (sim_world 0 0) Hn)
    as (_ & _ & _ & _ & _ & _ & Hk & _).
  exact (proj2 (proj2 (Hk (pystr_of_string "a")))).
Defined.

Lemma locate_error_order_witness :
  import_cv2 (os (sim_world 0 0)) = true
  /\ ~ ready MacOSBackend.__init__
  /\ MacOSBackend.locate_on_screen MacOSBackend.__init__
       (pystr_of_string "button.png") (Finite (9 # 10)) None IMAGE
       (sim_world 0 0)
     = (Raise BackendNotInitialized, sim_world 0 0).
Proof.
  assert (Hn : ~ ready MacOSBackend.__init__).
  { intros [Hc _]. discriminate Hc. }
  split; [reflexivity|]. split; [exact Hn|].
  exact (proj1 (proj2 (locate_error_order MacOSBackend.__init__
                         (pystr_of_string "button.png") (Finite (9 # 10))
                         None IMAGE (sim_world 0 0)) eq_refl Hn)).
Defined.

Lemma backend_lifecycle_witness :
  import_Quartz (os (sim_world 0 0)) = true
  /\ exists self',
       BackendBase.initialize (MacOSBackend.__init__, sim_world 0 0)
       = (Ok tt, (self', sim_world 0 0))
       /\ ready self'.
Proof.
  split; [reflexivity|].
  exact (proj1 (backend_lifecycle MacOSBackend.__init__ (sim_world 0 0))
           eq_refl).
Defined.

Lemma press_key_events_witness :
  ready ready_backend
  /\ recognized (pystr_of_string "Shift") 0x38
  /\ MacOSBackend.press_key ready_backend (pystr_of_string "Shift")
       (sim_world 0 0)
     = (Ok tt, emit [KeyboardEvent 0x38 true (Z.shiftl 1 17) None;
                     KeyboardEvent 0x38 false 0 None] (sim_world 0 0)).
Proof.
  assert (Hr : ready ready_backend) by (split; reflexivity).
  assert (Hk : recognized (pystr_of_string "Shift") 0x38) by reflexivity.
  split; [exact Hr|]. split; [exact Hk|].
  exact (proj1 (proj2 (press_key_events ready_backend _ _ (sim_world 0 0)
                         Hr Hk))).
Defined.

Lemma scroll_events_witness :
  ready ready_backend
  /\ MacOSBackend.scroll ready_backend (-3) (Some 10) (Some 20) (sim_world 0 0)
     = (Ok tt, emit [MouseEvent kCGEventMouseMoved (10, 20) 0 [];
                     ScrollWheelEvent 0 1 (-3)] (sim_world 0 0)).
Proof.
  assert (Hr : ready ready_backend) by (split; reflexivity).
  split; [exact Hr|].
  exact (scroll_events ready_backend (-3) (Some 10) (Some 20) (sim_world 0 0)
           Hr).
Defined.

Lemma modifier_is_key_witness :
  dict_get MacOSBackend._MODIFIER_FLAGS (str_lower (pystr_of_string "Cmd"))
  = Some (Z.shiftl 1 20)
  /\ modifier_flag (pystr_of_string "Cmd") = Z.shiftl 1 20
  /\ exists code, recognized (pystr_of_string "Cmd") code.
Proof.
  split; [reflexivity|].
  exact (proj2 (modifier_is_key (pystr_of_string "Cmd") (Z.shiftl 1 20)
                  eq_refl)).
Defined.

Lemma hotkey_releases_all_witness :
  let keys := [pystr_of_string "command"; pystr_of_string "c"] in
  ready ready_backend
  /\ Forall (fun k => exists code, recognized k code) keys
  /\ recognized (pystr_of_string "command") 0x37
  /\ exists w',
       MacOSBackend.hotkey ready_backend keys (sim_world 0 0) = (Ok tt, w')
       /\ List.length (trace w') = 4%nat
       /\ nth_error (trace w') 3
          = Some (posted (KeyboardEvent 0x37 false 0 None)).
Proof.
  cbv zeta.
  assert (Hr : ready ready_backend) by (split; reflexivity).
  assert (Hk : Forall (fun k => exists code, recognized k code)
                      [pystr_of_string "command"; pystr_of_string "c"]).
  { repeat constructor; eexists; vm_compute; reflexivity. }
  assert (Hc : recognized (pystr_of_string "command") 0x37) by reflexivity.
  split; [exact Hr|]. split; [exact Hk|]. split; [exact Hc|].
  destruct (hotkey_releases_all ready_backend _ _ _ (sim_world 0 0) Hr Hk Hc)
    as (w' & downs & ups & E & T & _ & before & Hup).
  exists w'.
  assert (Ew : w' = snd (MacOSBackend.hotkey ready_backend
                           [pystr_of_string "command"; pystr_of_string "c"]
                           (sim_world 0 0))) by now rewrite E.
  split; [exact E|]. rewrite Ew. repeat split.
Defined.

Lemma event_counts_witness :
  ready ready_backend
  /\ exists added,
       trace (snd (MacOSBackend.type_text ready_backend [104; 105]%N
                     (Finite (1 # 10)) (sim_world 0 0)))
       = trace (sim_world 0 0) ++ added
       /\ count_posts added = 4%nat
       /\ count_sleeps added = 2%nat.
Proof.
  assert (Hr : ready ready_backend) by (split; reflexivity).
  split; [exact Hr|].
  exact (proj1 (proj2 (event_counts ready_backend (sim_world 0 0) Hr))
           [104; 105]%N (Finite (1 # 10))).
Defined.

Lemma move_mouse_duration_not_finite_witness :
  ready ready_backend
  /\ cursor_at (sim_world 0 0) (0, 0)
  /\ MacOSBackend.move_mouse ready_backend 100 50 NaN (sim_world 0 0)
     = (Raise FloatNaNToInt, sim_world 0 0)
  /\ MacOSBackend.move_mouse ready_backend 100 50 (Inf false) (sim_world 0 0)
     = (Raise FloatInfToInt, sim_world 0 0).
Proof.
  assert (Hr : ready ready_backend) by (split; reflexivity).
  assert (Hc : cursor_at (sim_world 0 0) (0, 0)).
  { eexists _, _. split; reflexivity. }
  split; [exact Hr|]. split; [exact Hc|].
  destruct (move_mouse_duration_not_finite ready_backend 100 50
              (sim_world 0 0) (0, 0) Hr Hc) as (E1 & _ & E2 & _).
  split; [exact E1 | exact E2].
Defined.

Lemma take_screenshot_result_witness :
  ready ready_backend
  /\ exists image,
       MacOSBackend.take_screenshot ready_backend None (sim_world 0 0)
       = (Ok image, sim_world 0 0)
       /\ List.length image = 1%nat
       /\ Forall (fun row => List.length row = 1%nat) image.
Proof.
  assert (Hr : ready ready_backend) by (split; reflexivity).
  split; [exact Hr|].
  destruct (proj2 (proj2 (take_screenshot_result ready_backend None
                            (sim_world 0 0) Hr)
                     (mkCGImage 1 1 4 [x10; x20; x30; xff]%byte) eq_refl
                     ltac:(cbn; lia) ltac:(cbn; lia) ltac:(cbn; lia))
              eq_refl)
    as (image & E & Hl & Hrow & _).
  exists image. split; [exact E|]. split; [exact Hl | exact Hrow].
Defined.


Lemma init_outcome_witness :
  let self : AutomationCore.t MockBackend.t := AutomationCore.__init__ in
  AutomationCore._initialized self = false
  /\ AutomationCore.init (self, sim_world 0 0)
     = (Ok tt, (AutomationCore.mk (Some (Mac ready_backend)) true,
                note_call m_initialize (note_construction (sim_world 0 0)))).
Proof.
  cbv zeta. split; [reflexivity|].
  exact (proj2 (proj2 (init_outcome
                         (AutomationCore.__init__
                          : AutomationCore.t MockBackend.t)
                         (sim_world 0 0) eq_refl))
           eq_refl eq_refl).
Defined.

Lemma reachable_states_witness :
  let self : AutomationCore.t MockBackend.t :=
    fst (snd (AutomationCore.perform AutomationCore.c_init
                (AutomationCore.__init__, sim_world 0 0))) in
  AutomationCore.reachable self
  /\ lifecycle_state self.
Proof.
  cbv zeta.
  assert (Hr : AutomationCore.reachable
                 (fst (snd (AutomationCore.perform AutomationCore.c_init
                              (AutomationCore.__init__
                               : AutomationCore.t MockBackend.t,
                               sim_world 0 0))))).
  { apply AutomationCore.reachable_call, AutomationCore.reachable_new. }
  split; [exact Hr|].
  exact (proj1 (reachable_states _ Hr)).
Defined.

Lemma cleanup_resets_witness :
  let self : AutomationCore.t MockBackend.t :=
    fst (snd (AutomationCore.perform AutomationCore.c_init
                (AutomationCore.__init__, sim_world 0 0))) in
  AutomationCore.reachable self
  /\ exists w',
       AutomationCore.cleanup (self, sim_world 0 0)
       = (Ok tt, (AutomationCore.__init__, w'))
       /\ invoked w' = [m_cleanup].
Proof.
  cbv zeta.
  assert (Hr : AutomationCore.reachable
                 (fst (snd (AutomationCore.perform AutomationCore.c_init
                              (AutomationCore.__init__
                               : AutomationCore.t MockBackend.t,
                               sim_world 0 0))))).
  { apply AutomationCore.reachable_call, AutomationCore.reachable_new. }
  split; [exact Hr|].
  destruct (cleanup_resets _ (sim_world 0 0) Hr) as (w' & E & _ & Hi & _).
  exists w'. split; [exact E | exact Hi].
Defined.

Lemma delegation_witness :
  let self : AutomationCore.t MockBackend.t :=
    AutomationCore.mk (Some (Mac ready_backend)) true in
  AutomationCore._initialized self = true
  /\ AutomationCore._backend self = Some (Mac ready_backend)
  /\ AutomationCore.get_mouse_position (self, sim_world 3 4)
     = (Ok (Point.mk 3 4), (self, note_call m_get_mouse_position
                                    (sim_world 3 4))).
Proof.
  cbv zeta. split; [reflexivity|]. split; [reflexivity|].
  exact (proj1 (proj2 (delegation
                         (AutomationCore.mk (Some (Mac ready_backend)) true
                          : AutomationCore.t MockBackend.t)
                         (sim_world 3 4) (Mac ready_backend)
                         eq_refl eq_refl))).
Defined.

Lemma click_button_value_witness :
  let s : AutomationCore.t MockBackend.t * World :=
    (AutomationCore.__init__, sim_world 0 0) in
  (forall b, pystr_of_string "Left" <> MouseButton_value b)
  /\ exists e,
       autoguix.click None None 1 (Finite 0) (pystr_of_string "Left") s
       = (Raise e, s)
       /\ class_of e = ValueError.
Proof.
  cbv zeta.
  assert (Hno : forall b, pystr_of_string "Left" <> MouseButton_value b).
  { intros []; discriminate. }
  split; [exact Hno|].
  exact (proj1 (proj2 (proj2 (click_button_value None None 1 (Finite 0)
                                (AutomationCore.__init__
                                 : AutomationCore.t MockBackend.t,
                                 sim_world 0 0))))
           (pystr_of_string "Left") Hno).
Defined.

Lemma click_shortcuts_witness :
  let self : AutomationCore.t MockBackend.t :=
    AutomationCore.mk (Some (Mac ready_backend)) true in
  ready ready_backend
  /\ exists w',
       autoguix.doubleClick (Some 5) (Some 6) (self, sim_world 0 0)
       = (Ok tt, (self, w'))
       /\ trace w'
          = posted (MouseEvent kCGEventMouseMoved (5, 6) 0 [])
            :: click_pair LEFT (5, 6) 1 ++ click_pair LEFT (5, 6) 2.
Proof.
  cbv zeta.
  assert (Hr : ready ready_backend) by (split; reflexivity).
  split; [exact Hr|].
  assert (Hc : Some 5 = None \/ Some 6 = None -> cursor_at (sim_world 0 0) (0, 0)).
  { intros [E|E]; discriminate E. }
  exact (proj1 (@click_shortcuts _ MockBackend.t _ ready_backend
                  (Some 5) (Some 6) (sim_world 0 0) (0, 0) Hr Hc)).
Defined.

Lemma position_and_size_conversion_witness :
  ready ready_backend
  /\ snd (MacOSBackend.get_mouse_position ready_backend (sim_world 3 4))
     = sim_world 3 4
  /\ exists zx zy,
       fst (MacOSBackend.get_screen_size ready_backend (sim_world 3 4))
       = Ok (Size.mk zx zy)
       /\ toward_zero 1920 zx /\ toward_zero 1080 zy.
Proof.
  assert (Hr : ready ready_backend) by (split; reflexivity).
  split; [exact Hr|].
  pose proof (position_and_size_conversion ready_backend (sim_world 3 4) Hr)
    as T.
  cbv beta zeta in T. destruct T as [[Hp _] [_ Hs]].
  split; [exact Hp | exact Hs].
Defined.

Lemma ready_backend_raises_only_witness :
  ready ready_backend
  /\ raises_only (fun _ => False)
       (MacOSBackend.type_text ready_backend [104; 105]%N (Finite 0))
  /\ raises_only (fun _ => False)
       (MacOSBackend.scroll ready_backend (-3) None None).
Proof.
  assert (Hr : ready ready_backend) by (split; reflexivity).
  split; [exact Hr|].
  destruct (ready_backend_raises_only ready_backend Hr) as (Ht & Hs & _).
  split; [apply Ht | apply Hs].
Defined.

Lemma backend_state_error_hidden_witness :
  let self : AutomationCore.t MockBackend.t :=
    fst (snd (AutomationCore.perform AutomationCore.c_init
                (AutomationCore.__init__, sim_world 0 0))) in
  AutomationCore.reachable self
  /\ fst (AutomationCore.perform
            (AutomationCore.c_press_key (pystr_of_string "a"))
            (self, sim_world 0 0))
     <> Raise BackendNotInitialized.
Proof.
  cbv zeta.
  assert (Hr : AutomationCore.reachable
                 (fst (snd (AutomationCore.perform AutomationCore.c_init
                              (AutomationCore.__init__
                               : AutomationCore.t MockBackend.t,
                               sim_world 0 0))))).
  { apply AutomationCore.reachable_call, AutomationCore.reachable_new. }
  split; [exact Hr|].
  exact (backend_state_error_hidden _ _ (sim_world 0 0) Hr).
Defined.
